(** * SkyPortal / TNS integration: handlers and detached retrieval tasks

    A shallow embedding of [skyportal/handlers/api/tns.py] and of the
    [TNSRobot] model of [skyportal/models/tns.py].

    - Python values that travel through request bodies, credential blobs and
      TNS replies are values of [pyval].
    - A function that logs, sleeps, talks to TNS or touches the database
      session is a computation of [M]: the list of events it emits, in order,
      and either a value or the exception it raises.
    - The database session and a robot row are state machines that consume
      those events ([session_step], [robot_step]).
    - What the surrounding system answers (database look-ups, TNS responses,
      the collaborators [get_IAUname], [post_source], ...) is read from an
      environment record; theorems quantify over every environment. *)

From Stdlib Require Import ZArith QArith String Ascii List Bool Lia.
From stdpp Require Import base option list gmap strings.
Import ListNotations.

Set Warnings "-register-all".
Set Default Proof Using "Type".

Local Open Scope Z_scope.
Local Open Scope string_scope.
Local Open Scope list_scope.

(** ** Python values *)

(** JSON-shaped Python values.  A [PDict] keeps insertion order, as Python
    dictionaries do. *)
Inductive pyval : Type :=
| PNone
| PBool (b : bool)
| PInt (z : Z)
| PFloat (q : Q)
| PStr (s : string)
| PList (l : list pyval)
| PDict (d : list (string * pyval)).

Abbreviation dict := (list (string * pyval)).

(** Exceptions, with the message of a [ValueError] kept symbolic. *)
Inductive message : Type :=
| MissingTNSInformation                 (* 'Missing TNS information.' *)
| MissingTNSAPIKey                      (* 'Missing TNS API key.' *)
| NoObjectWithID (obj_id : pyval)       (* 'No object available with ID ..' *)
| NoTNSRobotWithID (robot_id : pyval)   (* 'No TNSRobot available with ID ..' *)
| NoTNSRobotID (robot_id : pyval)       (* 'No TNS robot with ID ..' *)
| NoSpectrumWithID (spectrum_id : pyval)
| NotYetPostedToTNS (obj_id : pyval)    (* '.. not yet posted to TNS.' *)
| NoObjectsSince (start_date : pyval)   (* 'No objects posted to TNS since ..' *)
| RateExceeded                          (* 'TNS request failed: request rate exceeded.' *)
| InvalidIntLiteral (text : string)     (* int() on a malformed string *)
| NotInList (v : pyval)                 (* list.index on an absent element *)
| GroupIdsRequired                      (* 'group_ids is required' *)
| GroupIdsTypeNotUnderstood             (* 'group_ids type not understood' *)
| TnsrobotIDRequired                    (* 'tnsrobotID is required' *)
| ReportersRequired
| ArchivalCommentRequired
| TNSNameMissing                        (* 'TNS name missing... please first post to TNS.' *)
| BotIdMustBeInteger
| BotNameMustBeNonEmptyString
| SourceGroupIdMustBeInteger
| AutoReportGroupIdsMustBeList
| AutoReportGroupIdsMustBeIntegers
| AutoReportersRequired
| ResponseContent (content : string).   (* f'{r.content}' *)

Inductive exn : Type :=
| ValueError (m : message)
| TypeError
| KeyError (key : string)
| IndexError
| AttributeError
| UnboundLocalError (name : string)
| JSONDecodeError
| ParserError                           (* arrow.get on an unreadable date *)
| ExternalError (who : string).         (* raised inside a collaborator or by the transport *)

Inductive result (A : Type) : Type :=
| Ok (a : A)
| Raise (e : exn).
Arguments Ok {A} a.
Arguments Raise {A} e.

(** *** Dictionaries *)

Fixpoint dict_get (k : string) (d : dict) : option pyval :=
  match d with
  | [] => None
  | (k', v) :: d' => if String.eqb k k' then Some v else dict_get k d'
  end.

Definition dict_has (k : string) (d : dict) : bool :=
  match dict_get k d with Some _ => true | None => false end.

(** [d[k] = v]: the entry keeps its place when the key is present and is
    appended otherwise. *)
Fixpoint dict_set (k : string) (v : pyval) (d : dict) : dict :=
  match d with
  | [] => [(k, v)]
  | (k', v') :: d' =>
      if String.eqb k k' then (k', v) :: d' else (k', v') :: dict_set k v d'
  end.

(** [d.get(k, default)] *)
Definition dict_get_default (k : string) (default : pyval) (d : dict) : pyval :=
  match dict_get k d with Some v => v | None => default end.

(** A Python dictionary never holds a key twice. *)
Definition dict_wf (d : dict) : Prop := NoDup (map fst d).

(** *** Truth value, membership, subscripting *)

Definition truthy (v : pyval) : bool :=
  match v with
  | PNone => false
  | PBool b => b
  | PInt z => negb (Z.eqb z 0)
  | PFloat q => negb (Qeq_bool q 0)
  | PStr s => negb (String.eqb s "")
  | PList l => match l with [] => false | _ => true end
  | PDict d => match d with [] => false | _ => true end
  end.

Definition is_str (v : pyval) : bool :=
  match v with PStr _ => true | _ => false end.

Definition is_list (v : pyval) : bool :=
  match v with PList _ => true | _ => false end.

Definition is_none (v : pyval) : bool :=
  match v with PNone => true | _ => false end.

(** [v == s] for a string literal [s]: only a string can be equal to it. *)
Definition eq_str (s : string) (v : pyval) : bool :=
  match v with PStr s' => String.eqb s s' | _ => false end.

(** [v in [None, '']] *)
Definition none_or_empty (v : pyval) : bool := is_none v || eq_str "" v.

Fixpoint prefix_of (p s : string) : bool :=
  match p, s with
  | EmptyString, _ => true
  | String a p', String b s' => Ascii.eqb a b && prefix_of p' s'
  | String _ _, EmptyString => false
  end.

Fixpoint substring_of (p s : string) : bool :=
  prefix_of p s ||
  match s with
  | EmptyString => false
  | String _ s' => substring_of p s'
  end.

(** ['key' in v] *)
Definition py_in (k : string) (v : pyval) : result bool :=
  match v with
  | PDict d => Ok (dict_has k d)
  | PList l => Ok (existsb (eq_str k) l)
  | PStr s => Ok (substring_of k s)
  | _ => Raise TypeError
  end.

(** [v['key']] *)
Definition py_getitem (k : string) (v : pyval) : result pyval :=
  match v with
  | PDict d => match dict_get k d with Some x => Ok x | None => Raise (KeyError k) end
  | _ => Raise TypeError
  end.

(** [v.get('key', {})]: only dictionaries have the method. *)
Definition py_get_or_empty (k : string) (v : pyval) : result pyval :=
  match v with
  | PDict d => Ok (dict_get_default k (PDict []) d)
  | _ => Raise AttributeError
  end.

(** [len(v)] *)
Definition py_len (v : pyval) : result Z :=
  match v with
  | PStr s => Ok (Z.of_nat (String.length s))
  | PList l => Ok (Z.of_nat (length l))
  | PDict d => Ok (Z.of_nat (length d))
  | _ => Raise TypeError
  end.

(** [for x in v]: the elements a loop over [v] visits. *)
Definition py_iter (v : pyval) : result (list pyval) :=
  match v with
  | PList l => Ok l
  | PDict d => Ok (map (fun kv => PStr (fst kv)) d)
  | PStr s => Ok (map (fun c => PStr (String c EmptyString)) (list_ascii_of_string s))
  | _ => Raise TypeError
  end.

(** *** [str.split(',')], [str.strip()] and [int()] *)

Definition comma : ascii := ","%char.

Fixpoint split_comma (s : string) : list string :=
  match s with
  | EmptyString => [EmptyString]
  | String c s' =>
      if Ascii.eqb c comma then EmptyString :: split_comma s'
      else match split_comma s' with
           | [] => [String c EmptyString]
           | x :: xs => String c x :: xs
           end
  end.

(** A character of a string is a code point below 256.  The characters
    [str.strip()] removes among them: tab to carriage return, the four
    separators 28..31, the space, next line (133) and the no-break space
    (160). *)
Definition is_space (c : ascii) : bool :=
  let n := nat_of_ascii c in
  ((9 <=? n) && (n <=? 13) || (28 <=? n) && (n <=? 32) || (n =? 133) || (n =? 160))%nat.

(** The characters [int()] skips around a literal: those of [str.strip()]
    without the separators 28..31, which [int()] rejects. *)
Definition is_int_space (c : ascii) : bool :=
  let n := nat_of_ascii c in
  ((9 <=? n) && (n <=? 13) || (n =? 32) || (n =? 133) || (n =? 160))%nat.

Fixpoint lstrip (cs : list ascii) : list ascii :=
  match cs with
  | c :: cs' => if is_space c then lstrip cs' else cs
  | [] => []
  end.

Definition strip_chars (cs : list ascii) : list ascii :=
  rev (lstrip (rev (lstrip cs))).

Fixpoint int_lstrip (cs : list ascii) : list ascii :=
  match cs with
  | c :: cs' => if is_int_space c then int_lstrip cs' else cs
  | [] => []
  end.

Definition int_strip_chars (cs : list ascii) : list ascii :=
  rev (int_lstrip (rev (int_lstrip cs))).

Definition digit_val (c : ascii) : option Z :=
  let n := nat_of_ascii c in
  if ((48 <=? n) && (n <=? 57))%nat then Some (Z.of_nat n - 48) else None.

(** Digits after the first one, a single underscore allowed between two
    digits. *)
Fixpoint more_digits (cs : list ascii) (acc : Z) : option Z :=
  match cs with
  | [] => Some acc
  | c :: rest =>
      match digit_val c with
      | Some d => more_digits rest (10 * acc + d)
      | None =>
          if Ascii.eqb c "_"%char then
            match rest with
            | c' :: rest' =>
                match digit_val c' with
                | Some d => more_digits rest' (10 * acc + d)
                | None => None
                end
            | [] => None
            end
          else None
      end
  end.

Definition unsigned_literal (cs : list ascii) : option Z :=
  match cs with
  | c :: rest =>
      match digit_val c with
      | Some d => more_digits rest d
      | None => None
      end
  | [] => None
  end.

(** [int(s)] for a string, base ten: blanks around the literal, an optional
    sign, then digits. *)
Definition int_of_string (s : string) : option Z :=
  match int_strip_chars (list_ascii_of_string s) with
  | c :: rest =>
      if Ascii.eqb c "-"%char then option_map Z.opp (unsigned_literal rest)
      else if Ascii.eqb c "+"%char then unsigned_literal rest
      else unsigned_literal (c :: rest)
  | [] => None
  end.

(** Truncation of a rational towards zero, as [int(x)] does for a float. *)
Definition trunc (q : Q) : Z := Z.quot (Qnum q) (Zpos (Qden q)).

(** [int(v)] *)
Definition py_int (v : pyval) : result Z :=
  match v with
  | PInt z => Ok z
  | PBool b => Ok (if b then 1 else 0)
  | PFloat q => Ok (trunc q)
  | PStr s => match int_of_string s with
              | Some z => Ok z
              | None => Raise (ValueError (InvalidIntLiteral s))
              end
  | _ => Raise TypeError
  end.

Example int_plain : int_of_string "42" = Some 42.
Proof. reflexivity. Qed.
Example int_spaces_sign : int_of_string " -1_000 " = Some (-1000).
Proof. reflexivity. Qed.
Example int_empty : int_of_string "" = None.
Proof. reflexivity. Qed.
Example int_letters : int_of_string "a" = None.
Proof. reflexivity. Qed.
Example int_separator :
  int_of_string (String (ascii_of_nat 28) "12") = None /\
  strip_chars (list_ascii_of_string (String (ascii_of_nat 28) "12"))
  = list_ascii_of_string "12".
Proof. split; reflexivity. Qed.
Example split_two : split_comma "1,a" = ["1"; "a"].
Proof. reflexivity. Qed.
Example split_empty : split_comma "" = [""].
Proof. reflexivity. Qed.

(** ** Events and computations *)

(** What the detached tasks write to the log. *)
Inductive logmsg : Type :=
| LogPostingSource (source_id : pyval)
| LogBulkUnable (start_date : pyval) (e : exn)
| LogRateLimited (body : pyval)
| LogCannotReadPhotometry (phot : pyval) (e : exn)
| LogFailedPhotometry (failed total : nat)
| LogCannotReadSpectrum (spectrum : pyval) (e : exn)
| LogRetrieved (obj_id : pyval) (tns_name : string)
| LogFailedRetrieve (obj_id : pyval) (content : string)
| LogUnable (obj_id : pyval) (e : exn).

(** Changes made through the database session; they are pending until the
    session commits. *)
Inductive write : Type :=
| WSource (source : pyval) (group_ids : pyval)
| WTnsName (obj_id : pyval) (tns_name : string)
| WTnsInfo (obj_id : pyval) (source_data : pyval)
| WSpectrum (data : pyval).

Record spectrumdict : Type := {
  sd_instrumentid : pyval;
  sd_observer : pyval;
  sd_reducer : pyval;
  sd_spectypeid : Z;
  sd_ascii_file : string * pyval;   (* f'{spectrum.instrument.name}.{spectrum_id}' *)
  sd_fits_file : string;
  sd_remarks : pyval;
  sd_spec_proprietary_period : Q;
  sd_obsdate : pyval;
  sd_exptime : option pyval
}.

Record classification_report : Type := {
  cr_name : string;
  cr_classifier : pyval;
  cr_objtypeid : pyval;
  cr_groupid : pyval;
  cr_remarks : pyval;
  cr_spectra : spectrumdict;
  cr_redshift : option Q
}.

(** Calls that reach TNS over the network. *)
Inductive tns_call : Type :=
| GetIAUname
| GetRecentTNS
| PostObject                               (* requests.post(object_url, ..) *)
| PostUpload (lines : list (Q * Q * option Q))   (* requests.post(upload_url, ..) *)
| PostReport (report : classification_report).   (* requests.post(report_url, ..) *)

(** Work handed to the executor. *)
Inductive task : Type :=
| TaskBulkRetrieval (start_date tnsrobot_id user_id group_ids
                     include_photometry include_spectra : pyval)
| TaskRetrieval (obj_id tnsrobot_id user_id include_photometry include_spectra : pyval)
| TaskPostTNS (obj_ids : list pyval)
              (tnsrobot_id user_id reporters archival archival_comment : pyval)
              (timeout : Z).

Inductive event : Type :=
| ELog (l : logmsg)
| ESleep (seconds : Z)
| ETNS (c : tns_call)
| EAddPhotometry (obj_id group_ids rows : pyval)   (* add_external_photometry *)
| EAcquire                                         (* Session() of the scoped registry *)
| EQuery                                           (* a read through the session *)
| EWrite (w : write)
| ECommit
| EClose
| ERemove
| EPush (action : string) (payload : dict)
| ESetAttr (key : string) (value : pyval)          (* setattr(tnsrobot, key, value) *)
| ELaunch (t : task).                              (* run_in_executor *)

(** A computation: the events it emits, then its outcome. *)
Definition M (A : Type) : Type := list event * result A.

Definition ret {A} (a : A) : M A := ([], Ok a).

Definition bind {A B} (m : M A) (k : A -> M B) : M B :=
  match m with
  | (t, Ok a) => let (t', r) := k a in (t ++ t', r)
  | (t, Raise e) => (t, Raise e)
  end.

Definition raise {A} (e : exn) : M A := ([], Raise e).

Definition emit (e : event) : M unit := ([e], Ok tt).

Definition lift {A} (r : result A) : M A := ([], r).

(** [try: m except Exception as e: h e] *)
Definition try_except {A} (m : M A) (h : exn -> M A) : M A :=
  match m with
  | (t, Raise e) => let (t', r) := h e in (t ++ t', r)
  | ok => ok
  end.

(** [try: m finally: f] *)
Definition try_finally {A} (m : M A) (f : M unit) : M A :=
  let (t, r) := m in
  match f with
  | (t', Ok _) => (t ++ t', r)
  | (t', Raise e) => (t ++ t', Raise e)
  end.

Arguments bind : simpl never.
Arguments try_except : simpl never.
Arguments try_finally : simpl never.
Arguments ret : simpl never.
Arguments raise : simpl never.
Arguments emit : simpl never.
Arguments lift : simpl never.

Definition events {A} (m : M A) : list event := fst m.
Definition outcome {A} (m : M A) : result A := snd m.

Declare Scope py_scope.
Delimit Scope py_scope with py.
Notation "x <- m ;; k" := (bind m (fun x => k))
  (at level 100, m at next level, right associativity) : py_scope.
Notation "m ;; k" := (bind m (fun _ => k))
  (at level 100, right associativity) : py_scope.
Local Open Scope py_scope.

(** ** The database session *)

(** [closed] holds when [close()] has been called and the session has not
    been used since: SQLAlchemy rolls the pending work back on [close()] and
    lets the session begin anew on its next use.  [registered] tells whether
    the scoped registry holds the session. *)
Record session_state : Type := {
  durable : list write;
  pending : list write;
  closed : bool;
  registered : bool
}.

Definition fresh_session : session_state :=
  {| durable := []; pending := []; closed := false; registered := false |}.

Definition session_step (s : session_state) (e : event) : session_state :=
  match e with
  | EAcquire =>
      {| durable := durable s; pending := pending s; closed := closed s; registered := true |}
  | EQuery =>
      {| durable := durable s; pending := pending s; closed := false;
         registered := registered s |}
  | EWrite w =>
      {| durable := durable s; pending := pending s ++ [w]; closed := false;
         registered := registered s |}
  | ECommit =>
      {| durable := durable s ++ pending s; pending := []; closed := false;
         registered := registered s |}
  | EClose =>
      {| durable := durable s; pending := []; closed := true; registered := registered s |}
  | ERemove =>
      {| durable := durable s; pending := []; closed := true; registered := false |}
  | _ => s
  end.

Definition run_session (t : list event) (s : session_state) : session_state :=
  fold_left session_step t s.

Definition is_commit (e : event) : bool :=
  match e with ECommit => true | _ => false end.

Definition is_close (e : event) : bool :=
  match e with EClose => true | _ => false end.

(** [close()] or [Session.remove()] *)
Definition is_release (e : event) : bool :=
  match e with EClose | ERemove => true | _ => false end.

Definition is_network (e : event) : bool :=
  match e with ETNS _ => true | _ => false end.

Definition is_refresh_source (e : event) : bool :=
  match e with EPush a _ => String.eqb a "skyportal/REFRESH_SOURCE" | _ => false end.

Definition is_object_post (e : event) : bool :=
  match e with ETNS PostObject => true | _ => false end.

Definition is_sleep (e : event) : bool :=
  match e with ESleep _ => true | _ => false end.

Definition is_upload (e : event) : bool :=
  match e with ETNS (PostUpload _) => true | _ => false end.

Definition is_report (e : event) : bool :=
  match e with ETNS (PostReport _) => true | _ => false end.

Definition count_events (p : event -> bool) (t : list event) : nat :=
  length (filter (fun e => p e = true) t).

(** ** The TNSRobot model *)

(** A robot row: its attributes by name.  A column that was never set
    reads as [None]. *)
Abbreviation Robot := (gmap string pyval).

Definition robot_attr (k : string) (r : Robot) : pyval :=
  match r !! k with Some v => v | None => PNone end.

(** [altdata.setter] *)
Definition set_altdata (value : pyval) (r : Robot) : Robot :=
  <["_altdata" := value]> r.

(** [setattr(tnsrobot, key, val)]: [altdata] is the property, any other name
    is a plain attribute. *)
Definition setattr (key : string) (val : pyval) (r : Robot) : Robot :=
  if String.eqb key "altdata" then set_altdata val r else <[key := val]> r.

Definition robot_step (r : Robot) (e : event) : Robot :=
  match e with
  | ESetAttr k v => setattr k v r
  | _ => r
  end.

Definition run_robot (t : list event) (r : Robot) : Robot :=
  fold_left robot_step t r.

Section Decoder.

(** [json.loads] on text; [None] stands for [JSONDecodeError]. *)
Variable json_loads : string -> option pyval.

(** The [altdata] property of [TNSRobot]. *)
Definition altdata (r : Robot) : result pyval :=
  match robot_attr "_altdata" r with
  | PNone => Ok (PDict [])
  | PStr s =>
      match json_loads s with
      | Some v => Ok v
      | None => Raise JSONDecodeError
      end
  | _ => Raise TypeError
  end.

End Decoder.

(** ** The detached retrieval tasks *)

Record Response : Type := {
  status_code : Z;
  json : option pyval;        (* r.json(); None when the body is not JSON *)
  content : string
}.

Definition response_json (r : Response) : result pyval :=
  match json r with
  | Some v => Ok v
  | None => Raise JSONDecodeError
  end.

Record User : Type := {
  accessible_groups : list Z
}.

Record Obj : Type := {
  redshift : option Q;
  internal_key : string
}.

(** [[g.id for g in user.accessible_groups]] *)
Definition accessible_group_ids (user : option User) : result pyval :=
  match user with
  | Some u => Ok (PList (map PInt (accessible_groups u)))
  | None => Raise AttributeError
  end.

(** The handle of the one session a task works with; [parent_session] is
    [None] or such a handle. *)
Inductive session_handle : Type := TheSession.

(** What the world answers to one run of [tns_retrieval]. *)
Record retrieval_env : Type := {
  re_user : option User;                          (* select(User) *)
  re_obj : option Obj;                            (* Obj.select(user) *)
  re_robot : option Robot;                        (* TNSRobot.select(user) *)
  re_iauname : result (option string);            (* get_IAUname: the name, if any *)
  re_fetch : nat -> result Response;              (* the n-th POST to object_url *)
  re_read_photometry : pyval -> result pyval;     (* read_tns_photometry *)
  re_add_photometry : pyval -> result unit;       (* add_external_photometry *)
  re_read_spectrum : pyval -> result pyval;       (* read_tns_spectrum *)
  re_post_spectrum : pyval -> result unit         (* post_spectrum *)
}.

Definition count_limit : nat := 5.

(** The [while r.status_code == 429 and count < count_limit] loop.  Each
    turn increments [count], so [count_limit] units of [fuel] are never
    used up before the guard fails ([rate_limit_loop_exit]). *)
Fixpoint rate_limit_loop (fetch : nat -> result Response) (fuel : nat)
    (r : Response) (count : nat) : M (Response * nat) :=
  if Z.eqb (status_code r) 429 && (count <? count_limit)%nat then
    match fuel with
    | O => ret (r, count)
    | S fuel' =>
        body <- lift (response_json r) ;;
        emit (ELog (LogRateLimited body)) ;;
        emit (ESleep 30) ;;
        emit (ETNS PostObject) ;;
        r' <- lift (fetch (S count)) ;;
        rate_limit_loop fetch fuel' r' (S count)
    end
  else ret (r, count).

(** The request to [object_url] with its retries, up to the
    [count == count_limit] test. *)
Definition fetch_object (fetch : nat -> result Response) : M Response :=
  emit (ETNS PostObject) ;;
  r <- lift (fetch O) ;;
  rc <- rate_limit_loop fetch count_limit r O ;;
  if (snd rc =? count_limit)%nat then raise (ValueError RateExceeded)
  else ret (fst rc).

(** [for phot in photometry], each record in its own [try]. *)
Fixpoint photometry_loop (env : retrieval_env) (obj_id group_ids : pyval)
    (photometry : list pyval) (failed_photometry : list pyval) : M (list pyval) :=
  match photometry with
  | [] => ret failed_photometry
  | phot :: rest =>
      failed <- try_except
        (rows <- lift (re_read_photometry env phot) ;;
         lift (re_add_photometry env rows) ;;
         emit (EAddPhotometry obj_id group_ids rows) ;;
         ret failed_photometry)
        (fun e =>
           emit (ELog (LogCannotReadPhotometry phot e)) ;;
           ret (failed_photometry ++ [phot])) ;;
      photometry_loop env obj_id group_ids rest failed
  end.

(** [data["obj_id"] = obj_id; data["group_ids"] = group_ids] *)
Definition tag_spectrum (data obj_id group_ids : pyval) : result pyval :=
  match data with
  | PDict d => Ok (PDict (dict_set "group_ids" group_ids (dict_set "obj_id" obj_id d)))
  | _ => Raise TypeError
  end.

(** [for spectrum in spectra]: a spectrum that cannot be read is skipped,
    [post_spectrum] runs outside the [try].  Nothing is ever appended to
    [failed_spectra], so the summary line after the loop is never logged. *)
Fixpoint spectra_loop (env : retrieval_env) (obj_id group_ids : pyval)
    (spectra : list pyval) : M unit :=
  match spectra with
  | [] => ret tt
  | spectrum :: rest =>
      match re_read_spectrum env spectrum with
      | Raise e =>
          emit (ELog (LogCannotReadSpectrum spectrum e)) ;;
          spectra_loop env obj_id group_ids rest
      | Ok data =>
          data' <- lift (tag_spectrum data obj_id group_ids) ;;
          lift (re_post_spectrum env data') ;;
          emit (EWrite (WSpectrum data')) ;;
          spectra_loop env obj_id group_ids rest
      end
  end.

(** [if include and 'key' in source_data], with Python's short circuit. *)
Definition wanted (include : pyval) (key : string) (source_data : pyval) : result bool :=
  if truthy include then py_in key source_data else Ok false.

(** The [if r.status_code == 200:] branch. *)
Definition process_reply (env : retrieval_env) (obj_id include_photometry include_spectra : pyval)
    (tns_name : string) (r : Response) : M unit :=
  body <- lift (response_json r) ;;
  data <- lift (py_get_or_empty "data" body) ;;
  source_data <- lift (py_get_or_empty "reply" data) ;;
  (if truthy source_data then
     emit (EWrite (WTnsInfo obj_id source_data)) ;;
     group_ids <- lift (accessible_group_ids (re_user env)) ;;
     want_photometry <- lift (wanted include_photometry "photometry" source_data) ;;
     (if want_photometry : bool then
        photometry_v <- lift (py_getitem "photometry" source_data) ;;
        photometry <- lift (py_iter photometry_v) ;;
        failed <- photometry_loop env obj_id group_ids photometry [] ;;
        if (0 <? length failed)%nat
        then emit (ELog (LogFailedPhotometry (length failed) (length photometry)))
        else ret tt
      else ret tt) ;;
     want_spectra <- lift (wanted include_spectra "spectra" source_data) ;;
     (if want_spectra : bool then
        group_ids <- lift (accessible_group_ids (re_user env)) ;;
        spectra_v <- lift (py_getitem "spectra" source_data) ;;
        spectra <- lift (py_iter spectra_v) ;;
        spectra_loop env obj_id group_ids spectra
      else ret tt)
   else ret tt) ;;
  emit (ELog (LogRetrieved obj_id tns_name)).

Definition refresh_source (obj : Obj) : event :=
  EPush "skyportal/REFRESH_SOURCE" [("obj_key", PStr (internal_key obj))].

Section Tasks.

Variable json_loads : string -> option pyval.

(** The credential checks shared by every entry point that raises:
    [altdata = tnsrobot.altdata], then the two tests. *)
Definition checked_altdata (robot : Robot) : M pyval :=
  ad <- lift (altdata json_loads robot) ;;
  if negb (truthy ad) then raise (ValueError MissingTNSInformation)
  else
    has_key <- lift (py_in "api_key" ad) ;;
    if negb has_key then raise (ValueError MissingTNSAPIKey)
    else ret ad.

(** The [try] block of [tns_retrieval] up to the two log lines that end the
    [if r.status_code == 200: .. else: ..] statement; the object found is
    handed to the rest of the block. *)
Definition tns_retrieval_steps (env : retrieval_env)
    (obj_id tnsrobot_id include_photometry include_spectra : pyval) : M Obj :=
  emit EQuery ;;
  match re_obj env with
  | None => raise (ValueError (NoObjectWithID obj_id))
  | Some obj =>
      emit EQuery ;;
      match re_robot env with
      | None => raise (ValueError (NoTNSRobotWithID tnsrobot_id))
      | Some tnsrobot =>
          ad <- checked_altdata tnsrobot ;;
          _ <- lift (py_getitem "api_key" ad) ;;
          emit (ETNS GetIAUname) ;;
          name <- lift (re_iauname env) ;;
          match name with
          | None => raise (ValueError (NotYetPostedToTNS obj_id))
          | Some tns_name =>
              emit (EWrite (WTnsName obj_id tns_name)) ;;
              r <- fetch_object (re_fetch env) ;;
              (if Z.eqb (status_code r) 200
               then process_reply env obj_id include_photometry include_spectra tns_name r
               else emit (ELog (LogFailedRetrieve obj_id (content r)))) ;;
              ret obj
          end
      end
  end.

(** The whole [try] block: the steps above, then [session.commit()] and
    [flow.push(..)], which follow the [if] statement unconditionally. *)
Definition tns_retrieval_body (env : retrieval_env)
    (obj_id tnsrobot_id include_photometry include_spectra : pyval) : M unit :=
  obj <- tns_retrieval_steps env obj_id tnsrobot_id include_photometry include_spectra ;;
  emit ECommit ;;
  emit (refresh_source obj).

(** [tns_retrieval] *)
Definition tns_retrieval (env : retrieval_env)
    (obj_id tnsrobot_id user_id include_photometry include_spectra : pyval)
    (parent_session : option session_handle) : M unit :=
  (match parent_session with
   | None => emit EAcquire
   | Some _ => ret tt
   end) ;;
  emit EQuery ;;
  try_finally
    (try_except
       (tns_retrieval_body env obj_id tnsrobot_id include_photometry include_spectra)
       (fun e => emit (ELog (LogUnable obj_id e))))
    (match parent_session with
     | Some _ => emit EClose ;; emit ERemove
     | None => ret tt
     end).

(** What the world answers while the bulk loop handles one TNS source. *)
Record source_env : Type := {
  se_source : pyval;                    (* the entry of get_recent_TNS *)
  se_local : option Obj;                (* Obj.select(user) for source['id'] *)
  se_post_source : result unit;         (* post_source *)
  se_retrieval : retrieval_env
}.

Record bulk_env : Type := {
  be_user : option User;
  be_robot : option Robot;
  be_recent : result (list source_env)  (* get_recent_TNS *)
}.

(** One turn of [for source in tns_sources]. *)
Definition bulk_step (s : source_env)
    (tnsrobot_id user_id group_ids include_photometry include_spectra : pyval) : M unit :=
  source_id <- lift (py_getitem "id" (se_source s)) ;;
  emit EQuery ;;
  (match se_local s with
   | None =>
       emit (ELog (LogPostingSource source_id)) ;;
       lift (se_post_source s) ;;
       emit (EWrite (WSource (se_source s) group_ids))
   | Some _ => ret tt
   end) ;;
  tns_retrieval (se_retrieval s) source_id tnsrobot_id user_id
    include_photometry include_spectra (Some TheSession).

Fixpoint bulk_loop (sources : list source_env)
    (tnsrobot_id user_id group_ids include_photometry include_spectra : pyval) : M unit :=
  match sources with
  | [] => ret tt
  | s :: rest =>
      bulk_step s tnsrobot_id user_id group_ids include_photometry include_spectra ;;
      bulk_loop rest tnsrobot_id user_id group_ids include_photometry include_spectra
  end.

(** A turn of the loop raises when [source['id']] fails or when
    [post_source], called for a source that is not there yet, raises;
    [tns_retrieval] itself never does. *)
Definition step_raises (s : source_env) : bool :=
  match py_getitem "id" (se_source s) with
  | Raise _ => true
  | Ok _ =>
      match se_local s, se_post_source s with
      | None, Raise _ => true
      | _, _ => false
      end
  end.

(** The sources the loop handles in full: those before the first turn
    that raises. *)
Fixpoint handled (sources : list source_env) : list source_env :=
  match sources with
  | [] => []
  | s :: rest => if step_raises s then [] else s :: handled rest
  end.

(** The [try] block of the inner [tns_retrieval] of a source reaches its
    end. *)
Definition completes (tnsrobot_id include_photometry include_spectra : pyval)
    (s : source_env) : bool :=
  match py_getitem "id" (se_source s) with
  | Ok source_id =>
      match outcome (tns_retrieval_steps (se_retrieval s) source_id tnsrobot_id
                       include_photometry include_spectra) with
      | Ok _ => true
      | Raise _ => false
      end
  | Raise _ => false
  end.

(** The body of the [try] of [tns_bulk_retrieval]. *)
Definition tns_bulk_retrieval_body (env : bulk_env)
    (start_date tnsrobot_id user_id group_ids include_photometry include_spectra : pyval)
    : M unit :=
  emit EQuery ;;
  match be_robot env with
  | None => raise (ValueError (NoTNSRobotWithID tnsrobot_id))
  | Some tnsrobot =>
      ad <- checked_altdata tnsrobot ;;
      _ <- lift (py_getitem "api_key" ad) ;;
      emit (ETNS GetRecentTNS) ;;
      tns_sources <- lift (be_recent env) ;;
      match tns_sources with
      | [] => raise (ValueError (NoObjectsSince start_date))
      | _ =>
          bulk_loop tns_sources tnsrobot_id user_id group_ids
            include_photometry include_spectra ;;
          emit ECommit
      end
  end.

(** [tns_bulk_retrieval] *)
Definition tns_bulk_retrieval (env : bulk_env)
    (start_date tnsrobot_id user_id group_ids include_photometry include_spectra : pyval)
    : M unit :=
  emit EAcquire ;;
  emit EQuery ;;
  group_ids' <- (if is_none group_ids then lift (accessible_group_ids (be_user env))
                 else ret group_ids) ;;
  try_finally
    (try_except
       (tns_bulk_retrieval_body env start_date tnsrobot_id user_id group_ids'
          include_photometry include_spectra)
       (fun e => emit (ELog (LogBulkUnable start_date e))))
    (emit EClose ;; emit ERemove).

End Tasks.

(** ** Request handlers *)

(** The envelope a handler returns: [self.success(data=..)] or
    [self.error(..)].  An exception that leaves the handler is the [Raise]
    outcome of the computation, not an envelope. *)
Inductive envelope : Type :=
| Success (data : pyval)
| Error (m : message).

Definition is_success (r : result envelope) : bool :=
  match r with Ok (Success _) => true | _ => false end.

Definition strip (s : string) : string :=
  string_of_list_ascii (strip_chars (list_ascii_of_string s)).

(** [[int(x) for x in xs]] *)
Fixpoint ints_of (xs : list pyval) : result (list Z) :=
  match xs with
  | [] => Ok []
  | x :: rest =>
      match py_int x with
      | Raise e => Raise e
      | Ok z =>
          match ints_of rest with
          | Raise e => Raise e
          | Ok zs => Ok (z :: zs)
          end
      end
  end.

(** What the surrounding system answers to a trigger request. *)
Record handler_env : Type := {
  he_robot : option Robot;                 (* TNSRobot.select(..).first() *)
  he_obj : option Obj;                     (* Obj.select(..).first() *)
  he_user_id : pyval;                      (* self.associated_user_object.id *)
  he_day_ago : pyval;                      (* Time.now() - TimeDelta(1 * u.day) *)
  he_arrow_get : string -> option pyval    (* Time(arrow.get(text).datetime) *)
}.

(** ** The spectrum push *)

Record Spectrum : Type := {
  sp_obj : Obj;
  sp_instrument_name : string;
  sp_instrument_tns_id : pyval;
  sp_altdata : pyval;
  sp_wavelengths : list Q;
  sp_fluxes : list Q;
  sp_errors : option (list Q);
  sp_observers : pyval;
  sp_reducers : pyval;
  sp_observed_at : pyval
}.

Record spectrum_env : Type := {
  sv_robot : option Robot;
  sv_spectrum : option Spectrum;
  sv_iauname : result (option string);     (* get_IAUname *)
  sv_upload : result Response;             (* POST to upload_url *)
  sv_report : result Response              (* POST to report_url *)
}.

Definition spectrum_types : list string :=
  ["object"; "host"; "sky"; "arcs"; "synthetic"].

(** [l.index(v)] *)
Fixpoint list_index (v : pyval) (l : list string) : option nat :=
  match l with
  | [] => None
  | x :: rest =>
      if eq_str x v then Some O
      else match list_index v rest with
           | Some i => Some (S i)
           | None => None
           end
  end.

(** [['object', 'host', 'sky', 'arcs', 'synthetic'].index(spectrum_type) + 1] *)
Definition spectype_id (spectrum_type : pyval) : result Z :=
  match list_index spectrum_type spectrum_types with
  | Some i => Ok (Z.of_nat i + 1)
  | None => Raise (ValueError (NotInList spectrum_type))
  end.

(** The rows written to the temporary file: [wav[i]], [flux[i]] and, when
    there are errors, [err[i]], for [i] in [range(len(wav))]. *)
Fixpoint file_lines (wav flux : list Q) (err : option (list Q))
    : result (list (Q * Q * option Q)) :=
  match wav with
  | [] => Ok []
  | w :: wav' =>
      match flux with
      | [] => Raise IndexError
      | f :: flux' =>
          match err with
          | None =>
              match file_lines wav' flux' None with
              | Ok rest => Ok ((w, f, None) :: rest)
              | Raise e => Raise e
              end
          | Some [] => Raise IndexError
          | Some (e :: err') =>
              match file_lines wav' flux' (Some err') with
              | Ok rest => Ok ((w, f, Some e) :: rest)
              | Raise x => Raise x
              end
          end
      end
  end.

(** The local variable [redshift] after
    [if spectrum.obj.redshift: redshift = spectrum.obj.redshift]:
    [None] stands for a name that was never bound. *)
Definition bind_redshift (obj : Obj) : option Q :=
  match redshift obj with
  | Some z => if truthy (PFloat z) then Some z else None
  | None => None
  end.

(** Reading the local variable in [if redshift is not None]. *)
Definition read_redshift (local : option Q) : result Q :=
  match local with
  | Some z => Ok z
  | None => Raise (UnboundLocalError "redshift")
  end.

Section Handlers.

Variable json_loads : string -> option pyval.

(** The credential checks of the trigger handlers: the same two tests as in
    the tasks, answered with an error envelope. *)
Definition with_api_key (robot : Robot) (k : M envelope) : M envelope :=
  ad <- lift (altdata json_loads robot) ;;
  if negb (truthy ad) then ret (Error MissingTNSInformation)
  else
    has_key <- lift (py_in "api_key" ad) ;;
    if negb has_key then ret (Error MissingTNSAPIKey)
    else k.

(** The first block of [BulkTNSHandler.post]: the value of [group_ids]
    ([inr]), or the envelope of an early return ([inl]). *)
Definition parse_group_ids (data : dict) : M (envelope + pyval) :=
  match dict_get_default "groupIds" PNone data with
  | PNone => ret (inl (Error GroupIdsRequired))
  | PStr s =>
      ids <- lift (ints_of (map PStr (split_comma s))) ;;
      ret (inr (PList (map PInt ids)))
  | PList l => ret (inr (PList l))
  | _ => ret (inl (Error GroupIdsTypeNotUnderstood))
  end.

Definition parse_start_date (env : handler_env) (data : dict) : M pyval :=
  match dict_get_default "startDate" PNone data with
  | PNone => ret (he_day_ago env)
  | PStr s =>
      match he_arrow_get env (strip s) with
      | Some t => ret t
      | None => raise ParserError
      end
  | _ => raise AttributeError
  end.

(** [BulkTNSHandler.post] *)
Definition BulkTNSHandler_post (env : handler_env) (data : dict) : M envelope :=
  g <- parse_group_ids data ;;
  match g with
  | inl early => ret early
  | inr group_ids =>
      start_date <- parse_start_date env data ;;
      match dict_get_default "tnsrobotID" PNone data with
      | PNone => ret (Error TnsrobotIDRequired)
      | tnsrobot_id =>
          let include_photometry := dict_get_default "includePhotometry" (PBool false) data in
          let include_spectra := dict_get_default "includeSpectra" (PBool false) data in
          match he_robot env with
          | None => ret (Error (NoTNSRobotWithID tnsrobot_id))
          | Some tnsrobot =>
              with_api_key tnsrobot
                (emit (ELaunch (TaskBulkRetrieval start_date (robot_attr "id" tnsrobot)
                                  (he_user_id env) group_ids
                                  include_photometry include_spectra)) ;;
                 ret (Success PNone))
          end
      end
  end.

(** [ObjTNSHandler.get]; [query] holds the query arguments. *)
Definition ObjTNSHandler_get (env : handler_env) (obj_id : pyval) (query : dict)
    : M envelope :=
  match dict_get_default "tnsrobotID" PNone query with
  | PNone => ret (Error TnsrobotIDRequired)
  | tnsrobot_id =>
      let include_photometry := dict_get_default "includePhotometry" (PBool false) query in
      let include_spectra := dict_get_default "includeSpectra" (PBool false) query in
      match he_obj env with
      | None => ret (Error (NoObjectWithID obj_id))
      | Some obj =>
          match he_robot env with
          | None => ret (Error (NoTNSRobotWithID tnsrobot_id))
          | Some tnsrobot =>
              with_api_key tnsrobot
                (emit (ELaunch (TaskRetrieval obj_id (robot_attr "id" tnsrobot)
                                  (he_user_id env) include_photometry include_spectra)) ;;
                 ret (Success PNone))
          end
      end
  end.

(** [if archival is True: if len(archival_comment) == 0:] *)
Definition archival_comment_missing (archival archival_comment : pyval) : M bool :=
  match archival with
  | PBool true => n <- lift (py_len archival_comment) ;; ret (Z.eqb n 0)
  | _ => ret false
  end.

(** [ObjTNSHandler.post] *)
Definition ObjTNSHandler_post (env : handler_env) (obj_id : pyval) (data : dict)
    : M envelope :=
  let tnsrobotID := dict_get_default "tnsrobotID" PNone data in
  let reporters := dict_get_default "reporters" (PStr "") data in
  let archival := dict_get_default "archival" (PBool false) data in
  let archival_comment := dict_get_default "archivalComment" (PStr "") data in
  if is_none tnsrobotID then ret (Error TnsrobotIDRequired)
  else if eq_str "" reporters || negb (is_str reporters) then ret (Error ReportersRequired)
  else
    match he_obj env with
    | None => ret (Error (NoObjectWithID obj_id))
    | Some obj =>
        match he_robot env with
        | None => ret (Error (NoTNSRobotWithID tnsrobotID))
        | Some tnsrobot =>
            comment_missing <- archival_comment_missing archival archival_comment ;;
            if comment_missing : bool then ret (Error ArchivalCommentRequired)
            else
              with_api_key tnsrobot
                (emit (ELaunch (TaskPostTNS [obj_id] (robot_attr "id" tnsrobot)
                                  (he_user_id env) reporters archival archival_comment 30)) ;;
                 ret (Success PNone))
        end
    end.

(** [SpectrumTNSHandler.post].  The look-ups of the external reducer and
    observer only fill entries of [spec_dict] that nothing reads afterwards;
    they are left out. *)
Definition SpectrumTNSHandler_post (env : spectrum_env) (spectrum_id : pyval) (data : dict)
    : M envelope :=
  let tnsrobotID := dict_get_default "tnsrobotID" PNone data in
  let classificationID := dict_get_default "classificationID" PNone data in
  let classifiers := dict_get_default "classifiers" (PStr "") data in
  let spectrum_type := dict_get_default "spectrumType" (PStr "") data in
  let spectrum_comment := dict_get_default "spectrumComment" (PStr "") data in
  let classification_comment := dict_get_default "classificationComment" (PStr "") data in
  if is_none tnsrobotID then ret (Error TnsrobotIDRequired)
  else
    match sv_robot env with
    | None => ret (Error (NoTNSRobotWithID tnsrobotID))
    | Some tnsrobot =>
        ad <- lift (altdata json_loads tnsrobot) ;;
        if negb (truthy ad) then ret (Error MissingTNSInformation)
        else
          match sv_spectrum env with
          | None => ret (Error (NoSpectrumWithID spectrum_id))
          | Some spectrum =>
              _ <- lift (py_getitem "api_key" ad) ;;
              emit (ETNS GetIAUname) ;;
              name <- lift (sv_iauname env) ;;
              match name with
              | None => ret (Error TNSNameMissing)
              | Some tns_name =>
                  let local_redshift := bind_redshift (sp_obj spectrum) in
                  spectype <- lift (spectype_id spectrum_type) ;;
                  exposure_time <-
                    (if is_none (sp_altdata spectrum) then ret PNone
                     else lift (py_getitem "EXPTIME" (sp_altdata spectrum))) ;;
                  lines <- lift (file_lines (sp_wavelengths spectrum) (sp_fluxes spectrum)
                                   (sp_errors spectrum)) ;;
                  let filename := (sp_instrument_name spectrum, spectrum_id) in
                  emit (ETNS (PostUpload lines)) ;;
                  r <- lift (sv_upload env) ;;
                  if negb (Z.eqb (status_code r) 200)
                  then ret (Error (ResponseContent (content r)))
                  else
                    let sd :=
                      {| sd_instrumentid := sp_instrument_tns_id spectrum;
                         sd_observer := sp_observers spectrum;
                         sd_reducer := sp_reducers spectrum;
                         sd_spectypeid := spectype;
                         sd_ascii_file := filename;
                         sd_fits_file := "";
                         sd_remarks := spectrum_comment;
                         sd_spec_proprietary_period := 0%Q;
                         sd_obsdate := sp_observed_at spectrum;
                         sd_exptime := if is_none exposure_time then None
                                       else Some exposure_time |} in
                    z <- lift (read_redshift local_redshift) ;;
                    let report :=
                      {| cr_name := tns_name;
                         cr_classifier := classifiers;
                         cr_objtypeid := classificationID;
                         cr_groupid := robot_attr "source_group_id" tnsrobot;
                         cr_remarks := classification_comment;
                         cr_spectra := sd;
                         cr_redshift := Some z |} in
                    emit (ETNS (PostReport report)) ;;
                    r2 <- lift (sv_report env) ;;
                    if Z.eqb (status_code r2) 200 then
                      body <- lift (response_json r2) ;;
                      d <- lift (py_getitem "data" body) ;;
                      tns_id <- lift (py_getitem "report_id" d) ;;
                      ret (Success (PDict [("tns_id", tns_id)]))
                    else ret (Error (ResponseContent (content r2)))
              end
          end
    end.

(** *** [TNSRobotHandler.put] *)

(** [if key in data: try: data[key] = int(data[key]) except ValueError:
    return self.error(..)]; only [ValueError] is caught. *)
Definition int_field (key : string) (err : message) (data : dict) : M (envelope + dict) :=
  match dict_get key data with
  | None => ret (inr data)
  | Some v =>
      match py_int v with
      | Ok z => ret (inr (dict_set key (PInt z) data))
      | Raise (ValueError _) => ret (inl (Error err))
      | Raise e => raise e
      end
  end.

Definition bot_name_field (data : dict) : M (envelope + dict) :=
  match dict_get "bot_name" data with
  | None => ret (inr data)
  | Some v =>
      if is_none v || eq_str "" v || negb (is_str v)
      then ret (inl (Error BotNameMustBeNonEmptyString))
      else ret (inr data)
  end.

(** [for group_id in ..: try: int(group_id) except ValueError: return ..];
    [true] when every element passes. *)
Fixpoint all_ints (l : list pyval) : M bool :=
  match l with
  | [] => ret true
  | group_id :: rest =>
      match py_int group_id with
      | Ok _ => all_ints rest
      | Raise (ValueError _) => ret false
      | Raise e => raise e
      end
  end.

Definition auto_report_group_ids_field (data : dict) : M (envelope + dict) :=
  match dict_get "auto_report_group_ids" data with
  | None => ret (inr data)
  | Some v =>
      let data1 :=
        match v with
        | PStr s => dict_set "auto_report_group_ids" (PList (map PStr (split_comma s))) data
        | _ => data
        end in
      match dict_get_default "auto_report_group_ids" PNone data1 with
      | PList l =>
          ok <- all_ints l ;;
          if ok : bool then
            match l with
            | [] => ret (inr (dict_set "auto_reporters" (PStr "") data1))
            | _ => ret (inr data1)
            end
          else ret (inl (Error AutoReportGroupIdsMustBeIntegers))
      | _ => ret (inl (Error AutoReportGroupIdsMustBeList))
      end
  end.

(** The checks of [put] that come before the session is opened. *)
Definition put_validate (data : dict) : M (envelope + dict) :=
  s1 <- int_field "bot_id" BotIdMustBeInteger data ;;
  match s1 with
  | inl early => ret (inl early)
  | inr data1 =>
      s2 <- bot_name_field data1 ;;
      match s2 with
      | inl early => ret (inl early)
      | inr data2 =>
          s3 <- int_field "source_group_id" SourceGroupIdMustBeInteger data2 ;;
          match s3 with
          | inl early => ret (inl early)
          | inr data3 => auto_report_group_ids_field data3
          end
      end
  end.

(** What the mapped class and the database answer during an update:
    whether [setattr(tnsrobot, key, val)] goes through, and whether
    [session.commit()] does for the robot as the loop left it. *)
Record orm : Type := {
  orm_setattr : string -> pyval -> result unit;
  orm_commit : Robot -> result unit
}.

(** What the declaration of [TNSRobot] says about [setattr]: [group] is a
    relationship, it takes [None] or a [Group] instance, and a request body
    holds no instance, so any other value raises.  The other names declared
    are columns and the [altdata] property, which take any value. *)
Definition setattr_outcome (key : string) (val : pyval) : result unit :=
  if String.eqb key "group" && negb (is_none val) then Raise AttributeError else Ok tt.

(** [for key, val in data.items(): setattr(tnsrobot, key, val)]: the loop
    stops at the first assignment that raises, the earlier ones stay made. *)
Fixpoint setattr_all (db : orm) (items : dict) : M unit :=
  match items with
  | [] => ret tt
  | (key, val) :: rest =>
      lift (orm_setattr db key val) ;;
      emit (ESetAttr key val) ;;
      setattr_all db rest
  end.

(** [TNSRobotHandler.put]; [robot] is what the look-up by [tnsrobot_id]
    finds.  An exception of the loop or of the commit leaves the handler
    ([except Exception as e: raise e]). *)
Definition TNSRobotHandler_put (db : orm)
    (robot : option Robot) (tnsrobot_id : pyval) (data : dict) : M envelope :=
  v <- put_validate data ;;
  match v with
  | inl early => ret early
  | inr data' =>
      match robot with
      | None => ret (Error (NoTNSRobotID tnsrobot_id))
      | Some tnsrobot =>
          n <- lift (py_len (dict_get_default "auto_report_group_ids" (PList []) data')) ;;
          if Z.ltb 0 n
             && none_or_empty (dict_get_default "auto_reporters" (PStr "") data')
             && none_or_empty (robot_attr "auto_reporters" tnsrobot)
          then ret (Error AutoReportersRequired)
          else
            setattr_all db data' ;;
            lift (orm_commit db (run_robot (events (setattr_all db data')) tnsrobot)) ;;
            emit ECommit ;;
            emit (EPush "skyportal/REFRESH_TNSROBOTS"
                    [("group_id",
                      robot_attr "group_id"
                        (run_robot (events (setattr_all db data')) tnsrobot))]) ;;
            ret (Success PNone)
      end
  end.

End Handlers.

(** ** A concrete decoder

    The models above take [json.loads] as a parameter.  Where a closed
    example needs an actual decoder, this one is used: it reads the fragment
    of JSON made of objects, arrays, strings with the two-character escapes,
    integers and the three literals; a key given twice keeps its first
    place and its last value. *)

Definition json_space (c : ascii) : bool :=
  let n := nat_of_ascii c in
  ((n =? 32) || (n =? 9) || (n =? 10) || (n =? 13))%nat.

Fixpoint skip_ws (cs : list ascii) : list ascii :=
  match cs with
  | c :: cs' => if json_space c then skip_ws cs' else cs
  | [] => []
  end.

Definition unescape (c : ascii) : option ascii :=
  let n := nat_of_ascii c in
  if (n =? 34)%nat then Some c
  else if (n =? 92)%nat then Some c
  else if (n =? 47)%nat then Some c
  else if (n =? 110)%nat then Some (ascii_of_nat 10)
  else if (n =? 116)%nat then Some (ascii_of_nat 9)
  else if (n =? 114)%nat then Some (ascii_of_nat 13)
  else if (n =? 98)%nat then Some (ascii_of_nat 8)
  else if (n =? 102)%nat then Some (ascii_of_nat 12)
  else None.

(** The characters of a string up to its closing quote; a control
    character inside a string is an error. *)
Fixpoint string_body (cs : list ascii) : option (string * list ascii) :=
  match cs with
  | [] => None
  | c :: rest =>
      if (nat_of_ascii c =? 34)%nat then Some (EmptyString, rest)
      else if (nat_of_ascii c <? 32)%nat then None
      else if (nat_of_ascii c =? 92)%nat then
        match rest with
        | e :: rest' =>
            match unescape e, string_body rest' with
            | Some c', Some (s, tl) => Some (String c' s, tl)
            | _, _ => None
            end
        | [] => None
        end
      else
        match string_body rest with
        | Some (s, tl) => Some (String c s, tl)
        | None => None
        end
  end.

Fixpoint digits_prefix (cs : list ascii) (acc : Z) : Z * list ascii :=
  match cs with
  | c :: rest =>
      match digit_val c with
      | Some d => digits_prefix rest (10 * acc + d)
      | None => (acc, cs)
      end
  | [] => (acc, [])
  end.

(** An integer literal: a single [0], or digits that do not start with
    [0]. *)
Definition number (cs : list ascii) : option (Z * list ascii) :=
  match cs with
  | c :: rest =>
      match digit_val c with
      | Some d => if Z.eqb d 0 then Some (0, rest) else Some (digits_prefix rest d)
      | None => None
      end
  | [] => None
  end.

Definition expect (c : nat) (cs : list ascii) : option (list ascii) :=
  match skip_ws cs with
  | x :: rest => if (nat_of_ascii x =? c)%nat then Some rest else None
  | [] => None
  end.

Definition literal (word : string) (v : pyval) (cs : list ascii)
    : option (pyval * list ascii) :=
  let w := list_ascii_of_string word in
  if prefix_of word (string_of_list_ascii cs)
  then Some (v, skipn (length w) cs)
  else None.

Fixpoint json_value (fuel : nat) (cs : list ascii) : option (pyval * list ascii) :=
  match fuel with
  | O => None
  | S fuel' =>
      match skip_ws cs with
      | [] => None
      | c :: rest =>
          let n := nat_of_ascii c in
          if (n =? 34)%nat then
            match string_body rest with
            | Some (s, tl) => Some (PStr s, tl)
            | None => None
            end
          else if (n =? 91)%nat then
            match expect 93 rest with
            | Some tl => Some (PList [], tl)
            | None =>
                match json_elements fuel' rest with
                | Some (l, tl) => Some (PList l, tl)
                | None => None
                end
            end
          else if (n =? 123)%nat then
            match expect 125 rest with
            | Some tl => Some (PDict [], tl)
            | None =>
                match json_members fuel' rest with
                | Some (d, tl) => Some (PDict d, tl)
                | None => None
                end
            end
          else if (n =? 45)%nat then
            match number rest with
            | Some (z, tl) => Some (PInt (- z), tl)
            | None => None
            end
          else if (n =? 110)%nat then literal "null" PNone (c :: rest)
          else if (n =? 116)%nat then literal "true" (PBool true) (c :: rest)
          else if (n =? 102)%nat then literal "false" (PBool false) (c :: rest)
          else
            match number (c :: rest) with
            | Some (z, tl) => Some (PInt z, tl)
            | None => None
            end
      end
  end
with json_elements (fuel : nat) (cs : list ascii) : option (list pyval * list ascii) :=
  match fuel with
  | O => None
  | S fuel' =>
      match json_value fuel' cs with
      | None => None
      | Some (v, tl) =>
          match expect 93 tl with
          | Some tl' => Some ([v], tl')
          | None =>
              match expect 44 tl with
              | None => None
              | Some tl' =>
                  match json_elements fuel' tl' with
                  | Some (l, tl'') => Some (v :: l, tl'')
                  | None => None
                  end
              end
          end
      end
  end
with json_members (fuel : nat) (cs : list ascii) : option (dict * list ascii) :=
  match fuel with
  | O => None
  | S fuel' =>
      match expect 34 cs with
      | None => None
      | Some tl =>
          match string_body tl with
          | None => None
          | Some (k, tl1) =>
              match expect 58 tl1 with
              | None => None
              | Some tl2 =>
                  match json_value fuel' tl2 with
                  | None => None
                  | Some (v, tl3) =>
                      match expect 125 tl3 with
                      | Some tl4 => Some ([(k, v)], tl4)
                      | None =>
                          match expect 44 tl3 with
                          | None => None
                          | Some tl4 =>
                              match json_members fuel' tl4 with
                              | Some (d, tl5) =>
                                  Some ((k, dict_get_default k v d)
                                        :: filter (fun kv => negb (String.eqb k (fst kv))) d,
                                        tl5)
                              | None => None
                              end
                          end
                      end
                  end
              end
          end
      end
  end.

Definition json_loads_basic (s : string) : option pyval :=
  let cs := list_ascii_of_string s in
  match json_value (S (length cs)) cs with
  | Some (v, tl) => match skip_ws tl with [] => Some v | _ => None end
  | None => None
  end.

(** JSON text is written with [quoted], which puts a word between two
    double-quote characters. *)
Definition dquote : string := String (ascii_of_nat 34) EmptyString.

Definition quoted (s : string) : string := dquote ++ s ++ dquote.

(** The text of a one-entry object with a string value. *)
Definition object_text (k v : string) : string :=
  "{" ++ quoted k ++ ": " ++ quoted v ++ "}".

Example loads_empty_object : json_loads_basic "{}" = Some (PDict []).
Proof. reflexivity. Qed.
Example loads_credentials :
  json_loads_basic (object_text "api_key" "secret") = Some (PDict [("api_key", PStr "secret")]).
Proof. reflexivity. Qed.
Example loads_nested :
  json_loads_basic ("{" ++ quoted "bot" ++ ": [1, -2, null, {}]}")
  = Some (PDict [("bot", PList [PInt 1; PInt (-2); PNone; PDict []])]).
Proof. reflexivity. Qed.
Example loads_single_quotes : json_loads_basic "{'api_key': 'secret'}" = None.
Proof. reflexivity. Qed.

(** ** Properties *)

(** *** Events and outcomes of composed computations *)

Lemma events_bind {A B} (m : M A) (k : A -> M B) :
  events (bind m k)
  = events m ++ match outcome m with Ok a => events (k a) | Raise _ => [] end.
Proof.
  unfold bind, events, outcome. destruct m as [t [a|e]]; simpl.
  - destruct (k a); reflexivity.
  - symmetry; apply app_nil_r.
Qed.

Lemma outcome_bind {A B} (m : M A) (k : A -> M B) :
  outcome (bind m k)
  = match outcome m with Ok a => outcome (k a) | Raise e => Raise e end.
Proof.
  unfold bind, outcome. destruct m as [t [a|e]]; simpl; [destruct (k a)|]; reflexivity.
Qed.

Lemma events_try_except {A} (m : M A) (h : exn -> M A) :
  events (try_except m h)
  = events m ++ match outcome m with Ok _ => [] | Raise e => events (h e) end.
Proof.
  unfold try_except, events, outcome. destruct m as [t [a|e]]; simpl.
  - symmetry; apply app_nil_r.
  - destruct (h e); reflexivity.
Qed.

Lemma outcome_try_except {A} (m : M A) (h : exn -> M A) :
  outcome (try_except m h)
  = match outcome m with Ok a => Ok a | Raise e => outcome (h e) end.
Proof.
  unfold try_except, outcome. destruct m as [t [a|e]]; simpl; [|destruct (h e)]; reflexivity.
Qed.

Lemma events_try_finally {A} (m : M A) (f : M unit) :
  events (try_finally m f) = events m ++ events f.
Proof.
  unfold try_finally, events. destruct m as [t r], f as [t' [u|e]]; reflexivity.
Qed.

Lemma outcome_try_finally {A} (m : M A) (f : M unit) :
  outcome (try_finally m f)
  = match outcome f with Ok _ => outcome m | Raise e => Raise e end.
Proof.
  unfold try_finally, outcome. destruct m as [t r], f as [t' [u|e]]; reflexivity.
Qed.

(** [emits P m]: every event of [m] satisfies [P]. *)
Definition emits {A} (P : event -> Prop) (m : M A) : Prop := Forall P (events m).

Lemma emits_ret {A} P (a : A) : emits P (ret a).
Proof. constructor. Qed.

Lemma emits_raise {A} P e : emits P (@raise A e).
Proof. constructor. Qed.

Lemma emits_lift {A} P (r : result A) : emits P (lift r).
Proof. constructor. Qed.

Lemma emits_emit (P : event -> Prop) e : P e -> emits P (emit e).
Proof. intros H; repeat constructor; exact H. Qed.

Lemma emits_bind {A B} P (m : M A) (k : A -> M B) :
  emits P m -> (forall a, emits P (k a)) -> emits P (bind m k).
Proof.
  unfold emits; intros Hm Hk. rewrite events_bind.
  apply Forall_app; split; [exact Hm|].
  destruct (outcome m); [apply Hk | constructor].
Qed.

Lemma emits_try_except {A} P (m : M A) h :
  emits P m -> (forall e, emits P (h e)) -> emits P (try_except m h).
Proof.
  unfold emits; intros Hm Hh. rewrite events_try_except.
  apply Forall_app; split; [exact Hm|].
  destruct (outcome m); [constructor | apply Hh].
Qed.

Lemma emits_try_finally {A} P (m : M A) f :
  emits P m -> emits P f -> emits P (try_finally m f).
Proof.
  unfold emits; intros Hm Hf. rewrite events_try_finally.
  apply Forall_app; split; assumption.
Qed.

Lemma count_events_app p (t1 t2 : list event) :
  count_events p (t1 ++ t2) = (count_events p t1 + count_events p t2)%nat.
Proof. unfold count_events. rewrite filter_app, length_app. reflexivity. Qed.

Lemma count_events_cons p e (t : list event) :
  count_events p (e :: t) = ((if p e then 1 else 0) + count_events p t)%nat.
Proof.
  unfold count_events. rewrite filter_cons.
  destruct (decide (p e = true)) as [H|H].
  - rewrite H. reflexivity.
  - destruct (p e); [congruence|reflexivity].
Qed.

Lemma count_events_none p (t : list event) :
  Forall (fun e => p e = false) t -> count_events p t = O.
Proof.
  unfold count_events. induction 1 as [|e t He _ IH]; [reflexivity|].
  rewrite filter_cons. destruct (decide (p e = true)) as [Hp|Hp]; [congruence|exact IH].
Qed.

Lemma run_session_app t1 t2 s :
  run_session (t1 ++ t2) s = run_session t2 (run_session t1 s).
Proof. apply fold_left_app. Qed.

Lemma events_emit_bind {B} e (k : unit -> M B) :
  events (bind (emit e) k) = e :: events (k tt).
Proof. rewrite events_bind. reflexivity. Qed.

Lemma outcome_emit_bind {B} e (k : unit -> M B) :
  outcome (bind (emit e) k) = outcome (k tt).
Proof. rewrite outcome_bind. reflexivity. Qed.

Lemma bind_ret {A B} (a : A) (k : A -> M B) : bind (ret a) k = k a.
Proof. unfold bind, ret. destruct (k a); reflexivity. Qed.

Lemma events_emit e : events (emit e) = [e].
Proof. reflexivity. Qed.

Lemma events_ret {A} (a : A) : events (ret a) = [].
Proof. reflexivity. Qed.

Lemma outcome_ret {A} (a : A) : outcome (ret a) = Ok a.
Proof. reflexivity. Qed.

Lemma events_raise {A} e : events (@raise A e) = [].
Proof. reflexivity. Qed.

Lemma outcome_raise {A} e : outcome (@raise A e) = Raise e.
Proof. reflexivity. Qed.

Lemma events_lift {A} (r : result A) : events (lift r) = [].
Proof. reflexivity. Qed.

Lemma outcome_lift {A} (r : result A) : outcome (lift r) = r.
Proof. reflexivity. Qed.

Lemma outcome_emit e : outcome (emit e) = Ok tt.
Proof. reflexivity. Qed.

Create Rewrite HintDb monad.
#[global] Hint Rewrite @events_bind @outcome_bind @events_try_except @outcome_try_except
  @events_try_finally @outcome_try_finally @events_ret @outcome_ret @events_raise
  @outcome_raise @events_lift @outcome_lift events_emit outcome_emit : monad.

(** [never p m]: no event of [m] is of kind [p]. *)
Definition never {A} (p : event -> bool) (m : M A) : Prop :=
  emits (fun e => p e = false) m.

(** *** What the loops emit *)

Section LoopEvents.

Variable P : event -> Prop.
Hypothesis P_log : forall l, P (ELog l).

Lemma emits_rate_limit_loop fetch fuel r count :
  (forall n, P (ESleep n)) -> P (ETNS PostObject) ->
  emits P (rate_limit_loop fetch fuel r count).
Proof using P_log.
  intros Hsleep Hpost. revert r count.
  induction fuel as [|fuel IH]; intros r count; simpl;
    destruct (Z.eqb (status_code r) 429 && (count <? count_limit)%nat);
    try apply emits_ret.
  repeat (apply emits_bind; [|intros ?]);
    try apply emits_lift; try (apply emits_emit; auto).
  apply IH.
Qed.

Lemma emits_fetch_object fetch :
  (forall n, P (ESleep n)) -> P (ETNS PostObject) ->
  emits P (fetch_object fetch).
Proof using P_log.
  intros Hsleep Hpost. unfold fetch_object.
  apply emits_bind; [apply emits_emit; exact Hpost | intros _].
  apply emits_bind; [apply emits_lift | intros r].
  apply emits_bind; [apply emits_rate_limit_loop; assumption | intros rc].
  destruct (snd rc =? count_limit)%nat; [apply emits_raise | apply emits_ret].
Qed.

Lemma emits_photometry_loop env obj_id group_ids photometry failed :
  (forall o g rows, P (EAddPhotometry o g rows)) ->
  emits P (photometry_loop env obj_id group_ids photometry failed).
Proof using P_log.
  intros Hadd. revert failed.
  induction photometry as [|phot rest IH]; intros failed; simpl; [apply emits_ret|].
  apply emits_bind; [|intros ?; apply IH].
  apply emits_try_except; [|intros e].
  - repeat (apply emits_bind; [|intros ?]);
      try apply emits_lift; try apply emits_ret.
    apply emits_emit; apply Hadd.
  - apply emits_bind; [apply emits_emit; apply P_log | intros _; apply emits_ret].
Qed.

Lemma emits_spectra_loop env obj_id group_ids spectra :
  (forall w, P (EWrite w)) ->
  emits P (spectra_loop env obj_id group_ids spectra).
Proof using P_log.
  intros Hwrite.
  induction spectra as [|spectrum rest IH]; simpl; [apply emits_ret|].
  destruct (re_read_spectrum env spectrum) as [data|e].
  - repeat (apply emits_bind; [|intros ?]); try apply emits_lift; try exact IH.
    apply emits_emit; apply Hwrite.
  - apply emits_bind; [apply emits_emit; apply P_log | intros _; exact IH].
Qed.

Lemma emits_process_reply env obj_id ip isp tns_name r :
  (forall o g rows, P (EAddPhotometry o g rows)) -> (forall w, P (EWrite w)) ->
  emits P (process_reply env obj_id ip isp tns_name r).
Proof using P_log.
  intros Hadd Hwrite. unfold process_reply.
  repeat first
    [ apply emits_lift | apply emits_ret
    | apply emits_emit; solve [apply P_log | apply Hwrite]
    | apply emits_photometry_loop; assumption
    | apply emits_spectra_loop; assumption
    | apply emits_bind; [|intros ?]
    | match goal with |- emits _ (if ?b then _ else _) => destruct b end ].
Qed.

End LoopEvents.

Section TaskProperties.

Variable json_loads : string -> option pyval.

Lemma emits_checked_altdata P robot : emits P (checked_altdata json_loads robot).
Proof.
  unfold checked_altdata.
  repeat first
    [ apply emits_ret | apply emits_raise | apply emits_lift
    | apply emits_bind; [|intros ?]
    | match goal with |- emits _ (if ?b then _ else _) => destruct b end ].
Qed.

(** *** Session release (C1) *)

Lemma emits_tns_retrieval_steps (P : event -> Prop) env obj_id robot_id ip isp :
  P EQuery -> (forall c, P (ETNS c)) -> (forall w, P (EWrite w)) ->
  (forall l, P (ELog l)) -> (forall n, P (ESleep n)) ->
  (forall o g rows, P (EAddPhotometry o g rows)) ->
  emits P (tns_retrieval_steps json_loads env obj_id robot_id ip isp).
Proof.
  intros Hq Htns Hw Hlog Hsleep Hadd. unfold tns_retrieval_steps.
  repeat first
    [ apply emits_checked_altdata
    | apply emits_ret | apply emits_raise | apply emits_lift
    | apply emits_emit; solve [auto]
    | apply emits_fetch_object; solve [auto]
    | apply emits_process_reply; solve [auto]
    | apply emits_bind; [|intros ?]
    | match goal with
      | |- emits _ (match ?x with _ => _ end) => destruct x
      end ].
Qed.

Lemma tns_retrieval_body_never_releases env obj_id robot_id ip isp :
  never is_release (tns_retrieval_body json_loads env obj_id robot_id ip isp).
Proof.
  unfold tns_retrieval_body, never.
  apply emits_bind; [apply emits_tns_retrieval_steps; intros; reflexivity | intros obj].
  apply emits_bind; [|intros _]; apply emits_emit; reflexivity.
Qed.

Lemma run_session_stays_open t s :
  Forall (fun e => is_release e = false) t ->
  closed s = false -> registered s = true ->
  closed (run_session t s) = false /\ registered (run_session t s) = true.
Proof.
  intros Ht. revert s.
  induction Ht as [|e t He _ IH]; intros s Hc Hr; [split; assumption|].
  simpl. apply IH; destruct e; simpl in *; try assumption; try reflexivity; discriminate.
Qed.

(** C1 (code bug).  The [finally] block of [tns_retrieval] tests
    [parent_session is not None]: a call that acquired its own session
    leaves it open and registered, whatever happened in between, and a call
    that was handed the session of a batch closes and removes it. *)
Theorem tns_retrieval_release_is_inverted
    env obj_id robot_id user_id ip isp (s0 : session_state) :
  let own := run_session
               (events (tns_retrieval json_loads env obj_id robot_id user_id ip isp None)) s0 in
  let shared := run_session
               (events (tns_retrieval json_loads env obj_id robot_id user_id ip isp
                          (Some TheSession))) s0 in
  (closed own = false /\ registered own = true) /\
  (closed shared = true /\ registered shared = false).
Proof.
  cbv zeta. unfold tns_retrieval. split.
  - rewrite !events_emit_bind. cbn [run_session fold_left].
    apply run_session_stays_open; [|reflexivity|reflexivity].
    rewrite events_try_finally, events_try_except.
    repeat (apply Forall_app; split).
    + apply tns_retrieval_body_never_releases.
    + destruct (outcome _); repeat constructor.
    + constructor.
  - rewrite bind_ret, events_emit_bind, events_try_finally, events_emit_bind, events_emit.
    rewrite app_comm_cons, run_session_app. split; reflexivity.
Qed.

(** *** The rate-limit loop (C3) *)

(** A response that sends the loop into one more turn: status 429 with a
    body that [r.json()] can read for the log line. *)
Definition answers_429 (x : result Response) : bool :=
  match x with
  | Ok r => Z.eqb (status_code r) 429 && match json r with Some _ => true | None => false end
  | Raise _ => false
  end.

Lemma rate_limit_loop_done fetch fuel r count :
  status_code r <> 429 \/ (count_limit <= count)%nat ->
  rate_limit_loop fetch fuel r count = ret (r, count).
Proof.
  intros H.
  assert (G : Z.eqb (status_code r) 429 && (count <? count_limit)%nat = false).
  { destruct H as [H|H].
    - apply Z.eqb_neq in H. rewrite H. reflexivity.
    - apply Nat.ltb_ge in H. rewrite H. apply andb_false_r. }
  destruct fuel; simpl; rewrite G; reflexivity.
Qed.

(** The loop run from request number [count] on: [k] more requests are
    made when the responses [count .. count + k - 1] ask for a retry and
    response [count + k] either does not or is the one that brings [count]
    to the limit. *)
Lemma rate_limit_loop_spec fetch k :
  forall fuel count r r',
    (k <= fuel)%nat -> (count + k <= count_limit)%nat ->
    fetch count = Ok r ->
    (forall i, (count <= i < count + k)%nat -> answers_429 (fetch i) = true) ->
    fetch (count + k)%nat = Ok r' ->
    status_code r' <> 429 \/ (count + k)%nat = count_limit ->
    let run := rate_limit_loop fetch fuel r count in
    outcome run = Ok (r', (count + k)%nat) /\
    count_events is_sleep (events run) = k /\
    count_events is_object_post (events run) = k /\
    Forall (fun e => e = ESleep 30 \/ is_sleep e = false) (events run).
Proof.
  induction k as [|k IH]; intros fuel count r r' Hfuel Hcount Hr Hretry Hlast Hexit; cbv zeta.
  - rewrite Nat.add_0_r in *. rewrite Hr in Hlast. injection Hlast as <-.
    rewrite rate_limit_loop_done by lia.
    repeat split. constructor.
  - destruct fuel as [|fuel]; [lia|].
    pose proof (Hretry count ltac:(lia)) as H429. rewrite Hr in H429. simpl in H429.
    apply andb_true_iff in H429 as [Hstatus Hjson].
    destruct (json r) as [body|] eqn:Hbody; [|discriminate].
    assert (Hnext : exists r1, fetch (S count) = Ok r1).
    { destruct k as [|k'].
      - exists r'. rewrite <- Hlast. f_equal. lia.
      - pose proof (Hretry (S count) ltac:(lia)) as H1.
        destruct (fetch (S count)) as [r1|]; [eauto|discriminate]. }
    destruct Hnext as [r1 Hr1].
    simpl. rewrite Hstatus.
    replace (count <? count_limit)%nat with true by (symmetry; apply Nat.ltb_lt; lia).
    simpl andb. cbv iota.
    specialize (IH fuel (S count) r1 r' ltac:(lia) ltac:(lia) Hr1).
    replace (S count + k)%nat with (count + S k)%nat in IH by lia.
    specialize (IH ltac:(intros i Hi; apply Hretry; lia) Hlast Hexit). cbv zeta in IH.
    destruct IH as (Hout & Hsl & Hpo & Hall).
    autorewrite with monad. unfold response_json. rewrite Hbody, Hr1.
    autorewrite with monad. simpl app. rewrite Hout.
    repeat split.
    + change (count_events is_sleep (ELog (LogRateLimited body) :: ESleep 30 :: ETNS PostObject
                :: events (rate_limit_loop fetch fuel r1 (S count))))
        with (S (count_events is_sleep (events (rate_limit_loop fetch fuel r1 (S count))))).
      rewrite Hsl. reflexivity.
    + change (count_events is_object_post (ELog (LogRateLimited body) :: ESleep 30
                :: ETNS PostObject :: events (rate_limit_loop fetch fuel r1 (S count))))
        with (S (count_events is_object_post
                   (events (rate_limit_loop fetch fuel r1 (S count))))).
      rewrite Hpo. reflexivity.
    + repeat (constructor; [first [left; reflexivity | right; reflexivity]|]). exact Hall.
Qed.

(** The request with its retries.  With [k < 5] the response that ends the
    loop is returned; with [k = 5] the call raises, whatever the fifth
    retry answered. *)
Lemma fetch_object_spec fetch k r' :
  (k <= count_limit)%nat ->
  (forall i, (i < k)%nat -> answers_429 (fetch i) = true) ->
  fetch k = Ok r' ->
  status_code r' <> 429 \/ k = count_limit ->
  let run := fetch_object fetch in
  outcome run = (if (k =? count_limit)%nat then Raise (ValueError RateExceeded) else Ok r') /\
  count_events is_sleep (events run) = k /\
  count_events is_object_post (events run) = S k /\
  Forall (fun e => e = ESleep 30 \/ is_sleep e = false) (events run).
Proof.
  intros Hk Hretry Hlast Hexit. cbv zeta.
  assert (H0 : exists r, fetch O = Ok r).
  { destruct k as [|k']; [eauto|].
    pose proof (Hretry O ltac:(lia)) as H. destruct (fetch O); [eauto|discriminate]. }
  destruct H0 as [r Hr].
  destruct (rate_limit_loop_spec fetch k count_limit O r r' Hk ltac:(simpl; lia) Hr
              ltac:(intros i Hi; apply Hretry; lia) Hlast Hexit) as (Hout & Hsl & Hpo & Hall).
  rewrite Nat.add_0_l in Hout.
  unfold fetch_object.
  set (L := rate_limit_loop fetch count_limit r O) in *.
  rewrite events_emit_bind, outcome_emit_bind.
  rewrite events_bind, outcome_bind, events_lift, outcome_lift, Hr.
  rewrite events_bind, outcome_bind. fold L. rewrite Hout.
  cbn [snd fst app].
  assert (Hend : events (if (k =? count_limit)%nat
                         then @raise Response (ValueError RateExceeded) else ret r') = []).
  { destruct (k =? count_limit)%nat; reflexivity. }
  rewrite Hend, app_nil_r, !count_events_cons. cbn [is_sleep is_object_post].
  rewrite Hsl, Hpo.
  repeat split.
  - destruct (k =? count_limit)%nat; reflexivity.
  - constructor; [right; reflexivity | exact Hall].
Qed.

(** A world in which everything [tns_retrieval] looks up is there and the
    robot holds an API key; [fetch] answers the requests to [object_url]. *)
Definition reply (code : Z) : Response :=
  {| status_code := code; json := Some (PDict []); content := "" |}.

Definition robot_with_key : Robot :=
  {[ "_altdata" := PStr (object_text "api_key" "secret") ]}.

Definition sample_obj : Obj := {| redshift := None; internal_key := "key-1" |}.

Definition ready_env (fetch : nat -> result Response) : retrieval_env :=
  {| re_user := Some {| accessible_groups := [1] |};
     re_obj := Some sample_obj;
     re_robot := Some robot_with_key;
     re_iauname := Ok (Some "2024abc");
     re_fetch := fetch;
     re_read_photometry := fun _ => Raise (ExternalError "read_tns_photometry");
     re_add_photometry := fun _ => Raise (ExternalError "add_external_photometry");
     re_read_spectrum := fun _ => Raise (ExternalError "read_tns_spectrum");
     re_post_spectrum := fun _ => Raise (ExternalError "post_spectrum") |}.

(** Requests 0 to 4 are answered with 429, request 5 (the fifth retry) with
    200. *)
Definition success_on_fifth_retry (n : nat) : result Response :=
  if (n <? 5)%nat then Ok (reply 429) else Ok (reply 200).

End TaskProperties.

(** A 429 answer whose body is not JSON ends the call at the log line of
    the loop, where [r.json()] raises: no sleep and no retry follow. *)
Example rate_limited_without_json_body :
  fetch_object (fun _ => Ok {| status_code := 429; json := None; content := "slow down" |})
  = ([ETNS PostObject], Raise JSONDecodeError).
Proof. reflexivity. Qed.

(** C3 (code bug).  After the loop the code tests [count == count_limit]
    instead of the status of the last response: when the fifth retry is
    answered with 200, six requests and five sleeps of 30 seconds have been
    made, and the call still fails with the rate-exceeded error; the run of
    [tns_retrieval] logs that error, commits nothing and pushes nothing. *)
Theorem fifth_retry_success_is_discarded :
  let run := fetch_object success_on_fifth_retry in
  let task := tns_retrieval json_loads_basic (ready_env success_on_fifth_retry)
                (PStr "ZTF24aa") (PInt 1) (PInt 7) (PBool false) (PBool false) None in
  success_on_fifth_retry 5 = Ok (reply 200) /\
  outcome run = Raise (ValueError RateExceeded) /\
  count_events is_object_post (events run) = 6%nat /\
  count_events is_sleep (events run) = 5%nat /\
  In (ELog (LogUnable (PStr "ZTF24aa") (ValueError RateExceeded))) (events task) /\
  count_events is_commit (events task) = 0%nat /\
  count_events is_refresh_source (events task) = 0%nat.
Proof.
  cbv zeta. repeat split; try (vm_compute; reflexivity).
  vm_compute. tauto.
Qed.

Section RetrievalProperties.

Variable json_loads : string -> option pyval.

Lemma checked_altdata_ok robot d :
  altdata json_loads robot = Ok (PDict d) -> dict_has "api_key" d = true ->
  checked_altdata json_loads robot = ret (PDict d).
Proof.
  intros Had Hkey. unfold checked_altdata. rewrite Had.
  destruct d as [|kv d']; [discriminate|].
  unfold bind, lift, ret, py_in. simpl truthy. cbv iota beta. simpl negb. cbv iota.
  rewrite Hkey. reflexivity.
Qed.

Lemma checked_altdata_no_key robot d :
  altdata json_loads robot = Ok (PDict d) -> dict_has "api_key" d = false ->
  checked_altdata json_loads robot
  = raise (ValueError (match d with
                       | [] => MissingTNSInformation
                       | _ => MissingTNSAPIKey
                       end)).
Proof.
  intros Had Hkey. unfold checked_altdata. rewrite Had.
  destruct d as [|kv d']; [reflexivity|].
  unfold bind, lift, raise, py_in. simpl truthy. cbv iota beta. simpl negb. cbv iota.
  rewrite Hkey. reflexivity.
Qed.

Lemma getitem_present k d :
  dict_has k d = true -> exists v, py_getitem k (PDict d) = Ok v.
Proof.
  unfold dict_has, py_getitem. destruct (dict_get k d); [eauto|discriminate].
Qed.

Lemma fetch_object_first_answer fetch r :
  fetch O = Ok r -> status_code r <> 429 ->
  fetch_object fetch = ([ETNS PostObject], Ok r).
Proof.
  intros Hr Hs. unfold fetch_object. rewrite Hr.
  unfold bind, emit, lift. cbv beta iota.
  rewrite rate_limit_loop_done by (left; exact Hs). reflexivity.
Qed.

(** *** The refresh notification (C6) *)

Lemma count_refresh_steps env obj_id robot_id ip isp :
  count_events is_refresh_source
    (events (tns_retrieval_steps json_loads env obj_id robot_id ip isp)) = O.
Proof.
  apply count_events_none. apply emits_tns_retrieval_steps; intros; reflexivity.
Qed.

Lemma count_commit_in_steps env obj_id robot_id ip isp :
  count_events is_commit
    (events (tns_retrieval_steps json_loads env obj_id robot_id ip isp)) = O.
Proof.
  apply count_events_none. apply emits_tns_retrieval_steps; intros; reflexivity.
Qed.

(** When the [try] block gets to [session.commit()]: the object and the
    robot are found, the credentials pass, the name is resolved, the object
    request with its retries returns a response, and a 200 response is
    handled without an exception. *)
Lemma steps_reach_end env obj_id robot_id ip isp obj :
  outcome (tns_retrieval_steps json_loads env obj_id robot_id ip isp) = Ok obj <->
  re_obj env = Some obj /\
  exists robot ad key tns_name r,
    re_robot env = Some robot /\
    outcome (checked_altdata json_loads robot) = Ok ad /\
    py_getitem "api_key" ad = Ok key /\
    re_iauname env = Ok (Some tns_name) /\
    outcome (fetch_object (re_fetch env)) = Ok r /\
    (status_code r = 200 ->
     outcome (process_reply env obj_id ip isp tns_name r) = Ok tt).
Proof.
  unfold tns_retrieval_steps. rewrite outcome_emit_bind.
  destruct (re_obj env) as [o|];
    [|split; [discriminate | intros [H _]; discriminate]].
  rewrite outcome_emit_bind.
  destruct (re_robot env) as [robot|];
    [|split; [discriminate | intros (_ & ? & ? & ? & ? & ? & H & _); discriminate]].
  rewrite outcome_bind.
  destruct (outcome (checked_altdata json_loads robot)) as [ad|e] eqn:Had;
    [|split; [discriminate | intros (_ & ? & ? & ? & ? & ? & H1 & H2 & _); congruence]].
  rewrite outcome_bind, outcome_lift.
  destruct (py_getitem "api_key" ad) as [key|e] eqn:Hkey;
    [|split; [discriminate | intros (_ & ? & ? & ? & ? & ? & H1 & H2 & H3 & _); congruence]].
  rewrite outcome_emit_bind, outcome_bind, outcome_lift.
  destruct (re_iauname env) as [[tns_name|]|e];
    [ | split; [discriminate | intros (_ & ? & ? & ? & ? & ? & _ & _ & _ & H & _); discriminate]
      | split; [discriminate | intros (_ & ? & ? & ? & ? & ? & _ & _ & _ & H & _); discriminate]].
  rewrite outcome_emit_bind, outcome_bind.
  destruct (outcome (fetch_object (re_fetch env))) as [r|e] eqn:Hr;
    [|split; [discriminate
             | intros (_ & ? & ? & ? & ? & ? & _ & _ & _ & _ & H & _); discriminate]].
  rewrite outcome_bind.
  destruct (Z.eqb (status_code r) 200) eqn:H200.
  - apply Z.eqb_eq in H200.
    destruct (outcome (process_reply env obj_id ip isp tns_name r)) as [[]|e] eqn:Hp.
    + rewrite outcome_ret. split.
      * intros [= <-]. split; [reflexivity|].
        exists robot, ad, key, tns_name, r. repeat split; auto.
      * intros [H _]. congruence.
    + split; [discriminate|].
      intros (_ & ? & ? & ? & n' & r' & _ & _ & _ & Hn & Hr' & H).
      injection Hn as <-. injection Hr' as <-. specialize (H H200). congruence.
  - apply Z.eqb_neq in H200. rewrite outcome_emit, outcome_ret. split.
    + intros [= <-]. split; [reflexivity|].
      exists robot, ad, key, tns_name, r. repeat split; auto. contradiction.
    + intros [H _]. congruence.
Qed.

(** C6 (amended).  [session.commit()] and the push of
    [skyportal/REFRESH_SOURCE] follow the [if r.status_code == 200 .. else ..]
    statement.  The notification, carrying the internal key of the object
    found, is sent once when the [try] block reaches its end and not at all
    otherwise, and so is the commit.  The block reaches its end exactly
    when the object and the robot are found, the credentials pass both
    checks, the name is resolved, the object request with its retries
    returns a response, and a 200 response is handled without an exception.
    A response returned with another status is logged as a failure, then
    committed and notified.  When the request with its retries raises,
    nothing is committed or notified. *)
Theorem refresh_pushed_when_block_completes
    env obj_id robot_id user_id ip isp parent :
  let steps := tns_retrieval_steps json_loads env obj_id robot_id ip isp in
  let run := tns_retrieval json_loads env obj_id robot_id user_id ip isp parent in
  (count_events is_refresh_source (events run)
   = match outcome steps with Ok _ => 1%nat | Raise _ => 0%nat end /\
   count_events is_commit (events run)
   = match outcome steps with Ok _ => 1%nat | Raise _ => 0%nat end)
  /\
  (forall obj, outcome steps = Ok obj ->
     re_obj env = Some obj /\ In (refresh_source obj) (events run))
  /\
  (forall obj,
     outcome steps = Ok obj <->
     re_obj env = Some obj /\
     exists robot ad key tns_name r,
       re_robot env = Some robot /\
       outcome (checked_altdata json_loads robot) = Ok ad /\
       py_getitem "api_key" ad = Ok key /\
       re_iauname env = Ok (Some tns_name) /\
       outcome (fetch_object (re_fetch env)) = Ok r /\
       (status_code r = 200 ->
        outcome (process_reply env obj_id ip isp tns_name r) = Ok tt))
  /\
  (forall obj robot d tns_name r,
     re_obj env = Some obj -> re_robot env = Some robot ->
     altdata json_loads robot = Ok (PDict d) -> dict_has "api_key" d = true ->
     re_iauname env = Ok (Some tns_name) ->
     outcome (fetch_object (re_fetch env)) = Ok r -> status_code r <> 200 ->
     events (tns_retrieval_body json_loads env obj_id robot_id ip isp)
     = [EQuery; EQuery; ETNS GetIAUname; EWrite (WTnsName obj_id tns_name)]
       ++ events (fetch_object (re_fetch env))
       ++ [ELog (LogFailedRetrieve obj_id (content r)); ECommit; refresh_source obj])
  /\
  (forall e, outcome (fetch_object (re_fetch env)) = Raise e ->
     count_events is_refresh_source (events run) = 0%nat /\
     count_events is_commit (events run) = 0%nat).
Proof.
  cbv zeta.
  assert (Hcount :
    count_events is_refresh_source
      (events (tns_retrieval json_loads env obj_id robot_id user_id ip isp parent))
    = match outcome (tns_retrieval_steps json_loads env obj_id robot_id ip isp) with
      | Ok _ => 1%nat | Raise _ => 0%nat end /\
    count_events is_commit
      (events (tns_retrieval json_loads env obj_id robot_id user_id ip isp parent))
    = match outcome (tns_retrieval_steps json_loads env obj_id robot_id ip isp) with
      | Ok _ => 1%nat | Raise _ => 0%nat end).
  { unfold tns_retrieval, tns_retrieval_body.
    split;
      (destruct parent as [h|]; [rewrite bind_ret | rewrite events_emit_bind];
       rewrite events_emit_bind, events_try_finally, events_try_except,
         events_bind, outcome_bind;
       rewrite ?count_events_cons, !count_events_app,
         ?count_refresh_steps, ?count_commit_in_steps;
       destruct (outcome (tns_retrieval_steps _ _ _ _ _ _)); reflexivity). }
  split; [exact Hcount|]. split; [|split; [|split]].
  - intros obj Ho. split; [apply (steps_reach_end env obj_id robot_id ip isp obj), Ho|].
    unfold tns_retrieval, tns_retrieval_body.
    destruct parent as [h|]; [rewrite bind_ret | rewrite events_emit_bind];
      rewrite events_emit_bind, events_try_finally, events_try_except,
        events_bind, outcome_bind, Ho, events_emit_bind, events_emit;
      simpl; rewrite ?in_app_iff; simpl; tauto.
  - intros obj. apply steps_reach_end.
  - intros obj robot d tns_name r Hobj Hrobot Had Hkey Hname Hr H200.
    destruct (getitem_present _ _ Hkey) as [v Hv].
    unfold tns_retrieval_body, tns_retrieval_steps.
    rewrite Hobj, Hrobot, (checked_altdata_ok _ _ Had Hkey), bind_ret, Hv, Hname.
    apply Z.eqb_neq in H200.
    change (lift (Ok v)) with (ret v). rewrite bind_ret.
    change (lift (Ok (Some tns_name))) with (ret (Some tns_name)).
    repeat first
      [ rewrite events_emit_bind | rewrite outcome_emit_bind | rewrite bind_ret
      | rewrite events_bind | rewrite outcome_bind | rewrite Hr | rewrite H200
      | rewrite outcome_emit | rewrite events_emit | rewrite events_ret
      | rewrite outcome_ret ].
    cbn [app]. rewrite ?app_nil_r, <- ?app_assoc. reflexivity.
  - intros e He.
    destruct (outcome (tns_retrieval_steps json_loads env obj_id robot_id ip isp))
      as [obj|e'] eqn:Ho; [|exact Hcount].
    apply steps_reach_end in Ho.
    destruct Ho as (_ & ? & ? & ? & ? & ? & _ & _ & _ & _ & H & _). congruence.
Qed.

(** The run behind the counterexample of C6: TNS answers the object request
    with 404. *)
Definition not_found_env : retrieval_env := ready_env (fun _ => Ok (reply 404)).

(** TNS answers the object request with 429 and the first retry with
    404. *)
Definition retried_not_found_env : retrieval_env :=
  ready_env (fun n => match n with O => Ok (reply 429) | _ => Ok (reply 404) end).

(** TNS answers the object request and four retries with 429, and the fifth
    retry with 404. *)
Definition late_not_found_env : retrieval_env :=
  ready_env (fun n => if (n <? 5)%nat then Ok (reply 429) else Ok (reply 404)).

End RetrievalProperties.

(** A run through the 200 branch: of three photometry records the second
    cannot be read; the other two are added, the failure is logged and
    summed up, and the retrieval ends as a success. *)
Definition photometry_env : retrieval_env :=
  {| re_user := Some {| accessible_groups := [1] |};
     re_obj := Some sample_obj;
     re_robot := Some robot_with_key;
     re_iauname := Ok (Some "2024abc");
     re_fetch := fun _ =>
       Ok {| status_code := 200;
             json := Some (PDict [("data", PDict [("reply",
                      PDict [("photometry", PList [PInt 1; PInt 2; PInt 3])])])]);
             content := "" |};
     re_read_photometry := fun phot =>
       match phot with
       | PInt 2 => Raise (ExternalError "read_tns_photometry")
       | _ => Ok phot
       end;
     re_add_photometry := fun _ => Ok tt;
     re_read_spectrum := fun _ => Raise (ExternalError "read_tns_spectrum");
     re_post_spectrum := fun _ => Raise (ExternalError "post_spectrum") |}.

Example one_bad_photometry_record :
  events (tns_retrieval_body json_loads_basic photometry_env
            (PStr "ZTF24aa") (PInt 1) (PBool true) (PBool false))
  = [EQuery; EQuery; ETNS GetIAUname; EWrite (WTnsName (PStr "ZTF24aa") "2024abc");
     ETNS PostObject;
     EWrite (WTnsInfo (PStr "ZTF24aa")
               (PDict [("photometry", PList [PInt 1; PInt 2; PInt 3])]));
     EAddPhotometry (PStr "ZTF24aa") (PList [PInt 1]) (PInt 1);
     ELog (LogCannotReadPhotometry (PInt 2) (ExternalError "read_tns_photometry"));
     EAddPhotometry (PStr "ZTF24aa") (PList [PInt 1]) (PInt 3);
     ELog (LogFailedPhotometry 1 3);
     ELog (LogRetrieved (PStr "ZTF24aa") "2024abc");
     ECommit;
     EPush "skyportal/REFRESH_SOURCE" [("obj_key", PStr "key-1")]].
Proof. vm_compute. reflexivity. Qed.

(** C6 (counterexample).  With a 404 answer the task logs the failure and
    nevertheless pushes the refresh notification. *)
Lemma refresh_pushed_after_404 :
  events (tns_retrieval json_loads_basic not_found_env
            (PStr "ZTF24aa") (PInt 1) (PInt 7) (PBool false) (PBool false) None)
  = [EAcquire; EQuery; EQuery; EQuery; ETNS GetIAUname;
     EWrite (WTnsName (PStr "ZTF24aa") "2024abc"); ETNS PostObject;
     ELog (LogFailedRetrieve (PStr "ZTF24aa") ""); ECommit;
     EPush "skyportal/REFRESH_SOURCE" [("obj_key", PStr "key-1")]].
Proof. vm_compute. reflexivity. Qed.

Section BulkProperties.

Variable json_loads : string -> option pyval.

(** *** Commits of a bulk run (C2) *)

Lemma count_commit_steps env obj_id robot_id ip isp :
  count_events is_commit
    (events (tns_retrieval_steps json_loads env obj_id robot_id ip isp)) = O.
Proof.
  apply count_events_none. apply emits_tns_retrieval_steps; intros; reflexivity.
Qed.

(** [tns_retrieval] swallows every exception of its [try] block, and it
    commits once when the block reaches its end, also on a session it was
    handed. *)
Lemma tns_retrieval_commits env obj_id robot_id user_id ip isp parent :
  let run := tns_retrieval json_loads env obj_id robot_id user_id ip isp parent in
  outcome run = Ok tt /\
  count_events is_commit (events run)
  = match outcome (tns_retrieval_steps json_loads env obj_id robot_id ip isp) with
    | Ok _ => 1%nat
    | Raise _ => 0%nat
    end.
Proof.
  cbv zeta. unfold tns_retrieval, tns_retrieval_body. split.
  - destruct parent as [h|]; autorewrite with monad;
      destruct (outcome (tns_retrieval_steps _ _ _ _ _ _)); reflexivity.
  - destruct parent as [h|]; [rewrite bind_ret | rewrite events_emit_bind];
      rewrite events_emit_bind, events_try_finally, events_try_except,
        events_bind, outcome_bind;
      rewrite ?count_events_cons, !count_events_app, count_commit_steps;
      destruct (outcome (tns_retrieval_steps _ _ _ _ _ _)); reflexivity.
Qed.

Lemma bulk_step_commits s robot_id user_id gids ip isp :
  let run := bulk_step json_loads s robot_id user_id gids ip isp in
  outcome run = (if step_raises s then outcome run else Ok tt) /\
  (step_raises s = true -> exists e, outcome run = Raise e) /\
  count_events is_commit (events run)
  = (if step_raises s then 0 else if completes json_loads robot_id ip isp s then 1 else 0)%nat.
Proof.
  cbv zeta. unfold bulk_step, step_raises, completes.
  rewrite outcome_bind, events_bind, outcome_lift, events_lift.
  destruct (py_getitem "id" (se_source s)) as [source_id|e]; [|split; [|split]; eauto].
  rewrite outcome_emit_bind, events_emit_bind, outcome_bind, events_bind.
  pose proof (tns_retrieval_commits (se_retrieval s) source_id robot_id user_id ip isp
                (Some TheSession)) as [Hout Hcount]. cbv zeta in Hout, Hcount.
  destruct (se_local s) as [local|].
  - rewrite outcome_ret, events_ret, Hout. simpl app.
    rewrite count_events_cons, Hcount. split; [|split]; [reflexivity|discriminate|].
    destruct (outcome (tns_retrieval_steps _ _ _ _ _ _)); reflexivity.
  - rewrite outcome_emit_bind, events_emit_bind, outcome_bind, events_bind,
      outcome_lift, events_lift.
    destruct (se_post_source s) as [u|e].
    + rewrite outcome_emit, events_emit, Hout. simpl app.
      rewrite !count_events_cons, Hcount. split; [|split]; [reflexivity|discriminate|].
      destruct (outcome (tns_retrieval_steps _ _ _ _ _ _)); reflexivity.
    + split; [|split]; eauto.
Qed.

Lemma bulk_loop_commits sources robot_id user_id gids ip isp :
  let run := bulk_loop json_loads sources robot_id user_id gids ip isp in
  (forallb (fun s => negb (step_raises s)) sources = true -> outcome run = Ok tt) /\
  (forallb (fun s => negb (step_raises s)) sources = false -> exists e, outcome run = Raise e) /\
  count_events is_commit (events run)
  = length (filter (fun s => completes json_loads robot_id ip isp s = true) (handled sources)).
Proof.
  cbv zeta. induction sources as [|s rest IH]; [repeat split; discriminate|].
  simpl bulk_loop. rewrite outcome_bind, events_bind, count_events_app.
  destruct (bulk_step_commits s robot_id user_id gids ip isp) as (Hout & Hraise & Hcount).
  cbv zeta in Hout, Hraise, Hcount. rewrite Hcount. simpl forallb. simpl handled.
  destruct (step_raises s) eqn:Hs.
  - destruct (Hraise eq_refl) as [e He]. rewrite He. simpl.
    split; [discriminate|]. split; [eauto|reflexivity].
  - rewrite Hout. simpl negb. simpl andb.
    destruct IH as (IH1 & IH2 & IH3). rewrite IH3.
    split; [exact IH1|]. split; [exact IH2|].
    rewrite filter_cons.
    destruct (completes json_loads robot_id ip isp s);
      [rewrite decide_True by reflexivity | rewrite decide_False by discriminate];
      reflexivity.
Qed.

(** C2 (amended).  In a bulk run that reaches the per-source loop, every
    inner [tns_retrieval] whose [try] block reaches its end commits the
    shared session, and the commit that follows the loop is issued once, if
    and only if no turn of the loop raised: the run commits as many times as
    there are such sources among those handled, plus once when the loop
    finished.  The run itself never raises. *)
Theorem bulk_run_commit_count
    env start_date robot_id user_id gids ip isp robot d sources :
  is_none gids = false \/ be_user env <> None ->
  be_robot env = Some robot ->
  altdata json_loads robot = Ok (PDict d) ->
  dict_has "api_key" d = true ->
  be_recent env = Ok sources ->
  sources <> [] ->
  let run := tns_bulk_retrieval json_loads env start_date robot_id user_id gids ip isp in
  outcome run = Ok tt /\
  count_events is_commit (events run)
  = (length (filter (fun s => completes json_loads robot_id ip isp s = true) (handled sources))
     + if forallb (fun s => negb (step_raises s)) sources then 1 else 0)%nat.
Proof.
  intros Hg Hrobot Had Hkey Hrecent Hne. cbv zeta.
  destruct (getitem_present _ _ Hkey) as [v Hv].
  unfold tns_bulk_retrieval.
  assert (Hgids : exists g, (if is_none gids then lift (accessible_group_ids (be_user env))
                             else ret gids) = ret g).
  { destruct (is_none gids); [|eauto].
    destruct Hg as [Hg|Hg]; [discriminate|].
    destruct (be_user env); [eexists; reflexivity | congruence]. }
  destruct Hgids as [gids' ->]. rewrite bind_ret. clear Hg.
  unfold tns_bulk_retrieval_body.
  rewrite Hrobot, (checked_altdata_ok _ _ _ Had Hkey), bind_ret, Hv, Hrecent.
  change (lift (Ok v)) with (ret v). rewrite bind_ret.
  change (lift (Ok sources)) with (ret sources).
  destruct sources as [|s0 rest]; [congruence|].
  rewrite bind_ret. cbv beta iota.
  remember (s0 :: rest) as srcs eqn:Hsrcs. clear Hsrcs Hrecent Hne.
  destruct (bulk_loop_commits srcs robot_id user_id gids' ip isp) as (Hok & Hraise & Hcount).
  cbv zeta in Hok, Hraise, Hcount.
  set (L := bulk_loop json_loads srcs robot_id user_id gids' ip isp) in *.
  autorewrite with monad. cbn [app].
  repeat first [rewrite count_events_cons | rewrite count_events_app].
  rewrite Hcount. cbn [is_commit].
  destruct (forallb (fun s => negb (step_raises s)) srcs).
  - rewrite (Hok eq_refl). split; [reflexivity|]. unfold count_events. simpl. lia.
  - destruct (Hraise eq_refl) as [e He]. rewrite He. split; [reflexivity|].
    unfold count_events. simpl. lia.
Qed.

End BulkProperties.

(** Sources for closed runs of the bulk task. *)
Definition found_env : retrieval_env := ready_env (fun _ => Ok (reply 200)).

Definition known_source (name : string) : source_env :=
  {| se_source := PDict [("id", PStr name)];
     se_local := Some sample_obj;
     se_post_source := Ok tt;
     se_retrieval := found_env |}.

Definition unpostable_source (name : string) : source_env :=
  {| se_source := PDict [("id", PStr name)];
     se_local := None;
     se_post_source := Raise (ExternalError "post_source");
     se_retrieval := found_env |}.

Definition bulk_env_of (sources : list source_env) : bulk_env :=
  {| be_user := Some {| accessible_groups := [1] |};
     be_robot := Some robot_with_key;
     be_recent := Ok sources |}.

Definition bulk_run (sources : list source_env) : M unit :=
  tns_bulk_retrieval json_loads_basic (bulk_env_of sources)
    (PStr "2024-01-01T00:00:00") (PInt 1) (PInt 7) (PList [PInt 1]) (PBool false) (PBool false).

(** C2 (counterexample).  A batch of one source commits twice, once inside
    [tns_retrieval] and once after the loop.  In a batch of two sources
    where [post_source] raises for the second, the failure is logged and
    what the first source wrote has been committed all the same. *)
Lemma bulk_run_commits_per_source :
  count_events is_commit (events (bulk_run [known_source "2024abc"])) = 2%nat /\
  In (ELog (LogBulkUnable (PStr "2024-01-01T00:00:00") (ExternalError "post_source")))
     (events (bulk_run [known_source "2024abc"; unpostable_source "2024abd"])) /\
  durable (run_session
             (events (bulk_run [known_source "2024abc"; unpostable_source "2024abd"]))
             fresh_session)
  = [WTnsName (PStr "2024abc") "2024abc"].
Proof.
  split; [vm_compute; reflexivity|]. split; [vm_compute; tauto | vm_compute; reflexivity].
Qed.

Lemma bulk_run_commit_count_witness :
  let run := bulk_run [known_source "2024abc"; unpostable_source "2024abd"] in
  outcome run = Ok tt /\
  count_events is_commit (events run) = 1%nat.
Proof.
  apply (bulk_run_commit_count json_loads_basic
           (bulk_env_of [known_source "2024abc"; unpostable_source "2024abd"])
           (PStr "2024-01-01T00:00:00") (PInt 1) (PInt 7) (PList [PInt 1])
           (PBool false) (PBool false)
           robot_with_key [("api_key", PStr "secret")]
           [known_source "2024abc"; unpostable_source "2024abd"]).
  - left. reflexivity.
  - reflexivity.
  - vm_compute. reflexivity.
  - reflexivity.
  - reflexivity.
  - discriminate.
Defined.

Lemma refresh_pushed_when_block_completes_witness :
  events (tns_retrieval_body json_loads_basic retried_not_found_env
            (PStr "ZTF24aa") (PInt 1) (PBool false) (PBool false))
  = [EQuery; EQuery; ETNS GetIAUname; EWrite (WTnsName (PStr "ZTF24aa") "2024abc");
     ETNS PostObject; ELog (LogRateLimited (PDict [])); ESleep 30; ETNS PostObject;
     ELog (LogFailedRetrieve (PStr "ZTF24aa") ""); ECommit; refresh_source sample_obj].
Proof.
  destruct (refresh_pushed_when_block_completes json_loads_basic retried_not_found_env
              (PStr "ZTF24aa") (PInt 1) (PInt 7) (PBool false) (PBool false) None)
    as (_ & _ & _ & H & _).
  apply (H sample_obj robot_with_key [("api_key", PStr "secret")] "2024abc" (reply 404)).
  - reflexivity.
  - reflexivity.
  - vm_compute. reflexivity.
  - reflexivity.
  - reflexivity.
  - reflexivity.
  - discriminate.
Defined.

(** A 404 that comes as the answer to the fifth retry is not handed on: the
    counter has reached the limit, the rate-exceeded error is raised, and
    the run logs it without a commit or a notification. *)
Example no_refresh_after_fifth_retry :
  events (tns_retrieval json_loads_basic late_not_found_env
            (PStr "ZTF24aa") (PInt 1) (PInt 7) (PBool false) (PBool false) None)
  = [EAcquire; EQuery; EQuery; EQuery; ETNS GetIAUname;
     EWrite (WTnsName (PStr "ZTF24aa") "2024abc"); ETNS PostObject;
     ELog (LogRateLimited (PDict [])); ESleep 30; ETNS PostObject;
     ELog (LogRateLimited (PDict [])); ESleep 30; ETNS PostObject;
     ELog (LogRateLimited (PDict [])); ESleep 30; ETNS PostObject;
     ELog (LogRateLimited (PDict [])); ESleep 30; ETNS PostObject;
     ELog (LogRateLimited (PDict [])); ESleep 30; ETNS PostObject;
     ELog (LogUnable (PStr "ZTF24aa") (ValueError RateExceeded))].
Proof. vm_compute. reflexivity. Qed.

Section BulkRelease.

Variable json_loads : string -> option pyval.

(** The bulk task closes and removes its session whenever it gets as far as
    its [try] statement, that is, unless the group list has to be derived
    from a user that does not exist. *)
Lemma tns_bulk_retrieval_releases
    env start_date robot_id user_id gids ip isp (s0 : session_state) :
  is_none gids = false \/ be_user env <> None ->
  let s := run_session
             (events (tns_bulk_retrieval json_loads env start_date robot_id user_id gids ip isp))
             s0 in
  closed s = true /\ registered s = false /\ pending s = [].
Proof.
  intros Hg. cbv zeta. unfold tns_bulk_retrieval.
  assert (Hgids : exists g, (if is_none gids then lift (accessible_group_ids (be_user env))
                             else ret gids) = ret g).
  { destruct (is_none gids); [|eauto].
    destruct Hg as [Hg|Hg]; [discriminate|].
    destruct (be_user env); [eexists; reflexivity | congruence]. }
  destruct Hgids as [g ->].
  rewrite !events_emit_bind, bind_ret, events_try_finally, events_emit_bind, events_emit.
  rewrite !app_comm_cons, run_session_app. repeat split.
Qed.

End BulkRelease.

(** *** Handlers that stop before the work *)

(** [blocked P m]: [m] does not answer with a success envelope, and all it
    emits is within [P]. *)
Definition blocked (P : event -> Prop) (m : M envelope) : Prop :=
  emits P m /\ is_success (outcome m) = false.

Lemma blocked_error P msg : blocked P (ret (Error msg)).
Proof. split; [apply emits_ret | reflexivity]. Qed.

Lemma blocked_raise P e : blocked P (raise e).
Proof. split; [apply emits_raise | reflexivity]. Qed.

Lemma blocked_bind {A} P (m : M A) (k : A -> M envelope) :
  emits P m -> (forall a, outcome m = Ok a -> blocked P (k a)) -> blocked P (bind m k).
Proof.
  intros Hm Hk. unfold blocked, emits. rewrite events_bind, outcome_bind. split.
  - apply Forall_app. split; [exact Hm|].
    destruct (outcome m) as [a|e]; [apply (Hk a eq_refl) | constructor].
  - destruct (outcome m) as [a|e]; [apply (Hk a eq_refl) | reflexivity].
Qed.

(** With nothing allowed, [blocked] says that the computation emits no
    event at all: it launches no task and makes no call to TNS. *)
Lemma blocked_silent m : blocked (fun _ => False) m -> events m = [].
Proof.
  intros [H _]. unfold emits in H. destruct (events m) as [|e t]; [reflexivity|].
  inversion H; contradiction.
Qed.

(** Walks through a handler: a step that only computes a value is passed,
    a branch on what the request or the world holds is split. *)
Ltac blocked_tac :=
  repeat first
    [ apply blocked_error | apply blocked_raise
    | apply blocked_bind;
      [ solve [ repeat first
                  [ apply emits_lift | apply emits_ret | apply emits_raise
                  | apply emits_emit; solve [auto]
                  | apply emits_bind; [|intros ?]
                  | match goal with
                    | |- emits _ (match ?x with _ => _ end) => destruct x
                    end ] ]
      | intros ? ? ]
    | match goal with
      | |- blocked _ (match ?x with _ => _ end) => destruct x eqn:?
      | |- blocked _ (let _ := _ in _) => cbv zeta
      end ].

Section CredentialChecks.

Variable json_loads : string -> option pyval.

(** *** A robot without an API key (C4) *)

Variable robot : Robot.
Variable d : dict.
Hypothesis Had : altdata json_loads robot = Ok (PDict d).
Hypothesis Hkey : dict_has "api_key" d = false.

Lemma with_api_key_no_key (k : M envelope) :
  with_api_key json_loads robot k
  = ret (Error (match d with [] => MissingTNSInformation | _ => MissingTNSAPIKey end)).
Proof using Had Hkey.
  unfold with_api_key. rewrite Had.
  destruct d as [|kv d']; [reflexivity|].
  unfold bind, lift, ret, py_in. simpl truthy. cbv iota beta. simpl negb. cbv iota.
  rewrite Hkey. reflexivity.
Qed.

Lemma emits_parse_group_ids P data : emits P (parse_group_ids data).
Proof.
  unfold parse_group_ids. destruct (dict_get_default "groupIds" PNone data);
    repeat first [apply emits_ret | apply emits_lift | apply emits_bind; [|intros ?]].
Qed.

Lemma emits_parse_start_date P env data : emits P (parse_start_date env data).
Proof.
  unfold parse_start_date. destruct (dict_get_default "startDate" PNone data);
    try apply emits_ret; try apply emits_raise.
  destruct (he_arrow_get env (strip s)); [apply emits_ret | apply emits_raise].
Qed.

Lemma emits_archival_comment_missing P a c : emits P (archival_comment_missing a c).
Proof.
  unfold archival_comment_missing. destruct a as [| [|] | | | | |];
    repeat first [apply emits_ret | apply emits_lift | apply emits_bind; [|intros ?]].
Qed.

Ltac no_key := rewrite with_api_key_no_key; apply blocked_error.

Lemma parse_group_ids_early data early :
  outcome (parse_group_ids data) = Ok (inl early) -> exists m, early = Error m.
Proof.
  unfold parse_group_ids.
  destruct (dict_get_default "groupIds" PNone data); autorewrite with monad;
    try (intros [= <-]; eauto); try discriminate.
  destruct (ints_of _); discriminate.
Qed.

Lemma bulk_trigger_blocked env data :
  he_robot env = Some robot ->
  blocked (fun _ => False) (BulkTNSHandler_post json_loads env data).
Proof using Had Hkey.
  intros Hrobot. unfold BulkTNSHandler_post. rewrite Hrobot.
  apply blocked_bind; [apply emits_parse_group_ids | intros [early|g] Hg].
  - destruct (parse_group_ids_early _ _ Hg) as [m ->]. apply blocked_error.
  - apply blocked_bind; [apply emits_parse_start_date | intros sd _].
    destruct (dict_get_default "tnsrobotID" PNone data); try apply blocked_error; no_key.
Qed.

Lemma get_trigger_blocked env obj_id query :
  he_robot env = Some robot ->
  blocked (fun _ => False) (ObjTNSHandler_get json_loads env obj_id query).
Proof using Had Hkey.
  intros Hrobot. unfold ObjTNSHandler_get. rewrite Hrobot.
  destruct (dict_get_default "tnsrobotID" PNone query); try apply blocked_error;
    cbv zeta; destruct (he_obj env); try apply blocked_error; no_key.
Qed.

Lemma post_trigger_blocked env obj_id data :
  he_robot env = Some robot ->
  blocked (fun _ => False) (ObjTNSHandler_post json_loads env obj_id data).
Proof using Had Hkey.
  intros Hrobot. unfold ObjTNSHandler_post. rewrite Hrobot. cbv zeta.
  destruct (is_none _); [apply blocked_error|].
  destruct (_ || _); [apply blocked_error|].
  destruct (he_obj env); [|apply blocked_error].
  apply blocked_bind; [apply emits_archival_comment_missing | intros [|] _];
    [apply blocked_error | no_key].
Qed.

Lemma getitem_absent : py_getitem "api_key" (PDict d) = Raise (KeyError "api_key").
Proof using Hkey.
  unfold py_getitem. unfold dict_has in Hkey.
  destruct (dict_get "api_key" d); [discriminate|reflexivity].
Qed.

Lemma spectrum_push_blocked env spectrum_id data :
  sv_robot env = Some robot ->
  blocked (fun _ => False) (SpectrumTNSHandler_post json_loads env spectrum_id data).
Proof using Had Hkey.
  intros Hrobot. unfold SpectrumTNSHandler_post. rewrite Hrobot, Had. cbv zeta.
  destruct (is_none _); [apply blocked_error|].
  change (lift (Ok (PDict d))) with (ret (PDict d)). rewrite bind_ret.
  destruct (negb (truthy (PDict d))); [apply blocked_error|].
  destruct (sv_spectrum env); [|apply blocked_error].
  rewrite getitem_absent. apply blocked_bind; [apply emits_lift | discriminate].
Qed.

Lemma retrieval_task_no_network env obj_id robot_id user_id ip isp parent :
  re_robot env = Some robot ->
  never is_network (tns_retrieval json_loads env obj_id robot_id user_id ip isp parent).
Proof using Had Hkey.
  intros Hrobot. unfold tns_retrieval, tns_retrieval_body, tns_retrieval_steps.
  rewrite Hrobot, (checked_altdata_no_key _ _ _ Had Hkey).
  destruct (re_obj env), parent; repeat constructor.
Qed.

Lemma bulk_task_no_network env start_date robot_id user_id gids ip isp :
  be_robot env = Some robot ->
  never is_network (tns_bulk_retrieval json_loads env start_date robot_id user_id gids ip isp).
Proof using Had Hkey.
  intros Hrobot. unfold tns_bulk_retrieval, tns_bulk_retrieval_body.
  rewrite Hrobot, (checked_altdata_no_key _ _ _ Had Hkey).
  destruct (is_none gids); [destruct (be_user env)|]; repeat constructor.
Qed.

(** With a mapping that is not empty, the requests that pass the earlier
    checks are answered with 'Missing TNS API key.'. *)
Hypothesis Hne : d <> [].

Lemma bulk_trigger_reports env data g sd :
  he_robot env = Some robot ->
  parse_group_ids data = ret (inr g) ->
  parse_start_date env data = ret sd ->
  is_none (dict_get_default "tnsrobotID" PNone data) = false ->
  BulkTNSHandler_post json_loads env data = ret (Error MissingTNSAPIKey).
Proof using Had Hkey Hne.
  intros Hrobot Hg Hsd Hid. unfold BulkTNSHandler_post.
  rewrite Hrobot, Hg, bind_ret, Hsd, bind_ret.
  destruct (dict_get_default "tnsrobotID" PNone data); try discriminate;
    cbv zeta; rewrite with_api_key_no_key; destruct d; congruence.
Qed.

Lemma get_trigger_reports env obj_id query obj :
  he_robot env = Some robot -> he_obj env = Some obj ->
  is_none (dict_get_default "tnsrobotID" PNone query) = false ->
  ObjTNSHandler_get json_loads env obj_id query = ret (Error MissingTNSAPIKey).
Proof using Had Hkey Hne.
  intros Hrobot Hobj Hid. unfold ObjTNSHandler_get. rewrite Hrobot, Hobj.
  destruct (dict_get_default "tnsrobotID" PNone query); try discriminate;
    cbv zeta; rewrite with_api_key_no_key; destruct d; congruence.
Qed.

Lemma post_trigger_reports env obj_id data obj :
  he_robot env = Some robot -> he_obj env = Some obj ->
  is_none (dict_get_default "tnsrobotID" PNone data) = false ->
  eq_str "" (dict_get_default "reporters" (PStr "") data)
    || negb (is_str (dict_get_default "reporters" (PStr "") data)) = false ->
  archival_comment_missing (dict_get_default "archival" (PBool false) data)
    (dict_get_default "archivalComment" (PStr "") data) = ret false ->
  ObjTNSHandler_post json_loads env obj_id data = ret (Error MissingTNSAPIKey).
Proof using Had Hkey Hne.
  intros Hrobot Hobj Hid Hrep Harch. unfold ObjTNSHandler_post. cbv zeta.
  rewrite Hrobot, Hobj, Hid, Hrep, Harch, bind_ret, with_api_key_no_key.
  destruct d; congruence.
Qed.

Lemma retrieval_task_reports env obj_id robot_id user_id ip isp parent obj :
  re_robot env = Some robot -> re_obj env = Some obj ->
  In (ELog (LogUnable obj_id (ValueError MissingTNSAPIKey)))
     (events (tns_retrieval json_loads env obj_id robot_id user_id ip isp parent)).
Proof using Had Hkey Hne.
  intros Hrobot Hobj. unfold tns_retrieval, tns_retrieval_body, tns_retrieval_steps.
  rewrite Hrobot, Hobj, (checked_altdata_no_key _ _ _ Had Hkey).
  destruct d; [congruence|]. destruct parent; simpl; tauto.
Qed.

Lemma bulk_task_reports env start_date robot_id user_id gids ip isp :
  be_robot env = Some robot ->
  is_none gids = false \/ be_user env <> None ->
  In (ELog (LogBulkUnable start_date (ValueError MissingTNSAPIKey)))
     (events (tns_bulk_retrieval json_loads env start_date robot_id user_id gids ip isp)).
Proof using Had Hkey Hne.
  intros Hrobot Hg. unfold tns_bulk_retrieval, tns_bulk_retrieval_body.
  rewrite Hrobot, (checked_altdata_no_key _ _ _ Had Hkey).
  destruct d; [congruence|].
  destruct (is_none gids); [destruct (be_user env)|]; simpl; try tauto.
  destruct Hg; congruence.
Qed.

End CredentialChecks.

(** Robots and requests for closed runs of the handlers. *)
Definition robot_without_key : Robot :=
  {[ "_altdata" := PStr (object_text "bot_password" "x") ]}.

Definition robot_without_credentials : Robot := ∅.

Definition trigger_env (robot : Robot) : handler_env :=
  {| he_robot := Some robot;
     he_obj := Some sample_obj;
     he_user_id := PInt 7;
     he_day_ago := PStr "2024-01-01T00:00:00";
     he_arrow_get := fun _ => None |}.

Definition sample_spectrum (z : option Q) : Spectrum :=
  {| sp_obj := {| redshift := z; internal_key := "key-1" |};
     sp_instrument_name := "SEDM";
     sp_instrument_tns_id := PInt 149;
     sp_altdata := PNone;
     sp_wavelengths := [4000#1; 4010#1]%Q;
     sp_fluxes := [1#10; 2#10]%Q;
     sp_errors := None;
     sp_observers := PStr "observer";
     sp_reducers := PStr "reducer";
     sp_observed_at := PStr "2024-01-02T03:04:05" |}.

Definition report_reply : Response :=
  {| status_code := 200;
     json := Some (PDict [("data", PDict [("report_id", PInt 99)])]);
     content := "" |}.

Definition push_env (robot : Robot) (z : option Q) : spectrum_env :=
  {| sv_robot := Some robot;
     sv_spectrum := Some (sample_spectrum z);
     sv_iauname := Ok (Some "2024abc");
     sv_upload := Ok (reply 200);
     sv_report := Ok report_reply |}.

Definition bulk_request : dict := [("tnsrobotID", PInt 1); ("groupIds", PList [PInt 1])].

Definition push_request (spectrum_type : string) : dict :=
  [("tnsrobotID", PInt 1); ("spectrumType", PStr spectrum_type)].

(** A robot with no credentials at all is answered with 'Missing TNS
    information.' by every handler: the [if not altdata] test comes first
    everywhere, the spectrum push included. *)
Lemma empty_credentials_are_reported
    (json_loads : string -> option pyval) (robot : Robot) :
  altdata json_loads robot = Ok (PDict []) ->
  (forall env data g sd,
     he_robot env = Some robot ->
     parse_group_ids data = ret (inr g) ->
     parse_start_date env data = ret sd ->
     is_none (dict_get_default "tnsrobotID" PNone data) = false ->
     BulkTNSHandler_post json_loads env data = ret (Error MissingTNSInformation)) /\
  (forall env obj_id query obj,
     he_robot env = Some robot -> he_obj env = Some obj ->
     is_none (dict_get_default "tnsrobotID" PNone query) = false ->
     ObjTNSHandler_get json_loads env obj_id query = ret (Error MissingTNSInformation)) /\
  (forall env obj_id data obj,
     he_robot env = Some robot -> he_obj env = Some obj ->
     is_none (dict_get_default "tnsrobotID" PNone data) = false ->
     eq_str "" (dict_get_default "reporters" (PStr "") data)
       || negb (is_str (dict_get_default "reporters" (PStr "") data)) = false ->
     archival_comment_missing (dict_get_default "archival" (PBool false) data)
       (dict_get_default "archivalComment" (PStr "") data) = ret false ->
     ObjTNSHandler_post json_loads env obj_id data = ret (Error MissingTNSInformation)) /\
  (forall env spectrum_id data,
     is_none (dict_get_default "tnsrobotID" PNone data) = false ->
     sv_robot env = Some robot ->
     SpectrumTNSHandler_post json_loads env spectrum_id data
     = ret (Error MissingTNSInformation)).
Proof.
  intros Had.
  assert (Hw : forall k, with_api_key json_loads robot k = ret (Error MissingTNSInformation)).
  { intros k. apply (with_api_key_no_key json_loads robot [] Had eq_refl k). }
  repeat split.
  - intros env data g sd Hrobot Hg Hsd Hid. unfold BulkTNSHandler_post.
    rewrite Hrobot, Hg, bind_ret, Hsd, bind_ret.
    destruct (dict_get_default "tnsrobotID" PNone data); try discriminate;
      cbv zeta; apply Hw.
  - intros env obj_id query obj Hrobot Hobj Hid. unfold ObjTNSHandler_get.
    rewrite Hrobot, Hobj.
    destruct (dict_get_default "tnsrobotID" PNone query); try discriminate;
      cbv zeta; apply Hw.
  - intros env obj_id data obj Hrobot Hobj Hid Hrep Harch.
    unfold ObjTNSHandler_post. cbv zeta.
    rewrite Hrobot, Hobj, Hid, Hrep, Harch, bind_ret. apply Hw.
  - intros env spectrum_id data Hid Hrobot. unfold SpectrumTNSHandler_post. cbv zeta.
    rewrite Hid, Hrobot, Had. reflexivity.
Qed.

(** C4 (code bug).  The credentials of the robot are a mapping that is not
    empty and holds no [api_key].  The three triggers test
    ['api_key' not in altdata] and answer 'Missing TNS API key.', and the
    two tasks raise and log that error.  [SpectrumTNSHandler.post] has no
    such test: a request that names the robot, for a spectrum that exists,
    gets to [altdata['api_key']], which raises [KeyError]; the exception
    leaves the handler in place of the error envelope.  No call to TNS has
    been made by then. *)
Theorem spectrum_push_without_api_key_raises
    (json_loads : string -> option pyval) (robot : Robot) (d : dict) :
  altdata json_loads robot = Ok (PDict d) ->
  d <> [] ->
  dict_has "api_key" d = false ->
  (forall env spectrum_id data sp,
     is_none (dict_get_default "tnsrobotID" PNone data) = false ->
     sv_robot env = Some robot ->
     sv_spectrum env = Some sp ->
     SpectrumTNSHandler_post json_loads env spectrum_id data
     = ([], Raise (KeyError "api_key"))) /\
  (forall env data g sd,
     he_robot env = Some robot ->
     parse_group_ids data = ret (inr g) ->
     parse_start_date env data = ret sd ->
     is_none (dict_get_default "tnsrobotID" PNone data) = false ->
     BulkTNSHandler_post json_loads env data = ret (Error MissingTNSAPIKey)) /\
  (forall env obj_id query obj,
     he_robot env = Some robot -> he_obj env = Some obj ->
     is_none (dict_get_default "tnsrobotID" PNone query) = false ->
     ObjTNSHandler_get json_loads env obj_id query = ret (Error MissingTNSAPIKey)) /\
  (forall env obj_id data obj,
     he_robot env = Some robot -> he_obj env = Some obj ->
     is_none (dict_get_default "tnsrobotID" PNone data) = false ->
     eq_str "" (dict_get_default "reporters" (PStr "") data)
       || negb (is_str (dict_get_default "reporters" (PStr "") data)) = false ->
     archival_comment_missing (dict_get_default "archival" (PBool false) data)
       (dict_get_default "archivalComment" (PStr "") data) = ret false ->
     ObjTNSHandler_post json_loads env obj_id data = ret (Error MissingTNSAPIKey)) /\
  (forall env obj_id robot_id user_id ip isp parent obj,
     re_robot env = Some robot -> re_obj env = Some obj ->
     let run := tns_retrieval json_loads env obj_id robot_id user_id ip isp parent in
     In (ELog (LogUnable obj_id (ValueError MissingTNSAPIKey))) (events run) /\
     never is_network run) /\
  (forall env start_date robot_id user_id gids ip isp,
     be_robot env = Some robot ->
     is_none gids = false \/ be_user env <> None ->
     let run :=
       tns_bulk_retrieval json_loads env start_date robot_id user_id gids ip isp in
     In (ELog (LogBulkUnable start_date (ValueError MissingTNSAPIKey))) (events run) /\
     never is_network run).
Proof.
  intros Had Hne Hkey. split; [|split; [|split; [|split; [|split]]]].
  - intros env spectrum_id data sp Hid Hrobot Hsp.
    unfold SpectrumTNSHandler_post. cbv zeta. rewrite Hid, Hrobot, Had.
    change (lift (Ok (PDict d))) with (ret (PDict d)). rewrite bind_ret.
    destruct d as [|kv d']; [congruence|]. simpl truthy. simpl negb. cbv iota.
    rewrite Hsp, (getitem_absent (kv :: d') Hkey). reflexivity.
  - intros. eapply bulk_trigger_reports; eauto.
  - intros. eapply get_trigger_reports; eauto.
  - intros. eapply post_trigger_reports; eauto.
  - intros env obj_id robot_id user_id ip isp parent obj Hrobot Hobj. cbv zeta. split.
    + eapply retrieval_task_reports; eauto.
    + eapply retrieval_task_no_network; eauto.
  - intros env start_date robot_id user_id gids ip isp Hrobot Hg. cbv zeta. split.
    + eapply bulk_task_reports; eauto.
    + eapply bulk_task_no_network; eauto.
Qed.

Lemma spectrum_push_without_api_key_raises_witness :
  SpectrumTNSHandler_post json_loads_basic (push_env robot_without_key (Some (1#2)%Q))
    (PInt 3) (push_request "object")
  = ([], Raise (KeyError "api_key")).
Proof.
  destruct (spectrum_push_without_api_key_raises json_loads_basic robot_without_key
              [("bot_password", PStr "x")])
    as (H & _).
  - vm_compute. reflexivity.
  - discriminate.
  - reflexivity.
  - apply (H (push_env robot_without_key (Some (1#2)%Q)) (PInt 3) (push_request "object")
             (sample_spectrum (Some (1#2)%Q))); reflexivity.
Defined.

(** For the same robot the bulk trigger answers with the error envelope. *)
Example bulk_trigger_without_key :
  BulkTNSHandler_post json_loads_basic (trigger_env robot_without_key) bulk_request
  = ret (Error MissingTNSAPIKey).
Proof. vm_compute. reflexivity. Qed.

(** *** The spectrum push (C5) *)

(** Without a truthy redshift on the object the local name [redshift] is
    never bound, and reading it raises: the push never gets to the report
    request, whatever the rest of the request and of the world. *)
Lemma spectrum_push_needs_redshift json_loads env spectrum_id data sp :
  sv_spectrum env = Some sp ->
  bind_redshift (sp_obj sp) = None ->
  blocked (fun e => is_report e = false)
    (SpectrumTNSHandler_post json_loads env spectrum_id data).
Proof.
  intros Hsp Hz. unfold SpectrumTNSHandler_post. rewrite Hsp, Hz. cbv zeta.
  blocked_tac; discriminate.
Qed.

(** C5 (code bug).  The object of the spectrum has no redshift.  The file is
    uploaded, then [if redshift is not None] reads a local name that was
    never bound: the push ends in [UnboundLocalError], without the report
    request and without a report identifier. *)
Theorem spectrum_push_without_redshift_raises :
  SpectrumTNSHandler_post json_loads_basic (push_env robot_with_key None)
    (PInt 3) (push_request "object")
  = ([ETNS GetIAUname;
      ETNS (PostUpload [((4000#1)%Q, (1#10)%Q, None); ((4010#1)%Q, (2#10)%Q, None)])],
     Raise (UnboundLocalError "redshift")).
Proof. vm_compute. reflexivity. Qed.

(** The same request for an object with redshift 1/2 goes through and
    returns the report identifier. *)
Example spectrum_push_with_redshift :
  outcome (SpectrumTNSHandler_post json_loads_basic (push_env robot_with_key (Some (1#2)%Q))
             (PInt 3) (push_request "object"))
  = Ok (Success (PDict [("tns_id", PInt 99)])).
Proof. vm_compute. reflexivity. Qed.

Lemma spectrum_type_unknown v :
  v <> PStr "object" -> v <> PStr "host" -> v <> PStr "sky" ->
  v <> PStr "arcs" -> v <> PStr "synthetic" ->
  spectype_id v = Raise (ValueError (NotInList v)).
Proof.
  intros H1 H2 H3 H4 H5. unfold spectype_id, spectrum_types. simpl.
  assert (E : forall x, v <> PStr x -> eq_str x v = false).
  { intros x Hx. destruct v; try reflexivity. simpl.
    destruct (String.eqb x s) eqn:Heq; [|reflexivity].
    apply String.eqb_eq in Heq. subst. congruence. }
  rewrite !E by assumption. reflexivity.
Qed.

(** *** Group identifiers of the bulk trigger (C8) *)

(** A [groupIds] value that the first block of [BulkTNSHandler.post] cannot
    turn into a list: absent, neither a string nor a list, or a string with
    a part that [int()] rejects. *)
Definition malformed_group_ids (v : pyval) : bool :=
  match v with
  | PList _ => false
  | PStr s =>
      match ints_of (map PStr (split_comma s)) with
      | Ok _ => false
      | Raise _ => true
      end
  | _ => true
  end.

Lemma ints_of_strings_error (xs : list string) e :
  ints_of (map PStr xs) = Raise e -> exists x, In x xs /\ e = ValueError (InvalidIntLiteral x).
Proof.
  induction xs as [|x xs IH]; simpl; [discriminate|].
  destruct (int_of_string x) eqn:Hx.
  - destruct (ints_of (map PStr xs)) as [zs|e'] eqn:Hrest; [discriminate|].
    intros [= <-]. destruct (IH eq_refl) as (y & Hy & ->). eauto.
  - intros [= <-]. eauto.
Qed.

(** Whatever is wrong with [groupIds], no task is launched and the answer is
    not a success.  A value that is neither a string nor a list is answered
    with an error envelope; a string with a part that is not an integer
    makes [int()] raise, and nothing in the handler catches it. *)
Lemma malformed_group_ids_launch_nothing json_loads env data :
  malformed_group_ids (dict_get_default "groupIds" PNone data) = true ->
  let run := BulkTNSHandler_post json_loads env data in
  events run = [] /\ is_success (outcome run) = false /\
  match dict_get_default "groupIds" PNone data with
  | PStr s => exists x, In x (split_comma s)
                        /\ outcome run = Raise (ValueError (InvalidIntLiteral x))
  | PNone => outcome run = Ok (Error GroupIdsRequired)
  | _ => outcome run = Ok (Error GroupIdsTypeNotUnderstood)
  end.
Proof.
  intros Hbad. cbv zeta. unfold BulkTNSHandler_post, parse_group_ids.
  destruct (dict_get_default "groupIds" PNone data) as [| b | z | q | s | l | m];
    try discriminate; try (repeat split; reflexivity).
  simpl in Hbad.
  destruct (ints_of (map PStr (split_comma s))) as [zs|e] eqn:Hints; [discriminate|].
  destruct (ints_of_strings_error _ _ Hints) as (x & Hx & ->).
  repeat split. exists x. split; [exact Hx | reflexivity].
Qed.

(** C8 (code bug).  For [groupIds = "1,a"] the comprehension
    [[int(x) for x in group_ids.split(",")]] raises [ValueError] on ["a"];
    the handler has no [except] around it, so the request ends in that
    exception instead of an error envelope.  No task is launched. *)
Theorem bulk_trigger_non_numeric_string_raises :
  BulkTNSHandler_post json_loads_basic (trigger_env robot_with_key)
    [("tnsrobotID", PInt 1); ("groupIds", PStr "1,a")]
  = ([], Raise (ValueError (InvalidIntLiteral "a"))).
Proof. vm_compute. reflexivity. Qed.

(** The same request with a well-formed string launches the task. *)
Example bulk_trigger_numeric_string :
  BulkTNSHandler_post json_loads_basic (trigger_env robot_with_key)
    [("tnsrobotID", PInt 1); ("groupIds", PStr "1, 2")]
  = ([ELaunch (TaskBulkRetrieval (PStr "2024-01-01T00:00:00") PNone (PInt 7)
                 (PList [PInt 1; PInt 2]) (PBool false) (PBool false))],
     Ok (Success PNone)).
Proof. vm_compute. reflexivity. Qed.

(** *** The credential accessor (C9) *)

Section Credentials.

Variable json_loads : string -> option pyval.

Lemma robot_attr_set_altdata v (r : Robot) : robot_attr "_altdata" (set_altdata v r) = v.
Proof. unfold robot_attr, set_altdata. rewrite lookup_insert_eq. reflexivity. Qed.

(** C9 (amended).  With nothing stored the accessor returns the empty
    mapping.  The setter stores its argument as it is, and the accessor
    decodes what is stored as JSON text: after the text of a mapping [m] was
    stored, the accessor returns [m]. *)
Theorem altdata_reads_stored_text :
  (forall r : Robot, robot_attr "_altdata" r = PNone -> altdata json_loads r = Ok (PDict [])) /\
  (forall (r : Robot) v, robot_attr "_altdata" (set_altdata v r) = v) /\
  (forall (r : Robot) s m,
     json_loads s = Some (PDict m) ->
     altdata json_loads (set_altdata (PStr s) r) = Ok (PDict m)).
Proof.
  split; [|split].
  - intros r Hr. unfold altdata. rewrite Hr. reflexivity.
  - intros r v. apply robot_attr_set_altdata.
  - intros r s m Hs. unfold altdata. rewrite robot_attr_set_altdata, Hs. reflexivity.
Qed.

(** A mapping handed to the setter is stored as a mapping, and the accessor
    cannot decode it, whatever the decoder. *)
Lemma altdata_of_stored_mapping (r : Robot) m :
  altdata json_loads (set_altdata (PDict m) r) = Raise TypeError.
Proof. unfold altdata. rewrite robot_attr_set_altdata. reflexivity. Qed.

End Credentials.

(** C9 (counterexample).  Storing the mapping [{"api_key": "secret"}]
    through the setter and reading it back raises [TypeError]. *)
Lemma stored_mapping_is_not_read_back :
  altdata json_loads_basic (set_altdata (PDict [("api_key", PStr "secret")]) ∅)
  = Raise TypeError.
Proof. apply altdata_of_stored_mapping. Qed.

Lemma altdata_reads_stored_text_witness :
  altdata json_loads_basic (set_altdata (PStr (object_text "api_key" "secret")) ∅)
  = Ok (PDict [("api_key", PStr "secret")]).
Proof.
  apply (proj2 (proj2 (altdata_reads_stored_text json_loads_basic))).
  reflexivity.
Defined.

(** *** Updating a robot (C10) *)

Lemma dict_get_set_eq k v d : dict_get k (dict_set k v d) = Some v.
Proof.
  induction d as [|[k' v'] d IH]; simpl.
  - rewrite String.eqb_refl. reflexivity.
  - destruct (String.eqb k k') eqn:E; simpl; rewrite E; [reflexivity | exact IH].
Qed.

Lemma dict_get_set_ne k k' v d : k <> k' -> dict_get k' (dict_set k v d) = dict_get k' d.
Proof.
  intros Hne. induction d as [|[k0 v0] d IH]; simpl.
  - apply String.eqb_neq in Hne. rewrite String.eqb_sym, Hne. reflexivity.
  - destruct (String.eqb k k0) eqn:E; simpl.
    + apply String.eqb_eq in E. subst k0.
      destruct (String.eqb k' k) eqn:E'; [|reflexivity].
      apply String.eqb_eq in E'. congruence.
    + destruct (String.eqb k' k0); [reflexivity | exact IH].
Qed.

Lemma dict_get_None k d : dict_get k d = None <-> ~ In k (map fst d).
Proof.
  induction d as [|[k' v'] d IH]; simpl; [tauto|].
  destruct (String.eqb k k') eqn:E.
  - apply String.eqb_eq in E. subst. split; [discriminate | intros H; exfalso; auto].
  - apply String.eqb_neq in E. rewrite IH. split; [intros H [H'|H']; auto | tauto].
Qed.

Lemma dict_set_keys k v d :
  map fst (dict_set k v d) = map fst d \/
  (~ In k (map fst d) /\ map fst (dict_set k v d) = map fst d ++ [k]).
Proof.
  induction d as [|[k' v'] d IH]; simpl; [right; split; [tauto|reflexivity]|].
  destruct (String.eqb k k') eqn:E; simpl; [left; reflexivity|].
  apply String.eqb_neq in E.
  destruct IH as [IH|[Hnot IH]]; rewrite IH; [left; reflexivity|].
  right. split; [intros [H|H]; auto | reflexivity].
Qed.

Lemma dict_set_wf k v d : dict_wf d -> dict_wf (dict_set k v d).
Proof.
  unfold dict_wf. intros Hwf.
  destruct (dict_set_keys k v d) as [->|[Hnot ->]]; [exact Hwf|].
  apply NoDup_app. split; [exact Hwf|]. split.
  - intros x Hx Hin. apply list_elem_of_In in Hx, Hin.
    destruct Hin as [<-|[]]. contradiction.
  - repeat constructor. intros H; inversion H.
Qed.

(** The robot after [for key, val in items: setattr(tnsrobot, key, val)]. *)
Definition updated (items : dict) (r : Robot) : Robot :=
  fold_left (fun r kv => setattr (fst kv) (snd kv) r) items r.

Definition writes_of (items : dict) : list event :=
  map (fun kv => ESetAttr (fst kv) (snd kv)) items.

Lemma run_robot_writes items r : run_robot (writes_of items) r = updated items r.
Proof.
  revert r. induction items as [|[k v] items IH]; intros r; [reflexivity|].
  simpl. apply IH.
Qed.

(** The loop makes the assignments of a first part of the request, all of
    it when no assignment raises. *)
Lemma setattr_all_prefix db items :
  exists done rest,
    items = done ++ rest /\
    events (setattr_all db items) = writes_of done /\
    match outcome (setattr_all db items) with
    | Ok _ => rest = []
    | Raise _ => rest <> []
    end.
Proof.
  induction items as [|[k v] items (done & rest & Hsplit & Hev & Hout)].
  - exists [], []. repeat split.
  - simpl setattr_all. destruct (orm_setattr db k v) as [[]|e].
    + change (lift (Ok tt)) with (ret tt). rewrite bind_ret.
      rewrite events_emit_bind, outcome_emit_bind.
      exists ((k, v) :: done), rest. subst items. rewrite Hev.
      split; [reflexivity|]. split; [reflexivity | exact Hout].
    + exists [], ((k, v) :: items). repeat split. discriminate.
Qed.

Lemma setattr_all_run db items :
  outcome (setattr_all db items) = Ok tt ->
  events (setattr_all db items) = writes_of items.
Proof.
  intros Ho. destruct (setattr_all_prefix db items) as (done & rest & Hsplit & Hev & Hout).
  rewrite Ho in Hout. subst rest. rewrite app_nil_r in Hsplit. subst done. exact Hev.
Qed.

Lemma updated_untouched k items (r : Robot) :
  ~ In k (map fst items) -> k <> "_altdata" ->
  robot_attr k (updated items r) = robot_attr k r.
Proof.
  intros Hnot Hk. revert r.
  induction items as [|[k' v'] items IH]; intros r; [reflexivity|].
  simpl in *. unfold updated in IH. rewrite IH by tauto.
  unfold robot_attr, setattr, set_altdata.
  destruct (String.eqb k' "altdata"); rewrite lookup_insert_ne; auto.
Qed.

Lemma updated_written k v items (r : Robot) :
  dict_wf items -> dict_get k items = Some v ->
  k <> "_altdata" -> k <> "altdata" ->
  robot_attr k (updated items r) = v.
Proof.
  unfold dict_wf. intros Hwf Hget Hk Hk'. revert r.
  induction items as [|[k' v'] items IH]; intros r; [discriminate|].
  simpl in *. inversion Hwf as [|? ? Hnotin Hwf']; subst.
  destruct (String.eqb k k') eqn:E.
  - apply String.eqb_eq in E. subst k'. injection Hget as ->.
    change (fold_left _ items ?x) with (updated items x).
    rewrite updated_untouched; [| rewrite list_elem_of_In in Hnotin; exact Hnotin | exact Hk].
    unfold robot_attr, setattr.
    apply String.eqb_neq in Hk'. rewrite Hk', lookup_insert_eq. reflexivity.
  - apply IH; assumption.
Qed.

(** What a validation step of [put] leaves of the request. *)
Definition keeps (key : string) (data data' : dict) : Prop :=
  (dict_wf data -> dict_wf data') /\
  forall k, k <> key -> dict_get k data' = dict_get k data.

Lemma int_field_outcome key err data :
  match outcome (int_field key err data) with
  | Ok (inr data') => keeps key data data'
  | Ok (inl early) => exists m, early = Error m
  | Raise _ => True
  end.
Proof.
  unfold int_field. destruct (dict_get key data) as [v|].
  - destruct (py_int v) as [z|[m| | | | | | | |]]; simpl; eauto.
    split; [apply dict_set_wf | intros k Hk; apply dict_get_set_ne; congruence].
  - simpl. split; auto.
Qed.

Lemma bot_name_field_outcome data :
  match outcome (bot_name_field data) with
  | Ok (inr data') => data' = data
  | Ok (inl early) => exists m, early = Error m
  | Raise _ => True
  end.
Proof.
  unfold bot_name_field. destruct (dict_get "bot_name" data) as [v|]; [|reflexivity].
  destruct (is_none v || eq_str "" v || negb (is_str v)); simpl; eauto.
Qed.

Lemma split_comma_nonempty s : split_comma s <> [].
Proof.
  destruct s as [|c s]; simpl; [discriminate|].
  destruct (Ascii.eqb c comma); [discriminate|].
  destruct (split_comma s); discriminate.
Qed.

Lemma auto_report_group_ids_field_outcome data :
  match outcome (auto_report_group_ids_field data) with
  | Ok (inr data') =>
      (dict_wf data -> dict_wf data') /\
      (dict_get "auto_report_group_ids" data = Some (PList []) ->
       dict_get "auto_reporters" data' = Some (PStr "")) /\
      (dict_get "auto_report_group_ids" data <> Some (PList []) ->
       dict_get "auto_reporters" data' = dict_get "auto_reporters" data)
  | Ok (inl early) => exists m, early = Error m
  | Raise _ => True
  end.
Proof.
  unfold auto_report_group_ids_field.
  destruct (dict_get "auto_report_group_ids" data) as [v|] eqn:Hv;
    [|simpl; repeat split; [auto | discriminate]].
  set (data1 := match v with
                | PStr s => dict_set "auto_report_group_ids" (PList (map PStr (split_comma s))) data
                | _ => data
                end).
  assert (H1 : (dict_wf data -> dict_wf data1) /\
               dict_get "auto_reporters" data1 = dict_get "auto_reporters" data /\
               dict_get_default "auto_report_group_ids" PNone data1
               = match v with PStr s => PList (map PStr (split_comma s)) | _ => v end).
  { unfold data1, dict_get_default. destruct v; try (rewrite Hv; auto).
    repeat split.
    - apply dict_set_wf.
    - apply dict_get_set_ne. discriminate.
    - rewrite dict_get_set_eq. reflexivity. }
  destruct H1 as (Hwf & Hrep & Hlist). cbv zeta. fold data1. rewrite Hlist.
  assert (Hcase : forall l,
            (v = PList l \/ exists s, v = PStr s /\ l = map PStr (split_comma s)) ->
            match outcome (ok <- all_ints l;;
                           (if ok : bool
                            then match l with
                                 | [] => ret (inr (dict_set "auto_reporters" (PStr "") data1))
                                 | _ :: _ => ret (inr data1)
                                 end
                            else ret (inl (Error AutoReportGroupIdsMustBeIntegers)))) with
            | Ok (inr data') =>
                (dict_wf data -> dict_wf data') /\
                (Some v = Some (PList []) -> dict_get "auto_reporters" data' = Some (PStr "")) /\
                (Some v <> Some (PList []) ->
                 dict_get "auto_reporters" data' = dict_get "auto_reporters" data)
            | Ok (inl early) => exists m, early = Error m
            | Raise _ => True
            end).
  { intros l Hl. rewrite outcome_bind.
    destruct (outcome (all_ints l)) as [[|]|e]; [| simpl; eauto | exact I].
    destruct l as [|x l]; simpl.
    - repeat split.
      + intros H. apply dict_set_wf, Hwf, H.
      + intros _. apply dict_get_set_eq.
      + intros Hx. destruct Hl as [->|(s & -> & Hs)]; [congruence|].
        symmetry in Hs. apply map_eq_nil in Hs. destruct (split_comma_nonempty _ Hs).
    - repeat split; [exact Hwf | | intros _; exact Hrep].
      intros [= ->]. destruct Hl as [Hl|(s & Hl & _)]; discriminate. }
  destruct v as [| b | z | q | s | l | m]; try (simpl; eauto; fail).
  - apply (Hcase (map PStr (split_comma s))). right. eauto.
  - apply (Hcase l). left. reflexivity.
Qed.

Lemma put_validate_outcome data :
  match outcome (put_validate data) with
  | Ok (inr data') =>
      (dict_wf data -> dict_wf data') /\
      (dict_get "auto_report_group_ids" data = Some (PList []) ->
       dict_get "auto_reporters" data' = Some (PStr "")) /\
      (dict_get "auto_report_group_ids" data <> Some (PList []) ->
       dict_get "auto_reporters" data' = dict_get "auto_reporters" data)
  | Ok (inl early) => exists m, early = Error m
  | Raise _ => True
  end.
Proof.
  unfold put_validate. rewrite outcome_bind.
  pose proof (int_field_outcome "bot_id" BotIdMustBeInteger data) as H1.
  destruct (outcome (int_field "bot_id" BotIdMustBeInteger data)) as [[e1|d1]|];
    [exact H1| |exact I].
  rewrite outcome_bind.
  pose proof (bot_name_field_outcome d1) as H2.
  destruct (outcome (bot_name_field d1)) as [[e2|d2]|]; [exact H2| |exact I]. subst d2.
  rewrite outcome_bind.
  pose proof (int_field_outcome "source_group_id" SourceGroupIdMustBeInteger d1) as H3.
  destruct (outcome (int_field "source_group_id" SourceGroupIdMustBeInteger d1))
    as [[e3|d3]|]; [exact H3| |exact I].
  pose proof (auto_report_group_ids_field_outcome d3) as H4.
  destruct (outcome (auto_report_group_ids_field d3)) as [[e4|d4]|]; [exact H4| |exact I].
  destruct H1 as [W1 G1], H3 as [W3 G3], H4 as (W4 & A4 & B4).
  assert (Hg : dict_get "auto_report_group_ids" d3 = dict_get "auto_report_group_ids" data).
  { rewrite G3, G1; [reflexivity | discriminate | discriminate]. }
  assert (Hr : dict_get "auto_reporters" d3 = dict_get "auto_reporters" data).
  { rewrite G3, G1; [reflexivity | discriminate | discriminate]. }
  rewrite Hg in A4, B4. rewrite Hr in B4. repeat split; auto.
Qed.

Lemma put_validate_silent data : events (put_validate data) = [].
Proof.
  assert (H : emits (fun _ => False) (put_validate data)).
  { assert (Hall : forall l, emits (fun _ => False) (all_ints l)).
    { induction l as [|x l IH]; simpl; [apply emits_ret|].
      destruct (py_int x) as [z|[m| | | | | | | |]];
        first [exact IH | apply emits_ret | apply emits_raise]. }
    unfold put_validate, int_field, bot_name_field, auto_report_group_ids_field.
    repeat first
      [ apply Hall | apply emits_ret | apply emits_raise | apply emits_lift
      | apply emits_bind; [|intros ?]
      | match goal with
        | |- emits _ (match ?x with _ => _ end) => destruct x
        | |- emits _ (let _ := _ in _) => cbv zeta
        end ]. }
  unfold emits in H. destruct (events (put_validate data)); [reflexivity|].
  inversion H; contradiction.
Qed.

(** What a run of [put] looks like.  Either nothing was done: the request
    was turned down with an error envelope, or the validation raised.  Or
    the loop over the validated request was entered: it made the
    assignments of a first part of the request, and then either all of them
    were made and the commit went through, followed by the broadcast, or an
    assignment or the commit raised and neither commit nor broadcast
    happened. *)
Lemma put_run (db : orm) (robot : option Robot)
    (tnsrobot_id : pyval) (data : dict) :
  let run := TNSRobotHandler_put db robot tnsrobot_id data in
  (events run = [] /\
   ((exists m, outcome run = Ok (Error m)) \/ exists e, outcome run = Raise e)) \/
  (exists tnsrobot data' n done rest,
     robot = Some tnsrobot /\
     outcome (put_validate data) = Ok (inr data') /\
     py_len (dict_get_default "auto_report_group_ids" (PList []) data') = Ok n /\
     Z.ltb 0 n
     && none_or_empty (dict_get_default "auto_reporters" (PStr "") data')
     && none_or_empty (robot_attr "auto_reporters" tnsrobot) = false /\
     data' = done ++ rest /\
     ((rest = [] /\
       orm_commit db (updated data' tnsrobot) = Ok tt /\
       outcome run = Ok (Success PNone) /\
       events run
       = writes_of done
         ++ [ECommit;
             EPush "skyportal/REFRESH_TNSROBOTS"
               [("group_id", robot_attr "group_id" (updated data' tnsrobot))]])
      \/ ((exists e, outcome run = Raise e) /\ events run = writes_of done))).
Proof.
  cbv zeta. unfold TNSRobotHandler_put.
  rewrite events_bind, outcome_bind, put_validate_silent. simpl app.
  pose proof (put_validate_outcome data) as Hv.
  destruct (outcome (put_validate data)) as [[early|data']|e].
  - destruct Hv as [m ->]. left. split; [reflexivity | left; eauto].
  - destruct robot as [tnsrobot|]; [|left; split; [reflexivity | left; eauto]].
    rewrite events_bind, outcome_bind, events_lift, outcome_lift. simpl app.
    destruct (py_len _) as [n|e] eqn:Hn; [|left; split; [reflexivity | right; eauto]].
    destruct (_ && _ && _) eqn:Hc; [left; split; [reflexivity | left; eauto]|].
    right.
    destruct (setattr_all_prefix db data') as (done & rest & Hsplit & Hev & Hout).
    exists tnsrobot, data', n, done, rest. repeat (split; [auto; fail|]).
    rewrite events_bind, outcome_bind, Hev.
    destruct (outcome (setattr_all db data')) as [[]|e] eqn:Ho.
    + subst rest. rewrite app_nil_r in Hsplit. subst done.
      rewrite run_robot_writes.
      destruct (orm_commit db (updated data' tnsrobot)) as [[]|e] eqn:Hcm.
      * left. change (lift (Ok tt)) with (ret tt). rewrite bind_ret.
        repeat split.
      * right. split; [eexists|]; [reflexivity | apply app_nil_r].
    + right. split; [eexists; reflexivity | apply app_nil_r].
  - left. split; [reflexivity | right; eauto].
Qed.

Lemma run_robot_put_events items (r : Robot) action payload :
  run_robot (writes_of items ++ [ECommit; EPush action payload]) r = updated items r.
Proof.
  unfold run_robot. rewrite fold_left_app. simpl.
  apply run_robot_writes.
Qed.

(** C10.  An update that supplies [auto_report_group_ids] as an empty list
    and goes through leaves [auto_reporters] empty, whether or not the
    request holds a value for it; with any other value of
    [auto_report_group_ids] (or none) and no [auto_reporters] in the
    request, [auto_reporters] is what it was, whatever the outcome. *)
Theorem put_auto_reporters
    (db : orm) (robot : Robot) (tnsrobot_id : pyval) (data : dict) :
  let run := TNSRobotHandler_put db (Some robot) tnsrobot_id data in
  let robot' := run_robot (events run) robot in
  (dict_wf data ->
   dict_get "auto_report_group_ids" data = Some (PList []) ->
   is_success (outcome run) = true ->
   robot_attr "auto_reporters" robot' = PStr "") /\
  (dict_get "auto_report_group_ids" data <> Some (PList []) ->
   dict_get "auto_reporters" data = None ->
   robot_attr "auto_reporters" robot' = robot_attr "auto_reporters" robot).
Proof.
  cbv zeta.
  destruct (put_run db (Some robot) tnsrobot_id data)
    as [(He & Ho)|(r & data' & n & done & rest & [= <-] & Hv & Hn & Hc & Hsplit & H)].
  - rewrite He. split; [|reflexivity].
    intros _ _ Hs. destruct Ho as [(m & Ho)|(e & Ho)]; rewrite Ho in Hs; discriminate.
  - pose proof (put_validate_outcome data) as Hval. rewrite Hv in Hval.
    destruct Hval as (Hwf & Hempty & Hother).
    destruct H as [(-> & Hcm & Ho & He)|((e & Ho) & He)]; rewrite He.
    + rewrite app_nil_r in Hsplit. subst done. rewrite run_robot_put_events. split.
      * intros Hdata Hlist _. apply updated_written; auto; discriminate.
      * intros Hlist Hnone. apply updated_untouched; [|discriminate].
        apply dict_get_None. rewrite Hother; assumption.
    + rewrite run_robot_writes. split.
      * intros _ _ Hs. rewrite Ho in Hs. discriminate.
      * intros Hlist Hnone. apply updated_untouched; [|discriminate].
        intros Hin. assert (Hd : dict_get "auto_reporters" data' = None)
          by (rewrite Hother; assumption).
        apply dict_get_None in Hd. apply Hd. rewrite Hsplit, map_app.
        apply in_or_app. left. exact Hin.
Qed.

(** The mapped class as [TNSRobot] declares it, with a database that takes
    every commit. *)
Definition accepting : orm :=
  {| orm_setattr := setattr_outcome; orm_commit := fun _ => Ok tt |}.

Definition clear_groups_request : dict :=
  [("auto_reporters", PStr "A. Reporter"); ("auto_report_group_ids", PList [])].

Definition reporting_robot : Robot :=
  {[ "auto_reporters" := PStr "B. Reporter" ]}.

Example put_clears_supplied_reporters :
  TNSRobotHandler_put accepting (Some reporting_robot) (PInt 1) clear_groups_request
  = ([ESetAttr "auto_reporters" (PStr ""); ESetAttr "auto_report_group_ids" (PList []);
      ECommit; EPush "skyportal/REFRESH_TNSROBOTS" [("group_id", PNone)]],
     Ok (Success PNone)).
Proof. vm_compute. reflexivity. Qed.

(** A [bot_id] with a separator character in front is turned down: [int()]
    does not skip it, though [str.strip()] would. *)
Example put_rejects_separator :
  TNSRobotHandler_put accepting (Some reporting_robot) (PInt 1)
    [("bot_id", PStr (String (ascii_of_nat 28) "12"))]
  = ([], Ok (Error BotIdMustBeInteger)).
Proof. vm_compute. reflexivity. Qed.

(** A commit that the database refuses ends the request in that exception,
    after the assignments and without a broadcast. *)
Example put_commit_refused :
  TNSRobotHandler_put
    {| orm_setattr := setattr_outcome;
       orm_commit := fun _ => Raise (ExternalError "IntegrityError") |}
    (Some reporting_robot) (PInt 1) [("group_id", PNone)]
  = ([ESetAttr "group_id" PNone], Raise (ExternalError "IntegrityError")).
Proof. vm_compute. reflexivity. Qed.

(** An assignment to the relationship [group] raises after the assignments
    before it were made; nothing is committed. *)
Example put_stops_at_relationship :
  TNSRobotHandler_put accepting (Some reporting_robot) (PInt 1)
    [("bot_id", PInt 5); ("group", PInt 5)]
  = ([ESetAttr "bot_id" (PInt 5)], Raise AttributeError).
Proof. vm_compute. reflexivity. Qed.

Lemma put_auto_reporters_witness :
  robot_attr "auto_reporters"
    (run_robot (events (TNSRobotHandler_put accepting (Some reporting_robot) (PInt 1)
                          [("auto_report_group_ids", PList [])]))
       reporting_robot)
  = PStr "".
Proof.
  apply (proj1 (put_auto_reporters accepting reporting_robot (PInt 1)
                  [("auto_report_group_ids", PList [])])).
  - unfold dict_wf. simpl. repeat constructor. intros H; inversion H.
  - reflexivity.
  - vm_compute. reflexivity.
Defined.

(** ** Further properties of the retrieval tasks *)

(** *** The object request *)



(** X2.  When the request or one of its first four retries gets an answer
    other than 429, every answer before it being a 429 with a JSON body, the
    call returns that answer, having slept 30 seconds once per retry. *)
Theorem fetch_object_returns_first_other_answer
    (fetch : nat -> result Response) (k : nat) (r : Response) :
  (k < 5)%nat ->
  (forall i, (i < k)%nat -> answers_429 (fetch i) = true) ->
  fetch k = Ok r ->
  status_code r <> 429 ->
  outcome (fetch_object fetch) = Ok r /\
  count_events is_sleep (events (fetch_object fetch)) = k /\
  count_events is_object_post (events (fetch_object fetch)) = S k.
Proof.
  intros Hk Hretry Hr Hs.
  destruct (fetch_object_spec fetch k r) as (H1 & H2 & H3 & _);
    [unfold count_limit; lia | exact Hretry | exact Hr | left; exact Hs |].
  cbv zeta in H1, H2, H3.
  replace (k =? count_limit)%nat with false in H1
    by (symmetry; apply Nat.eqb_neq; unfold count_limit; lia).
  auto.
Qed.

Lemma fetch_object_returns_first_other_answer_witness :
  outcome (fetch_object (fun n => if (n <? 2)%nat then Ok (reply 429) else Ok (reply 200)))
  = Ok (reply 200) /\
  count_events is_sleep
    (events (fetch_object (fun n => if (n <? 2)%nat then Ok (reply 429) else Ok (reply 200))))
  = 2%nat /\
  count_events is_object_post
    (events (fetch_object (fun n => if (n <? 2)%nat then Ok (reply 429) else Ok (reply 200))))
  = 3%nat.
Proof.
  apply (fetch_object_returns_first_other_answer
           (fun n => if (n <? 2)%nat then Ok (reply 429) else Ok (reply 200)) 2 (reply 200)).
  - lia.
  - intros i Hi. destruct i as [|[|i]]; [reflexivity | reflexivity | lia].
  - reflexivity.
  - discriminate.
Defined.

(** X3.  When the request and all five retries are answered with 429, the
    call raises the rate-exceeded error after exactly six requests and five
    sleeps. *)
Theorem fetch_object_gives_up_after_five_retries (fetch : nat -> result Response) :
  (forall i, (i <= 5)%nat -> answers_429 (fetch i) = true) ->
  outcome (fetch_object fetch) = Raise (ValueError RateExceeded) /\
  count_events is_sleep (events (fetch_object fetch)) = 5%nat /\
  count_events is_object_post (events (fetch_object fetch)) = 6%nat.
Proof.
  intros Hall.
  pose proof (Hall 5%nat ltac:(lia)) as H5.
  destruct (fetch 5%nat) as [r5|] eqn:Hr5; [|discriminate].
  destruct (fetch_object_spec fetch 5 r5) as (H1 & H2 & H3 & _);
    [unfold count_limit; lia | intros i Hi; apply Hall; lia | exact Hr5
    | right; reflexivity |].
  auto.
Qed.

Lemma fetch_object_gives_up_after_five_retries_witness :
  outcome (fetch_object (fun _ => Ok (reply 429))) = Raise (ValueError RateExceeded) /\
  count_events is_sleep (events (fetch_object (fun _ => Ok (reply 429)))) = 5%nat /\
  count_events is_object_post (events (fetch_object (fun _ => Ok (reply 429)))) = 6%nat.
Proof.
  apply (fetch_object_gives_up_after_five_retries (fun _ => Ok (reply 429))).
  intros i _. reflexivity.
Defined.

(** *** What a retrieval can emit *)

(** The events of the [try] block of [tns_retrieval] before its commit. *)
Definition retrieval_step_event (e : event) : bool :=
  match e with
  | EQuery | ESleep _ | EAddPhotometry _ _ _ => true
  | ETNS GetIAUname | ETNS PostObject => true
  | EWrite (WTnsName _ _) | EWrite (WTnsInfo _ _) | EWrite (WSpectrum _) => true
  | ELog (LogRateLimited _) | ELog (LogCannotReadPhotometry _ _)
  | ELog (LogFailedPhotometry _ _) | ELog (LogCannotReadSpectrum _ _)
  | ELog (LogRetrieved _ _) | ELog (LogFailedRetrieve _ _) => true
  | _ => false
  end.

(** The events of a whole run of [tns_retrieval]. *)
Definition retrieval_event (e : event) : bool :=
  retrieval_step_event e ||
  match e with
  | EAcquire | ECommit | EClose | ERemove => true
  | EPush action _ => String.eqb action "skyportal/REFRESH_SOURCE"
  | ELog (LogUnable _ _) => true
  | _ => false
  end.

Definition is_unable_log (e : event) : bool :=
  match e with ELog (LogUnable _ _) => true | _ => false end.

Definition is_write (e : event) : bool :=
  match e with EWrite _ => true | _ => false end.




Ltac step_events :=
  repeat first
    [ apply emits_ret | apply emits_raise | apply emits_lift
    | apply emits_emit; reflexivity
    | apply emits_bind; [|intros ?]
    | apply emits_try_except; [|intros ?]
    | match goal with
      | |- emits _ (match ?x with _ => _ end) => destruct x
      end ].

Section StepEvents.

Let P := fun e => retrieval_step_event e = true.

Lemma rate_limit_loop_alphabet fetch fuel r count :
  emits P (rate_limit_loop fetch fuel r count).
Proof.
  revert r count. induction fuel as [|fuel IH]; intros r count; simpl;
    destruct (Z.eqb (status_code r) 429 && (count <? count_limit)%nat);
    try apply emits_ret.
  repeat (apply emits_bind; [|intros ?]);
    try apply emits_lift; try (apply emits_emit; reflexivity).
  apply IH.
Qed.

Lemma fetch_object_alphabet fetch : emits P (fetch_object fetch).
Proof.
  unfold fetch_object.
  apply emits_bind; [apply emits_emit; reflexivity | intros _].
  apply emits_bind; [apply emits_lift | intros r].
  apply emits_bind; [apply rate_limit_loop_alphabet | intros rc].
  destruct (snd rc =? count_limit)%nat; [apply emits_raise | apply emits_ret].
Qed.

Lemma photometry_loop_alphabet env obj_id group_ids photometry failed :
  emits P (photometry_loop env obj_id group_ids photometry failed).
Proof.
  revert failed.
  induction photometry as [|phot rest IH]; intros failed; simpl; [apply emits_ret|].
  apply emits_bind; [|intros ?; apply IH]. step_events.
Qed.

Lemma spectra_loop_alphabet env obj_id group_ids spectra :
  emits P (spectra_loop env obj_id group_ids spectra).
Proof.
  induction spectra as [|spectrum rest IH]; simpl; [apply emits_ret|].
  destruct (re_read_spectrum env spectrum) as [data|e].
  - repeat (apply emits_bind; [|intros ?]); try apply emits_lift; try exact IH.
    apply emits_emit; reflexivity.
  - apply emits_bind; [apply emits_emit; reflexivity | intros _; exact IH].
Qed.

Lemma process_reply_alphabet env obj_id ip isp tns_name r :
  emits P (process_reply env obj_id ip isp tns_name r).
Proof.
  unfold process_reply.
  repeat first
    [ apply emits_lift | apply emits_ret
    | apply emits_emit; reflexivity
    | apply photometry_loop_alphabet
    | apply spectra_loop_alphabet
    | apply emits_bind; [|intros ?]
    | match goal with |- emits _ (if ?b then _ else _) => destruct b end ].
Qed.

Lemma tns_retrieval_steps_alphabet json_loads env obj_id robot_id ip isp :
  emits P (tns_retrieval_steps json_loads env obj_id robot_id ip isp).
Proof.
  unfold tns_retrieval_steps.
  repeat first
    [ apply emits_checked_altdata
    | apply emits_ret | apply emits_raise | apply emits_lift
    | apply emits_emit; reflexivity
    | apply fetch_object_alphabet
    | apply process_reply_alphabet
    | apply emits_bind; [|intros ?]
    | match goal with
      | |- emits _ (match ?x with _ => _ end) => destruct x
      end ].
Qed.

End StepEvents.

Lemma steps_count_none json_loads env obj_id robot_id ip isp (p : event -> bool) :
  (forall e, retrieval_step_event e = true -> p e = false) ->
  count_events p (events (tns_retrieval_steps json_loads env obj_id robot_id ip isp)) = O.
Proof.
  intros Hp. apply count_events_none.
  eapply Forall_impl; [apply tns_retrieval_steps_alphabet | exact Hp].
Qed.

(** The events of a run, in terms of those of its steps. *)
Lemma tns_retrieval_events json_loads env obj_id robot_id user_id ip isp parent :
  let steps := tns_retrieval_steps json_loads env obj_id robot_id ip isp in
  events (tns_retrieval json_loads env obj_id robot_id user_id ip isp parent)
  = (match parent with None => [EAcquire] | Some _ => [] end)
    ++ EQuery :: events steps
    ++ (match outcome steps with
        | Ok obj => [ECommit; refresh_source obj]
        | Raise e => [ELog (LogUnable obj_id e)]
        end)
    ++ (match parent with Some _ => [EClose; ERemove] | None => [] end).
Proof.
  cbv zeta. unfold tns_retrieval, tns_retrieval_body.
  destruct parent as [h|]; [rewrite bind_ret | rewrite events_emit_bind];
    rewrite events_emit_bind, events_try_finally, events_try_except,
      events_bind, outcome_bind;
    destruct (outcome (tns_retrieval_steps _ _ _ _ _ _)) as [obj|e];
    simpl; rewrite <- ?app_assoc; reflexivity.
Qed.

(** X4.  A run of [tns_retrieval] never raises.  It ends in exactly one of
    two ways: with one commit followed by one refresh notification, or with
    one "Unable to retrieve" log line and neither of them. *)
Theorem tns_retrieval_ends_one_way
    (json_loads : string -> option pyval) (env : retrieval_env)
    (obj_id robot_id user_id ip isp : pyval) (parent : option session_handle) :
  let run := tns_retrieval json_loads env obj_id robot_id user_id ip isp parent in
  outcome run = Ok tt /\
  (count_events is_commit (events run) + count_events is_unable_log (events run) = 1)%nat /\
  count_events is_refresh_source (events run) = count_events is_commit (events run).
Proof.
  cbv zeta. split; [apply tns_retrieval_commits|].
  rewrite tns_retrieval_events.
  repeat first [rewrite count_events_cons | rewrite count_events_app].
  rewrite !steps_count_none by (intros [] H; try discriminate H; try reflexivity;
                                  destruct l; try discriminate H; reflexivity).
  destruct parent, (outcome (tns_retrieval_steps _ _ _ _ _ _)); split; reflexivity.
Qed.

(** X5.  Within TNS a run of [tns_retrieval] only resolves the name and
    requests the object, and the only changes it makes through the session
    are the TNS name, the cached reply and posted spectra; it launches no
    task, sets no robot attribute and pushes no notification other than the
    source refresh. *)
Theorem tns_retrieval_alphabet
    (json_loads : string -> option pyval) (env : retrieval_env)
    (obj_id robot_id user_id ip isp : pyval) (parent : option session_handle) :
  Forall (fun e => retrieval_event e = true)
    (events (tns_retrieval json_loads env obj_id robot_id user_id ip isp parent)).
Proof.
  rewrite tns_retrieval_events.
  repeat first [apply Forall_app; split | apply Forall_cons; split].
  - destruct parent; repeat constructor.
  - reflexivity.
  - eapply Forall_impl; [apply tns_retrieval_steps_alphabet|].
    intros e He. unfold retrieval_event. simpl in He. rewrite He. reflexivity.
  - destruct (outcome _); repeat constructor.
  - destruct parent; repeat constructor.
Qed.

Definition session_prefix (parent : option session_handle) : list event :=
  match parent with None => [EAcquire] | Some _ => [] end.

Definition session_suffix (parent : option session_handle) : list event :=
  match parent with Some _ => [EClose; ERemove] | None => [] end.

(** X6.  Without the object, or without the robot, a run makes no call to
    TNS and changes nothing: it looks them up and logs which one is
    missing, the object first. *)
Theorem tns_retrieval_without_object_or_robot
    (json_loads : string -> option pyval) (env : retrieval_env)
    (obj_id robot_id user_id ip isp : pyval) (parent : option session_handle) :
  re_obj env = None \/ re_robot env = None ->
  events (tns_retrieval json_loads env obj_id robot_id user_id ip isp parent)
  = session_prefix parent
    ++ match re_obj env with
       | None => [EQuery; EQuery;
                  ELog (LogUnable obj_id (ValueError (NoObjectWithID obj_id)))]
       | Some _ => [EQuery; EQuery; EQuery;
                    ELog (LogUnable obj_id (ValueError (NoTNSRobotWithID robot_id)))]
       end
    ++ session_suffix parent.
Proof.
  intros H. rewrite tns_retrieval_events. unfold tns_retrieval_steps.
  destruct (re_obj env) as [obj|]; [destruct H as [H|H]; [discriminate|]; rewrite H|];
    destruct parent; reflexivity.
Qed.

Lemma tns_retrieval_without_object_or_robot_witness :
  events (tns_retrieval json_loads_basic
            {| re_user := None; re_obj := Some sample_obj; re_robot := None;
               re_iauname := Ok None; re_fetch := fun _ => Ok (reply 200);
               re_read_photometry := fun p => Ok p; re_add_photometry := fun _ => Ok tt;
               re_read_spectrum := fun p => Ok p; re_post_spectrum := fun _ => Ok tt |}
            (PStr "ZTF24aa") (PInt 1) (PInt 7) (PBool true) (PBool true) None)
  = [EAcquire; EQuery; EQuery; EQuery;
     ELog (LogUnable (PStr "ZTF24aa") (ValueError (NoTNSRobotWithID (PInt 1))))].
Proof.
  apply (tns_retrieval_without_object_or_robot json_loads_basic
           {| re_user := None; re_obj := Some sample_obj; re_robot := None;
              re_iauname := Ok None; re_fetch := fun _ => Ok (reply 200);
              re_read_photometry := fun p => Ok p; re_add_photometry := fun _ => Ok tt;
              re_read_spectrum := fun p => Ok p; re_post_spectrum := fun _ => Ok tt |}
           (PStr "ZTF24aa") (PInt 1) (PInt 7) (PBool true) (PBool true) None).
  right. reflexivity.
Defined.

(** X7.  When [get_IAUname] finds no name for the object, the run stops
    there: the name resolution is its only call to TNS, the object is not
    changed, nothing is committed, and the log says the object is not yet
    posted to TNS. *)
Theorem tns_retrieval_unresolved_name
    (json_loads : string -> option pyval) (env : retrieval_env)
    (obj_id robot_id user_id ip isp : pyval) (parent : option session_handle)
    (obj : Obj) (robot : Robot) (d : dict) :
  re_obj env = Some obj ->
  re_robot env = Some robot ->
  altdata json_loads robot = Ok (PDict d) ->
  dict_has "api_key" d = true ->
  re_iauname env = Ok None ->
  events (tns_retrieval json_loads env obj_id robot_id user_id ip isp parent)
  = session_prefix parent
    ++ [EQuery; EQuery; EQuery; ETNS GetIAUname;
        ELog (LogUnable obj_id (ValueError (NotYetPostedToTNS obj_id)))]
    ++ session_suffix parent.
Proof.
  intros Hobj Hrobot Had Hkey Hname.
  destruct (getitem_present _ _ Hkey) as [v Hv].
  rewrite tns_retrieval_events. unfold tns_retrieval_steps.
  rewrite Hobj, Hrobot, (checked_altdata_ok _ _ _ Had Hkey), bind_ret, Hv, Hname.
  destruct parent; reflexivity.
Qed.

Lemma tns_retrieval_unresolved_name_witness :
  events (tns_retrieval json_loads_basic
            {| re_user := None; re_obj := Some sample_obj; re_robot := Some robot_with_key;
               re_iauname := Ok None; re_fetch := fun _ => Ok (reply 200);
               re_read_photometry := fun p => Ok p; re_add_photometry := fun _ => Ok tt;
               re_read_spectrum := fun p => Ok p; re_post_spectrum := fun _ => Ok tt |}
            (PStr "ZTF24aa") (PInt 1) (PInt 7) (PBool true) (PBool true) (Some TheSession))
  = [EQuery; EQuery; EQuery; ETNS GetIAUname;
     ELog (LogUnable (PStr "ZTF24aa") (ValueError (NotYetPostedToTNS (PStr "ZTF24aa"))));
     EClose; ERemove].
Proof.
  apply (tns_retrieval_unresolved_name json_loads_basic
           {| re_user := None; re_obj := Some sample_obj; re_robot := Some robot_with_key;
              re_iauname := Ok None; re_fetch := fun _ => Ok (reply 200);
              re_read_photometry := fun p => Ok p; re_add_photometry := fun _ => Ok tt;
              re_read_spectrum := fun p => Ok p; re_post_spectrum := fun _ => Ok tt |}
           (PStr "ZTF24aa") (PInt 1) (PInt 7) (PBool true) (PBool true) (Some TheSession)
           sample_obj robot_with_key [("api_key", PStr "secret")]).
  - reflexivity.
  - reflexivity.
  - vm_compute. reflexivity.
  - reflexivity.
  - reflexivity.
Defined.

(** *** Photometry and spectra of a reply *)









(** X10.  Neither photometry nor spectra are asked for, and the body of a
    200 answer is JSON with mappings under [data] and [reply].  An empty
    reply is a success with nothing to do: only the success is logged.  A
    reply that is not empty is cached on the object, and the photometry and
    spectra it may hold are left alone; then [user.accessible_groups] is
    read: with a user the success is logged, without one the read raises
    [AttributeError], after the reply was cached and before any log. *)
Theorem process_reply_without_includes
    (env : retrieval_env) (obj_id ip isp : pyval) (tns_name : string)
    (r : Response) (body data source_data : pyval) :
  json r = Some body ->
  py_get_or_empty "data" body = Ok data ->
  py_get_or_empty "reply" data = Ok source_data ->
  truthy ip = false -> truthy isp = false ->
  process_reply env obj_id ip isp tns_name r
  = if truthy source_data then
      match re_user env with
      | Some _ =>
          ([EWrite (WTnsInfo obj_id source_data); ELog (LogRetrieved obj_id tns_name)],
           Ok tt)
      | None => ([EWrite (WTnsInfo obj_id source_data)], Raise AttributeError)
      end
    else ([ELog (LogRetrieved obj_id tns_name)], Ok tt).
Proof.
  intros Hbody Hdata Hreply Hip Hisp. unfold process_reply, response_json, wanted.
  rewrite Hbody. change (lift (Ok body)) with (ret body). rewrite bind_ret, Hdata.
  change (lift (Ok data)) with (ret data). rewrite bind_ret, Hreply.
  change (lift (Ok source_data)) with (ret source_data). rewrite bind_ret.
  rewrite Hip, Hisp. destruct (truthy source_data); [|reflexivity].
  destruct (re_user env); reflexivity.
Qed.

Definition without_user (env : retrieval_env) : retrieval_env :=
  {| re_user := None;
     re_obj := re_obj env;
     re_robot := re_robot env;
     re_iauname := re_iauname env;
     re_fetch := re_fetch env;
     re_read_photometry := re_read_photometry env;
     re_add_photometry := re_add_photometry env;
     re_read_spectrum := re_read_spectrum env;
     re_post_spectrum := re_post_spectrum env |}.

Lemma process_reply_without_includes_witness :
  process_reply (without_user (ready_env (fun _ => Ok (reply 200))))
    (PStr "ZTF24aa") (PBool false) PNone "2024abc"
    {| status_code := 200;
       json := Some (PDict [("data", PDict [("reply", PDict [("photometry", PList [PInt 1])])])]);
       content := "" |}
  = ([EWrite (WTnsInfo (PStr "ZTF24aa") (PDict [("photometry", PList [PInt 1])]))],
     Raise AttributeError).
Proof.
  apply (process_reply_without_includes
           (without_user (ready_env (fun _ => Ok (reply 200))))
           (PStr "ZTF24aa") (PBool false) PNone "2024abc" _
           (PDict [("data", PDict [("reply", PDict [("photometry", PList [PInt 1])])])])
           (PDict [("reply", PDict [("photometry", PList [PInt 1])])])
           (PDict [("photometry", PList [PInt 1])]));
    reflexivity.
Defined.

(** ** Further properties of the bulk task *)

Definition is_source_write (e : event) : bool :=
  match e with EWrite (WSource _ _) => true | _ => false end.

Definition needs_posting (s : source_env) : bool :=
  match se_local s with None => true | Some _ => false end.

(** A source is posted for the given groups, and only a source of the batch
    that has no local object. *)
Definition posts_from (sources : list source_env) (group_ids : pyval) (e : event) : Prop :=
  match e with
  | EWrite (WSource source g) =>
      g = group_ids /\
      exists s, In s sources /\ se_source s = source /\ se_local s = None
  | _ => True
  end.

Lemma posts_from_mono sources sources' group_ids e :
  (forall s, In s sources -> In s sources') ->
  posts_from sources group_ids e -> posts_from sources' group_ids e.
Proof.
  intros Hsub. destruct e as [| | | | | |w| | | | | |]; try exact (fun x => x).
  destruct w; try exact (fun x => x).
  intros (Hg & s & Hin & Hs & Hl). split; [exact Hg|]. exists s. auto.
Qed.

Lemma retrieval_posts_no_source json_loads env obj_id robot_id user_id ip isp parent
    sources group_ids :
  Forall (posts_from sources group_ids)
    (events (tns_retrieval json_loads env obj_id robot_id user_id ip isp parent)) /\
  count_events is_source_write
    (events (tns_retrieval json_loads env obj_id robot_id user_id ip isp parent)) = O.
Proof.
  pose proof (tns_retrieval_alphabet json_loads env obj_id robot_id user_id ip isp parent) as H.
  split.
  - eapply Forall_impl; [exact H|]. intros e He.
    destruct e as [| | | | | |w| | | | | |]; try exact I. destruct w; try exact I.
    discriminate He.
  - apply count_events_none. eapply Forall_impl; [exact H|]. intros e He.
    destruct e as [| | | | | |w| | | | | |]; try reflexivity. destruct w; try reflexivity.
    discriminate He.
Qed.

Lemma bulk_step_posts json_loads s robot_id user_id gids ip isp :
  let run := bulk_step json_loads s robot_id user_id gids ip isp in
  Forall (posts_from [s] gids) (events run) /\
  count_events is_source_write (events run)
  = (if step_raises s then 0 else if needs_posting s then 1 else 0)%nat.
Proof.
  cbv zeta. unfold bulk_step, step_raises, needs_posting.
  rewrite events_bind, outcome_lift, events_lift, app_nil_l.
  destruct (py_getitem "id" (se_source s)) as [source_id|e]; [|split; [constructor|reflexivity]].
  rewrite events_emit_bind, events_bind.
  destruct (retrieval_posts_no_source json_loads (se_retrieval s) source_id robot_id user_id
              ip isp (Some TheSession) [s] gids) as [HF HC].
  destruct (se_local s) as [local|] eqn:Hlocal.
  - rewrite outcome_ret, events_ret, app_nil_l, count_events_cons, HC. split; [|reflexivity].
    constructor; [exact I | exact HF].
  - rewrite outcome_emit_bind, events_emit_bind, outcome_bind, events_bind,
      outcome_lift, events_lift, app_nil_l.
    destruct (se_post_source s) as [u|e].
    + rewrite outcome_emit, events_emit. simpl app.
      rewrite !count_events_cons, HC. split; [|reflexivity].
      constructor; [exact I|]. constructor; [exact I|]. constructor; [|exact HF].
      split; [reflexivity|]. exists s. split; [left; reflexivity | auto].
    + split; [repeat constructor | reflexivity].
Qed.

(** X11.  The per-source loop of the bulk task posts a source only when no
    local object exists for it: it posts exactly the sources without a
    local object among those it handles, each for the groups of the batch,
    and the inner retrievals post none. *)
Theorem bulk_loop_posts_missing_sources
    (json_loads : string -> option pyval) (sources : list source_env)
    (robot_id user_id gids ip isp : pyval) :
  let run := bulk_loop json_loads sources robot_id user_id gids ip isp in
  count_events is_source_write (events run)
  = length (filter (fun s => needs_posting s = true) (handled sources)) /\
  Forall (posts_from sources gids) (events run).
Proof.
  cbv zeta. induction sources as [|s rest [IHc IHf]]; [split; [reflexivity|constructor]|].
  simpl bulk_loop. rewrite events_bind, count_events_app.
  destruct (bulk_step_posts json_loads s robot_id user_id gids ip isp) as [HF HC].
  destruct (bulk_step_commits json_loads s robot_id user_id gids ip isp) as (Hout & Hraise & _).
  cbv zeta in HF, HC, Hout, Hraise. rewrite HC. simpl handled.
  assert (HF' : Forall (posts_from (s :: rest) gids)
                  (events (bulk_step json_loads s robot_id user_id gids ip isp))).
  { eapply Forall_impl; [exact HF|]. intros e. apply posts_from_mono.
    intros x [->|[]]. left. reflexivity. }
  destruct (step_raises s).
  - destruct (Hraise eq_refl) as [e ->]. rewrite app_nil_r.
    split; [reflexivity | exact HF'].
  - rewrite Hout, IHc, filter_cons. split.
    + destruct (needs_posting s);
        [rewrite decide_True by reflexivity | rewrite decide_False by discriminate];
        reflexivity.
    + apply Forall_app. split; [exact HF'|].
      eapply Forall_impl; [exact IHf|]. intros e. apply posts_from_mono.
      intros x Hx. right. exact Hx.
Qed.

(** X12.  Once the bulk task has resolved the groups to post for, it
    never raises and it ends with its session closed, removed from the
    registry and without pending work, whatever happened in between. *)
Theorem tns_bulk_retrieval_ends_released
    (json_loads : string -> option pyval) (env : bulk_env)
    (start_date robot_id user_id gids ip isp : pyval) (s0 : session_state) :
  is_none gids = false \/ be_user env <> None ->
  let run := tns_bulk_retrieval json_loads env start_date robot_id user_id gids ip isp in
  outcome run = Ok tt /\
  closed (run_session (events run) s0) = true /\
  registered (run_session (events run) s0) = false /\
  pending (run_session (events run) s0) = [].
Proof.
  intros Hg. cbv zeta. unfold tns_bulk_retrieval.
  assert (Hgids : exists g, (if is_none gids then lift (accessible_group_ids (be_user env))
                             else ret gids) = ret g).
  { destruct (is_none gids); [|eauto].
    destruct Hg as [Hg|Hg]; [discriminate|].
    destruct (be_user env); [eexists; reflexivity | congruence]. }
  destruct Hgids as [g ->]. split.
  - rewrite !outcome_emit_bind, bind_ret, outcome_try_finally, outcome_try_except.
    rewrite outcome_emit_bind, outcome_emit.
    destruct (outcome (tns_bulk_retrieval_body _ _ _ _ _ _ _ _)) as [[]|e]; reflexivity.
  - rewrite !events_emit_bind, bind_ret, events_try_finally, events_emit_bind, events_emit.
    rewrite !app_comm_cons, run_session_app. repeat split.
Qed.

Lemma tns_bulk_retrieval_ends_released_witness :
  let run := bulk_run [known_source "2024abc"; unpostable_source "2024abd"] in
  outcome run = Ok tt /\
  closed (run_session (events run) fresh_session) = true /\
  registered (run_session (events run) fresh_session) = false /\
  pending (run_session (events run) fresh_session) = [].
Proof.
  apply (tns_bulk_retrieval_ends_released json_loads_basic
           (bulk_env_of [known_source "2024abc"; unpostable_source "2024abd"])
           (PStr "2024-01-01T00:00:00") (PInt 1) (PInt 7) (PList [PInt 1])
           (PBool false) (PBool false) fresh_session).
  left. reflexivity.
Defined.

(** X13.  When TNS reports no object since the start date, the bulk task
    logs that as its failure and releases the session: it posts no source,
    starts no retrieval and commits nothing. *)
Theorem tns_bulk_retrieval_nothing_recent
    (json_loads : string -> option pyval) (env : bulk_env)
    (start_date robot_id user_id gids ip isp : pyval) (robot : Robot) (d : dict) :
  is_none gids = false \/ be_user env <> None ->
  be_robot env = Some robot ->
  altdata json_loads robot = Ok (PDict d) ->
  dict_has "api_key" d = true ->
  be_recent env = Ok [] ->
  tns_bulk_retrieval json_loads env start_date robot_id user_id gids ip isp
  = ([EAcquire; EQuery; EQuery; ETNS GetRecentTNS;
      ELog (LogBulkUnable start_date (ValueError (NoObjectsSince start_date)));
      EClose; ERemove], Ok tt).
Proof.
  intros Hg Hrobot Had Hkey Hrecent.
  destruct (getitem_present _ _ Hkey) as [v Hv].
  unfold tns_bulk_retrieval.
  assert (Hgids : exists g, (if is_none gids then lift (accessible_group_ids (be_user env))
                             else ret gids) = ret g).
  { destruct (is_none gids); [|eauto].
    destruct Hg as [Hg|Hg]; [discriminate|].
    destruct (be_user env); [eexists; reflexivity | congruence]. }
  destruct Hgids as [g ->]. rewrite bind_ret. unfold tns_bulk_retrieval_body.
  rewrite Hrobot, (checked_altdata_ok _ _ _ Had Hkey), bind_ret, Hv, Hrecent.
  reflexivity.
Qed.

Lemma tns_bulk_retrieval_nothing_recent_witness :
  bulk_run []
  = ([EAcquire; EQuery; EQuery; ETNS GetRecentTNS;
      ELog (LogBulkUnable (PStr "2024-01-01T00:00:00")
              (ValueError (NoObjectsSince (PStr "2024-01-01T00:00:00"))));
      EClose; ERemove], Ok tt).
Proof.
  apply (tns_bulk_retrieval_nothing_recent json_loads_basic (bulk_env_of [])
           (PStr "2024-01-01T00:00:00") (PInt 1) (PInt 7) (PList [PInt 1])
           (PBool false) (PBool false) robot_with_key [("api_key", PStr "secret")]).
  - left. reflexivity.
  - reflexivity.
  - vm_compute. reflexivity.
  - reflexivity.
  - reflexivity.
Defined.

(** ** Further properties of the triggers *)

(** A trigger either answers with success after handing exactly one task to
    the executor, or does not answer with success and has done nothing. *)
Definition launches_or_nothing (m : M envelope) : Prop :=
  (is_success (outcome m) = true /\ exists t, events m = [ELaunch t]) \/
  (is_success (outcome m) = false /\ events m = []).

Lemma nothing_error msg : launches_or_nothing (ret (Error msg)).
Proof. right. split; reflexivity. Qed.

Lemma nothing_bind {A} (m : M A) (k : A -> M envelope) :
  events m = [] ->
  (forall a, outcome m = Ok a -> launches_or_nothing (k a)) ->
  launches_or_nothing (bind m k).
Proof.
  intros Hm Hk. unfold launches_or_nothing. rewrite events_bind, outcome_bind, Hm.
  destruct (outcome m) as [a|e]; [apply (Hk a eq_refl)|].
  right. split; reflexivity.
Qed.

Lemma silent_events {A} (m : M A) : emits (fun _ => False) m -> events m = [].
Proof.
  unfold emits. destruct (events m); [reflexivity|]. intros H. inversion H. contradiction.
Qed.

Lemma with_api_key_launches json_loads robot t :
  launches_or_nothing
    (with_api_key json_loads robot (emit (ELaunch t) ;; ret (Success PNone))).
Proof.
  unfold with_api_key.
  apply nothing_bind; [reflexivity | intros ad _].
  destruct (negb (truthy ad)); [apply nothing_error|].
  apply nothing_bind; [reflexivity | intros has _].
  destruct (negb has); [apply nothing_error|].
  left. split; [reflexivity | eexists; reflexivity].
Qed.

(** X14.  Each of the three triggers (bulk retrieval, single-object
    retrieval, object push) answers with success exactly when it has handed
    one task to the executor; a request that is not answered with
    success, or that ends in an exception, has launched nothing. *)
Theorem triggers_launch_iff_success
    (json_loads : string -> option pyval) (env : handler_env) (obj_id : pyval)
    (data : dict) :
  launches_or_nothing (BulkTNSHandler_post json_loads env data) /\
  launches_or_nothing (ObjTNSHandler_get json_loads env obj_id data) /\
  launches_or_nothing (ObjTNSHandler_post json_loads env obj_id data).
Proof.
  split; [|split].
  - unfold BulkTNSHandler_post.
    apply nothing_bind; [apply silent_events, emits_parse_group_ids | intros [early|g] Hg].
    + destruct (parse_group_ids_early _ _ Hg) as [m ->]. apply nothing_error.
    + apply nothing_bind; [apply silent_events, emits_parse_start_date | intros sd _].
      destruct (dict_get_default "tnsrobotID" PNone data); try apply nothing_error;
        cbv zeta; destruct (he_robot env);
        first [apply nothing_error | apply with_api_key_launches].
  - unfold ObjTNSHandler_get.
    destruct (dict_get_default "tnsrobotID" PNone data); try apply nothing_error;
      cbv zeta; destruct (he_obj env); try apply nothing_error;
      destruct (he_robot env); first [apply nothing_error | apply with_api_key_launches].
  - unfold ObjTNSHandler_post. cbv zeta.
    destruct (is_none _); [apply nothing_error|].
    destruct (_ || _); [apply nothing_error|].
    destruct (he_obj env); [|apply nothing_error].
    destruct (he_robot env); [|apply nothing_error].
    apply nothing_bind;
      [apply silent_events, emits_archival_comment_missing | intros [|] _];
      [apply nothing_error | apply with_api_key_launches].
Qed.

Lemma success_bind {A} (m : M A) (k : A -> M envelope) :
  is_success (outcome (bind m k)) = true ->
  exists a, outcome m = Ok a /\ is_success (outcome (k a)) = true.
Proof.
  rewrite outcome_bind. destruct (outcome m) as [a|e]; [eauto | discriminate].
Qed.

Lemma with_api_key_success json_loads robot (k : M envelope) :
  is_success (outcome (with_api_key json_loads robot k)) = true ->
  with_api_key json_loads robot k = k /\
  exists ad, altdata json_loads robot = Ok ad /\ truthy ad = true /\
             py_in "api_key" ad = Ok true.
Proof.
  unfold with_api_key. destruct (altdata json_loads robot) as [ad|e]; [|discriminate].
  change (lift (Ok ad)) with (@ret pyval ad). rewrite bind_ret.
  destruct (truthy ad) eqn:Ht; [|discriminate]. simpl negb. cbv iota.
  destruct (py_in "api_key" ad) as [has|e] eqn:Hin; [|discriminate].
  change (lift (Ok has)) with (ret has). rewrite bind_ret.
  destruct has; [|discriminate]. simpl.
  intros _. split; [reflexivity | exists ad; auto].
Qed.





(** X16.  An object push answered with success has handed exactly one
    posting task to the executor: for the one object of the request, with a
    time-out of 30, with reporters that are a non-empty text, and, when
    [archival] is [True], with an archival comment that is not empty. *)
Theorem obj_push_task
    (json_loads : string -> option pyval) (env : handler_env) (obj_id : pyval)
    (data : dict) :
  let run := ObjTNSHandler_post json_loads env obj_id data in
  is_success (outcome run) = true ->
  exists robot reporters archival comment,
    he_robot env = Some robot /\
    he_obj env <> None /\
    events run
    = [ELaunch (TaskPostTNS [obj_id] (robot_attr "id" robot) (he_user_id env)
                  (PStr reporters) archival comment 30)] /\
    reporters <> "" /\
    dict_get "reporters" data = Some (PStr reporters) /\
    (archival = PBool true ->
     exists n, py_len comment = Ok n /\ n <> 0).
Proof.
  cbv zeta. unfold ObjTNSHandler_post. cbv zeta.
  destruct (is_none (dict_get_default "tnsrobotID" PNone data)); [discriminate|].
  destruct (dict_get_default "reporters" (PStr "") data) as [| | | |reporters| |] eqn:Hrep;
    try discriminate.
  change (eq_str "" (PStr reporters)) with (String.eqb "" reporters).
  change (negb (is_str (PStr reporters))) with false. rewrite orb_false_r.
  destruct (String.eqb "" reporters) eqn:Hempty; [discriminate|].
  assert (Hget : dict_get "reporters" data = Some (PStr reporters)).
  { unfold dict_get_default in Hrep.
    destruct (dict_get "reporters" data) as [v|]; [congruence|].
    injection Hrep as <-. discriminate. }
  destruct (he_obj env) as [obj|]; [|discriminate].
  destruct (he_robot env) as [robot|]; [|discriminate].
  set (archival := dict_get_default "archival" (PBool false) data).
  set (comment := dict_get_default "archivalComment" (PStr "") data).
  intros H. apply success_bind in H. destruct H as (missing & Hm & H).
  rewrite events_bind, (silent_events _ (emits_archival_comment_missing _ _ _)), Hm.
  destruct missing; [discriminate|].
  apply with_api_key_success in H. destruct H as [-> _].
  exists robot, reporters, archival, comment.
  repeat split; try reflexivity; try discriminate; try exact Hget.
  - intros ->. discriminate.
  - intros Ha. unfold archival_comment_missing in Hm. rewrite Ha in Hm.
    rewrite outcome_bind, outcome_lift in Hm.
    destruct (py_len comment) as [n|e]; [|discriminate].
    exists n. split; [reflexivity|]. rewrite outcome_ret in Hm.
    injection Hm as Hm. apply Z.eqb_neq. exact Hm.
Qed.

Definition archival_push_request : dict :=
  [("tnsrobotID", PInt 1); ("reporters", PStr "A. Reporter");
   ("archival", PBool true); ("archivalComment", PStr "No non-detections")].

Lemma obj_push_task_witness :
  exists robot reporters archival comment,
    he_robot (trigger_env robot_with_key) = Some robot /\
    he_obj (trigger_env robot_with_key) <> None /\
    events (ObjTNSHandler_post json_loads_basic (trigger_env robot_with_key)
              (PStr "ZTF24aa") archival_push_request)
    = [ELaunch (TaskPostTNS [PStr "ZTF24aa"] (robot_attr "id" robot) (PInt 7)
                  (PStr reporters) archival comment 30)] /\
    reporters <> "" /\
    dict_get "reporters" archival_push_request = Some (PStr reporters) /\
    (archival = PBool true ->
     exists n, py_len comment = Ok n /\ n <> 0).
Proof.
  apply (obj_push_task json_loads_basic (trigger_env robot_with_key) (PStr "ZTF24aa")
           archival_push_request).
  vm_compute. reflexivity.
Defined.

(** ** Further properties of [TNSRobotHandler.put] *)

Definition is_setattr (e : event) : bool :=
  match e with ESetAttr _ _ => true | _ => false end.

Lemma writes_are_setattr items : Forall (fun e => is_setattr e = true) (writes_of items).
Proof. induction items as [|[k v] items IH]; simpl; constructor; auto. Qed.

(** X17.  An update commits only when it succeeds.  A request answered
    with an error envelope has done nothing: no attribute set, no commit, no
    broadcast.  A request that ends in an exception has neither committed
    nor broadcast; all it can have done is set attributes on the loaded
    robot before the assignment or the commit that raised.  A request
    answered with success has set every attribute of the validated request,
    in order, then committed once, then broadcast once, with the group id
    the robot has after the assignments. *)
Theorem put_commits_only_on_success
    (db : orm) (robot : Robot) (tnsrobot_id : pyval) (data : dict) :
  let run := TNSRobotHandler_put db (Some robot) tnsrobot_id data in
  match outcome run with
  | Ok (Success _) =>
      exists data',
        outcome (put_validate data) = Ok (inr data') /\
        orm_commit db (run_robot (writes_of data') robot) = Ok tt /\
        events run
        = writes_of data'
          ++ [ECommit;
              EPush "skyportal/REFRESH_TNSROBOTS"
                [("group_id", robot_attr "group_id" (run_robot (events run) robot))]]
  | Ok (Error _) => events run = []
  | Raise _ => Forall (fun e => is_setattr e = true) (events run)
  end.
Proof.
  cbv zeta.
  destruct (put_run db (Some robot) tnsrobot_id data)
    as [(He & Ho)|(r & data' & n & done & rest & [= <-] & Hv & Hn & Hc & Hsplit & H)].
  - rewrite He. destruct Ho as [(m & ->)|(e & ->)]; [reflexivity | constructor].
  - destruct H as [(-> & Hcm & Ho & He)|((e & Ho) & He)]; rewrite Ho.
    + rewrite app_nil_r in Hsplit. subst done. exists data'.
      rewrite run_robot_writes. repeat split; auto.
      rewrite He at 1. rewrite He, run_robot_put_events. reflexivity.
    + rewrite He. apply writes_are_setattr.
Qed.

Lemma int_field_value key err data data' :
  outcome (int_field key err data) = Ok (inr data') ->
  (dict_wf data -> dict_wf data') /\
  (forall k, k <> key -> dict_get k data' = dict_get k data) /\
  match dict_get key data with
  | Some v => exists z, py_int v = Ok z /\ dict_get key data' = Some (PInt z)
  | None => dict_get key data' = None
  end.
Proof.
  unfold int_field. destruct (dict_get key data) as [v|] eqn:Hv.
  - destruct (py_int v) as [z|[m| | | | | | | |]]; try discriminate.
    intros [= <-]. repeat split.
    + apply dict_set_wf.
    + intros k Hk. apply dict_get_set_ne. congruence.
    + exists z. split; [reflexivity | apply dict_get_set_eq].
  - intros [= <-]. rewrite Hv. repeat split; auto.
Qed.

Lemma all_ints_true l :
  outcome (all_ints l) = Ok true -> Forall (fun x => exists z, py_int x = Ok z) l.
Proof.
  induction l as [|x l IH]; simpl; [constructor|].
  destruct (py_int x) as [z|[m| | | | | | | |]] eqn:Hx; try discriminate.
  intros H. constructor; [eauto | apply IH, H].
Qed.

Lemma auto_report_group_ids_field_value data data' :
  outcome (auto_report_group_ids_field data) = Ok (inr data') ->
  (forall k, k <> "auto_report_group_ids" -> k <> "auto_reporters" ->
             dict_get k data' = dict_get k data) /\
  match dict_get "auto_report_group_ids" data with
  | None => data' = data
  | Some v =>
      exists l,
        (v = PList l \/ exists s, v = PStr s /\ l = map PStr (split_comma s)) /\
        dict_get "auto_report_group_ids" data' = Some (PList l) /\
        Forall (fun x => exists z, py_int x = Ok z) l
  end.
Proof.
  unfold auto_report_group_ids_field.
  destruct (dict_get "auto_report_group_ids" data) as [v|] eqn:Hv;
    [|intros [= <-]; split; auto].
  set (data1 := match v with
                | PStr s => dict_set "auto_report_group_ids" (PList (map PStr (split_comma s))) data
                | _ => data
                end).
  assert (H1 : (forall k, k <> "auto_report_group_ids" -> dict_get k data1 = dict_get k data) /\
               ((exists l,
                   (v = PList l \/ exists s, v = PStr s /\ l = map PStr (split_comma s)) /\
                   dict_get "auto_report_group_ids" data1 = Some (PList l))
                \/ (dict_get "auto_report_group_ids" data1 = Some v /\
                    forall l, v <> PList l))).
  { unfold data1. destruct v as [| | | |s|l|]; (split; [try reflexivity|]).
    all: try (right; split; [exact Hv | discriminate]).
    - intros k Hk. apply dict_get_set_ne. congruence.
    - left. exists (map PStr (split_comma s)). split; [right; eauto | apply dict_get_set_eq].
    - left. exists l. split; [left; reflexivity | exact Hv]. }
  destruct H1 as (Hkeep & [(l & Hl & Hget)|(Hget & Hno)]); cbv zeta; fold data1;
    unfold dict_get_default; rewrite Hget.
  - rewrite outcome_bind. destruct (outcome (all_ints l)) as [[|]|e] eqn:Hall;
      try discriminate.
    apply all_ints_true in Hall.
    destruct l as [|x l']; intros [= <-]; split.
    + intros k Hk Hk'. rewrite dict_get_set_ne by congruence. apply Hkeep, Hk.
    + exists []. repeat split; auto. rewrite dict_get_set_ne by discriminate. exact Hget.
    + intros k Hk _. apply Hkeep, Hk.
    + exists (x :: l'). repeat split; auto.
  - destruct v; try discriminate. destruct (Hno _ eq_refl).
Qed.

(** The request as the validation of [put] hands it to the [setattr] loop. *)
Lemma put_validate_fields data data' :
  outcome (put_validate data) = Ok (inr data') ->
  (dict_wf data -> dict_wf data') /\
  (forall key, key = "bot_id" \/ key = "source_group_id" ->
     match dict_get key data with
     | Some v => exists z, py_int v = Ok z /\ dict_get key data' = Some (PInt z)
     | None => dict_get key data' = None
     end) /\
  match dict_get "bot_name" data with
  | Some v => exists s, v = PStr s /\ s <> "" /\ dict_get "bot_name" data' = Some v
  | None => dict_get "bot_name" data' = None
  end /\
  match dict_get "auto_report_group_ids" data with
  | None => dict_get "auto_report_group_ids" data' = None
  | Some v =>
      exists l,
        (v = PList l \/ exists s, v = PStr s /\ l = map PStr (split_comma s)) /\
        dict_get "auto_report_group_ids" data' = Some (PList l) /\
        Forall (fun x => exists z, py_int x = Ok z) l
  end.
Proof.
  unfold put_validate. rewrite outcome_bind.
  destruct (outcome (int_field "bot_id" BotIdMustBeInteger data)) as [[e1|d1]|] eqn:H1;
    try discriminate.
  rewrite outcome_bind.
  destruct (outcome (bot_name_field d1)) as [[e2|d2]|] eqn:H2; try discriminate.
  rewrite outcome_bind.
  destruct (outcome (int_field "source_group_id" SourceGroupIdMustBeInteger d2))
    as [[e3|d3]|] eqn:H3; try discriminate.
  intros H4.
  apply int_field_value in H1, H3. destruct H1 as (W1 & K1 & V1), H3 as (W3 & K3 & V3).
  pose proof (auto_report_group_ids_field_outcome d3) as Ho. rewrite H4 in Ho.
  destruct Ho as (W4 & _ & _).
  apply auto_report_group_ids_field_value in H4. destruct H4 as (K4 & V4).
  assert (Hname : d2 = d1 /\
                  match dict_get "bot_name" d1 with
                  | Some v => exists s, v = PStr s /\ s <> ""
                  | None => True
                  end).
  { unfold bot_name_field in H2. destruct (dict_get "bot_name" d1) as [v|].
    - destruct v as [| | | |s| |]; try discriminate.
      destruct s as [|c s]; [discriminate|].
      injection H2 as <-. split; [reflexivity|]. eexists; split; [reflexivity | discriminate].
    - injection H2 as <-. auto. }
  destruct Hname as [-> Hname].
  assert (G : forall k, k <> "auto_report_group_ids" -> k <> "auto_reporters" ->
                        k <> "source_group_id" -> dict_get k data' = dict_get k d1).
  { intros k A B C. rewrite K4, K3; auto. }
  repeat split.
  - auto.
  - intros key [->| ->].
    + rewrite G by discriminate. exact V1.
    + rewrite K4 by discriminate. rewrite K1 in V3 by discriminate. exact V3.
  - rewrite K1 in Hname by discriminate. rewrite G, K1 by discriminate.
    destruct (dict_get "bot_name" data) as [v|]; [|reflexivity].
    destruct Hname as (s & -> & Hs). eauto.
  - rewrite K3, K1 in V4 by discriminate.
    destruct (dict_get "auto_report_group_ids" data) as [v|] eqn:Hg; [exact V4|].
    subst data'. rewrite K3, K1 by discriminate. exact Hg.
Qed.

Lemma put_success (db : orm) (robot : Robot)
    (tnsrobot_id : pyval) (data : dict) :
  let run := TNSRobotHandler_put db (Some robot) tnsrobot_id data in
  is_success (outcome run) = true ->
  exists data' n,
    outcome (put_validate data) = Ok (inr data') /\
    py_len (dict_get_default "auto_report_group_ids" (PList []) data') = Ok n /\
    Z.ltb 0 n
    && none_or_empty (dict_get_default "auto_reporters" (PStr "") data')
    && none_or_empty (robot_attr "auto_reporters" robot) = false /\
    run_robot (events run) robot = updated data' robot.
Proof.
  cbv zeta. intros Hs.
  destruct (put_run db (Some robot) tnsrobot_id data)
    as [(He & Ho)|(r & data' & n & done & rest & [= <-] & Hv & Hn & Hc & Hsplit & H)].
  - destruct Ho as [(m & Ho)|(e & Ho)]; rewrite Ho in Hs; discriminate.
  - destruct H as [(-> & Hcm & Ho & He)|((e & Ho) & He)];
      [|rewrite Ho in Hs; discriminate].
    rewrite app_nil_r in Hsplit. subst done.
    exists data', n. repeat split; auto.
    rewrite He. apply run_robot_put_events.
Qed.







(** X20.  After an update answered with success that supplies a non-empty
    list of [auto_report_group_ids] and does not itself supply an empty
    [auto_reporters], the robot has reporters: those of the request, or,
    when the request has none, those it had before. *)
Theorem put_keeps_reporters_with_groups
    (db : orm) (robot : Robot) (tnsrobot_id : pyval) (data : dict)
    (x : pyval) (l : list pyval) :
  let run := TNSRobotHandler_put db (Some robot) tnsrobot_id data in
  dict_wf data ->
  dict_get "auto_report_group_ids" data = Some (PList (x :: l)) ->
  dict_get "auto_reporters" data <> Some (PStr "") ->
  dict_get "auto_reporters" data <> Some PNone ->
  is_success (outcome run) = true ->
  none_or_empty (robot_attr "auto_reporters" (run_robot (events run) robot)) = false.
Proof.
  cbv zeta. intros Hwf Hget He Hn Hs.
  destruct (put_success db robot tnsrobot_id data Hs) as (data' & n & Hv & Hlen & Hc & ->).
  destruct (put_validate_fields data data' Hv) as (W & _ & _ & Hg).
  pose proof (put_validate_outcome data) as Ho. rewrite Hv in Ho.
  destruct Ho as (_ & _ & Hrep). rewrite Hget in Hrep, Hg.
  specialize (Hrep ltac:(discriminate)).
  destruct Hg as (l' & [[= <-]|(s & Hs' & _)] & Hl' & _); [|discriminate].
  unfold dict_get_default in Hlen, Hc. rewrite Hl' in Hlen. rewrite Hrep in Hc.
  simpl in Hlen. injection Hlen as <-.
  replace (Z.ltb 0 (Z.of_nat (S (length l)))) with true in Hc
    by (symmetry; apply Z.ltb_lt; lia).
  simpl andb in Hc.
  destruct (dict_get "auto_reporters" data) as [r|] eqn:Hr.
  - assert (Hw : robot_attr "auto_reporters" (updated data' robot) = r).
    { apply updated_written; [auto | exact Hrep | discriminate | discriminate]. }
    rewrite Hw.
    destruct r as [| | | |s| |]; try reflexivity; [congruence|].
    destruct s; [congruence | reflexivity].
  - rewrite updated_untouched; [| |discriminate].
    + simpl in Hc. exact Hc.
    + apply dict_get_None. rewrite Hrep. reflexivity.
Qed.

Definition groups_request : dict := [("auto_report_group_ids", PList [PInt 3])].

Lemma put_keeps_reporters_with_groups_witness :
  none_or_empty
    (robot_attr "auto_reporters"
       (run_robot (events (TNSRobotHandler_put accepting (Some reporting_robot) (PInt 1)
                             groups_request))
          reporting_robot))
  = false.
Proof.
  apply (put_keeps_reporters_with_groups accepting reporting_robot (PInt 1) groups_request
           (PInt 3) []).
  - unfold dict_wf. simpl. repeat constructor. intros H; inversion H.
  - reflexivity.
  - discriminate.
  - discriminate.
  - vm_compute. reflexivity.
Defined.

(** ** Further properties of the spectrum push *)

Definition enough (n : nat) (err : option (list Q)) : Prop :=
  match err with
  | Some es => (n <= length es)%nat
  | None => True
  end.

(** X21.  The file written for the upload has one row per wavelength: the
    wavelength, the flux at the same position and, when the spectrum has
    errors, the error at the same position.  It is written exactly when the
    fluxes (and the errors, if any) are at least as many as the
    wavelengths; otherwise the loop ends in [IndexError].  Fluxes and errors
    beyond the last wavelength are not written. *)
Theorem file_lines_rows (wav flux : list Q) (err : option (list Q)) :
  match file_lines wav flux err with
  | Ok rows =>
      (length wav <= length flux)%nat /\ enough (length wav) err /\
      map (fun row => fst (fst row)) rows = wav /\
      map (fun row => snd (fst row)) rows = firstn (length wav) flux /\
      match err with
      | Some es => map snd rows = map Some (firstn (length wav) es)
      | None => Forall (fun row => snd row = None) rows
      end
  | Raise e =>
      e = IndexError /\
      ((length flux < length wav)%nat \/
       exists es, err = Some es /\ (length es < length wav)%nat)
  end.
Proof.
  revert flux err. induction wav as [|w wav IH]; intros flux err.
  - simpl. repeat split; [lia | destruct err; simpl; lia | destruct err; constructor].
  - destruct flux as [|f flux]; [simpl; split; [reflexivity | left; lia]|].
    destruct err as [[|e es]|].
    + simpl. split; [reflexivity|]. right. exists []. split; [reflexivity | simpl; lia].
    + simpl. specialize (IH flux (Some es)).
      destruct (file_lines wav flux (Some es)) as [rest|x].
      * destruct IH as (H1 & H2 & H3 & H4 & H5). simpl in *.
        repeat split; try lia; congruence.
      * destruct IH as (-> & [H|(es' & [= <-] & H)]); (split; [reflexivity|]).
        -- left. lia.
        -- right. exists (e :: es). split; [reflexivity | simpl; lia].
    + simpl. specialize (IH flux None).
      destruct (file_lines wav flux None) as [rest|x].
      * destruct IH as (H1 & H2 & H3 & H4 & H5). simpl in *.
        repeat split; try lia; try congruence. constructor; [reflexivity | exact H5].
      * destruct IH as (-> & [H|(es' & Hes & _)]); [|discriminate].
        split; [reflexivity | left; lia].
Qed.

Lemma file_lines_len wav flux err rows :
  file_lines wav flux err = Ok rows -> length rows = length wav.
Proof.
  revert flux err rows. induction wav as [|w wav IH]; intros flux err rows; simpl.
  - intros [= <-]. reflexivity.
  - destruct flux as [|f flux]; [discriminate|].
    destruct err as [[|e es]|]; [discriminate| |].
    + destruct (file_lines wav flux (Some es)) as [rest|] eqn:Hr; [|discriminate].
      intros [= <-]. simpl. f_equal. apply (IH _ _ _ Hr).
    + destruct (file_lines wav flux None) as [rest|] eqn:Hr; [|discriminate].
      intros [= <-]. simpl. f_equal. apply (IH _ _ _ Hr).
Qed.

Lemma spectype_id_range v n : spectype_id v = Ok n -> 1 <= n <= 5.
Proof.
  unfold spectype_id, spectrum_types. simpl.
  repeat (destruct (eq_str _ v); [intros [= <-]; lia|]). discriminate.
Qed.

Lemma read_redshift_bound obj z :
  read_redshift (bind_redshift obj) = Ok z ->
  redshift obj = Some z /\ truthy (PFloat z) = true.
Proof.
  unfold read_redshift, bind_redshift.
  destruct (redshift obj) as [q|]; [|discriminate].
  destruct (truthy (PFloat q)) eqn:Hq; [|discriminate].
  intros [= <-]. auto.
Qed.

(** How far a spectrum push got, read off the calls it made to TNS. *)
Inductive push_stage : Type :=
| BeforeName
| NameAsked
| Uploaded (rows : list (Q * Q * option Q))
| Reported (rows : list (Q * Q * option Q)) (report : classification_report).

Definition stage_events (s : push_stage) : list event :=
  match s with
  | BeforeName => []
  | NameAsked => [ETNS GetIAUname]
  | Uploaded rows => [ETNS GetIAUname; ETNS (PostUpload rows)]
  | Reported rows report =>
      [ETNS GetIAUname; ETNS (PostUpload rows); ETNS (PostReport report)]
  end.

Ltac push_ok :=
  match goal with
  | |- context [bind (lift (Ok ?a)) _] =>
      change (lift (Ok a)) with (ret a); rewrite bind_ret
  end.

Lemma spectrum_push_stages json_loads env spectrum_id data :
  let run := SpectrumTNSHandler_post json_loads env spectrum_id data in
  exists stage,
    events run = stage_events stage /\
    match stage with
    | BeforeName | NameAsked => is_success (outcome run) = false
    | Uploaded rows =>
        is_success (outcome run) = false /\
        exists sp, sv_spectrum env = Some sp /\
                   file_lines (sp_wavelengths sp) (sp_fluxes sp) (sp_errors sp) = Ok rows
    | Reported rows report =>
        exists sp tns_name r z,
          sv_spectrum env = Some sp /\
          sv_iauname env = Ok (Some tns_name) /\
          file_lines (sp_wavelengths sp) (sp_fluxes sp) (sp_errors sp) = Ok rows /\
          sv_upload env = Ok r /\ status_code r = 200 /\
          redshift (sp_obj sp) = Some z /\ truthy (PFloat z) = true /\
          cr_name report = tns_name /\
          cr_redshift report = Some z /\
          1 <= sd_spectypeid (cr_spectra report) <= 5 /\
          spectype_id (dict_get_default "spectrumType" (PStr "") data)
          = Ok (sd_spectypeid (cr_spectra report)) /\
          (is_success (outcome run) = true ->
           exists r2 body d tns_id,
             sv_report env = Ok r2 /\ status_code r2 = 200 /\
             response_json r2 = Ok body /\ py_getitem "data" body = Ok d /\
             py_getitem "report_id" d = Ok tns_id /\
             outcome run = Ok (Success (PDict [("tns_id", tns_id)])))
    end.
Proof.
  cbv zeta. unfold SpectrumTNSHandler_post. cbv zeta.
  destruct (is_none (dict_get_default "tnsrobotID" PNone data));
    [exists BeforeName; split; reflexivity|].
  destruct (sv_robot env) as [robot|]; [|exists BeforeName; split; reflexivity].
  destruct (altdata json_loads robot) as [ad|e]; [|exists BeforeName; split; reflexivity].
  push_ok.
  destruct (negb (truthy ad)); [exists BeforeName; split; reflexivity|].
  destruct (sv_spectrum env) as [sp|] eqn:Hsp; [|exists BeforeName; split; reflexivity].
  destruct (py_getitem "api_key" ad) as [key|e]; [|exists BeforeName; split; reflexivity].
  push_ok. rewrite events_emit_bind, outcome_emit_bind.
  destruct (sv_iauname env) as [[tns_name|]|e] eqn:Hname;
    [|exists NameAsked; split; reflexivity | exists NameAsked; split; reflexivity].
  push_ok.
  destruct (spectype_id (dict_get_default "spectrumType" (PStr "") data))
    as [spectype|e] eqn:Hty; [|exists NameAsked; split; reflexivity].
  push_ok. pose proof (spectype_id_range _ _ Hty) as Hrange.
  assert (Hexp : exists x : result pyval,
            (if is_none (sp_altdata sp) then ret PNone
             else lift (py_getitem "EXPTIME" (sp_altdata sp))) = lift x).
  { destruct (is_none (sp_altdata sp)); eexists; [|reflexivity].
    change (ret PNone) with (lift (Ok PNone)). reflexivity. }
  destruct Hexp as [[exposure_time|e] ->]; [|exists NameAsked; split; reflexivity].
  push_ok.
  destruct (file_lines (sp_wavelengths sp) (sp_fluxes sp) (sp_errors sp))
    as [rows|e] eqn:Hrows; [|exists NameAsked; split; reflexivity].
  push_ok. cbv zeta. rewrite events_emit_bind, outcome_emit_bind.
  destruct (sv_upload env) as [r|e] eqn:Hup;
    [|exists (Uploaded rows); repeat split; eauto].
  push_ok.
  destruct (Z.eqb (status_code r) 200) eqn:H200; simpl negb; cbv iota;
    [|exists (Uploaded rows); repeat split; eauto].
  apply Z.eqb_eq in H200.
  destruct (read_redshift (bind_redshift (sp_obj sp))) as [z|e] eqn:Hz;
    [|exists (Uploaded rows); repeat split; eauto].
  push_ok. apply read_redshift_bound in Hz. destruct Hz as [Hz Hz'].
  rewrite events_emit_bind, outcome_emit_bind.
  match goal with
  | |- context [ETNS (PostReport ?rep)] => exists (Reported rows rep)
  end.
  assert (Hsilent : forall k : Response -> M envelope,
            (forall r2, events (k r2) = []) ->
            events (bind (lift (sv_report env)) k) = []).
  { intros k Hk. rewrite events_bind, events_lift, outcome_lift.
    destruct (sv_report env); [apply Hk | reflexivity]. }
  split.
  - simpl stage_events. do 3 f_equal. apply Hsilent. intros r2.
    destruct (Z.eqb (status_code r2) 200); [|reflexivity].
    destruct (response_json r2) as [body|]; [|reflexivity]. push_ok.
    destruct (py_getitem "data" body) as [d|]; [|reflexivity]. push_ok.
    destruct (py_getitem "report_id" d) as [t|]; [|reflexivity]. push_ok.
    reflexivity.
  - exists sp, tns_name, r, z. repeat split; auto; try (simpl; lia).
    destruct (sv_report env) as [r2|e]; [|discriminate]. push_ok.
    destruct (Z.eqb (status_code r2) 200) eqn:H2; [|discriminate].
    apply Z.eqb_eq in H2.
    destruct (response_json r2) as [body|] eqn:Hb; [|discriminate]. push_ok.
    destruct (py_getitem "data" body) as [d|] eqn:Hd; [|discriminate]. push_ok.
    destruct (py_getitem "report_id" d) as [t|] eqn:Ht; [|discriminate]. push_ok.
    intros _. exists r2, body, d, t. repeat split; auto.
Qed.

(** *** The spectrum type (C7) *)

(** C7 (code bug).  The index sent in the report is the position of
    [spectrumType] in ['object', 'host', 'sky', 'arcs', 'synthetic'], counted
    from 1.  A value outside the list is not answered with an error
    envelope: [list.index] raises [ValueError] and nothing catches it.  The
    push then makes neither the upload nor the report request, but when all
    that comes before the look-up goes through, TNS has already been asked
    for the name, and the exception is what the caller gets. *)
Theorem unknown_spectrum_type_raises :
  spectype_id (PStr "object") = Ok 1 /\
  spectype_id (PStr "host") = Ok 2 /\
  spectype_id (PStr "sky") = Ok 3 /\
  spectype_id (PStr "arcs") = Ok 4 /\
  spectype_id (PStr "synthetic") = Ok 5 /\
  (forall json_loads env spectrum_id data report,
     In (ETNS (PostReport report))
        (events (SpectrumTNSHandler_post json_loads env spectrum_id data)) ->
     spectype_id (dict_get_default "spectrumType" (PStr "") data)
     = Ok (sd_spectypeid (cr_spectra report))) /\
  forall v,
    v <> PStr "object" -> v <> PStr "host" -> v <> PStr "sky" ->
    v <> PStr "arcs" -> v <> PStr "synthetic" ->
    forall json_loads env spectrum_id data,
      dict_get_default "spectrumType" (PStr "") data = v ->
      blocked (fun e => is_upload e = false /\ is_report e = false)
        (SpectrumTNSHandler_post json_loads env spectrum_id data) /\
      (forall m, outcome (SpectrumTNSHandler_post json_loads env spectrum_id data)
                 <> Ok (Error (NotInList m))) /\
      forall robot ad key sp tns_name,
        is_none (dict_get_default "tnsrobotID" PNone data) = false ->
        sv_robot env = Some robot ->
        altdata json_loads robot = Ok ad -> truthy ad = true ->
        py_getitem "api_key" ad = Ok key ->
        sv_spectrum env = Some sp ->
        sv_iauname env = Ok (Some tns_name) ->
        SpectrumTNSHandler_post json_loads env spectrum_id data
        = ([ETNS GetIAUname], Raise (ValueError (NotInList v))).
Proof.
  repeat (split; [reflexivity|]). split.
  - intros json_loads env spectrum_id data report Hin.
    destruct (spectrum_push_stages json_loads env spectrum_id data) as (stage & He & H).
    cbv zeta in He, H. rewrite He in Hin.
    destruct stage as [| |rows|rows report']; simpl in Hin.
    + contradiction.
    + destruct Hin as [Hin|[]]. discriminate.
    + destruct Hin as [Hin|[Hin|[]]]; discriminate.
    + destruct Hin as [Hin|[Hin|[Hin|[]]]]; try discriminate.
      injection Hin as <-.
      destruct H as (sp & tns_name & r & z & _ & _ & _ & _ & _ & _ & _ & _ & _ & _ & H & _).
      exact H.
  - intros v H1 H2 H3 H4 H5 json_loads env spectrum_id data Hv.
    pose proof (spectrum_type_unknown v H1 H2 H3 H4 H5) as Hid.
    split; [|split].
    + unfold SpectrumTNSHandler_post. rewrite Hv, Hid. cbv zeta.
      blocked_tac; discriminate.
    + intros m. unfold SpectrumTNSHandler_post. rewrite Hv, Hid. cbv zeta.
      destruct (is_none _); [discriminate|].
      destruct (sv_robot env) as [rb|]; [|discriminate].
      rewrite outcome_bind, outcome_lift.
      destruct (altdata json_loads rb) as [ad|]; [|discriminate].
      destruct (negb (truthy ad)); [discriminate|].
      destruct (sv_spectrum env); [|discriminate].
      rewrite outcome_bind, outcome_lift.
      destruct (py_getitem "api_key" ad); [|discriminate].
      rewrite outcome_emit_bind, outcome_bind, outcome_lift.
      destruct (sv_iauname env) as [[n|]|]; discriminate.
    + intros robot ad key sp tns_name Hrid Hrobot Had Htruthy Hkey Hsp Hname.
      unfold SpectrumTNSHandler_post. cbv zeta.
      rewrite Hrid, Hrobot, Had, Hsp, Hname, Hv, Hid.
      change (lift (Ok ad)) with (ret ad). rewrite bind_ret, Htruthy, Hkey.
      reflexivity.
Qed.

Lemma unknown_spectrum_type_raises_witness :
  SpectrumTNSHandler_post json_loads_basic (push_env robot_with_key (Some (1#2)%Q))
    (PInt 3) (push_request "galaxy")
  = ([ETNS GetIAUname], Raise (ValueError (NotInList (PStr "galaxy")))).
Proof.
  destruct unknown_spectrum_type_raises as (_ & _ & _ & _ & _ & _ & H).
  destruct (H (PStr "galaxy") ltac:(discriminate) ltac:(discriminate) ltac:(discriminate)
              ltac:(discriminate) ltac:(discriminate)
              json_loads_basic (push_env robot_with_key (Some (1#2)%Q)) (PInt 3)
              (push_request "galaxy") eq_refl) as (_ & _ & H').
  apply (H' robot_with_key (PDict [("api_key", PStr "secret")]) (PStr "secret")
            (sample_spectrum (Some (1#2)%Q)) "2024abc").
  - reflexivity.
  - reflexivity.
  - vm_compute. reflexivity.
  - reflexivity.
  - reflexivity.
  - reflexivity.
  - reflexivity.
Defined.

(** A request with [spectrumType] "host" reports index 2. *)
Example host_spectrum_reports_two :
  exists rows report,
    events (SpectrumTNSHandler_post json_loads_basic
              (push_env robot_with_key (Some (1#2)%Q)) (PInt 3) (push_request "host"))
    = [ETNS GetIAUname; ETNS (PostUpload rows); ETNS (PostReport report)] /\
    sd_spectypeid (cr_spectra report) = 2.
Proof. eexists. eexists. split; vm_compute; reflexivity. Qed.

(** X22.  Whatever the request and the answers of TNS, the spectrum push
    makes its calls in one order and at most once each: the name look-up,
    then the upload, then the report.  The upload carries the rows of the
    spectrum's file; the report is sent only after an upload answered with
    200 and only for an object with a redshift that is not zero; the push
    answers with success only after the report. *)
Theorem spectrum_push_call_order
    (json_loads : string -> option pyval) (env : spectrum_env) (spectrum_id : pyval)
    (data : dict) :
  let run := SpectrumTNSHandler_post json_loads env spectrum_id data in
  exists stage,
    events run = stage_events stage /\
    match stage with
    | BeforeName | NameAsked => is_success (outcome run) = false
    | Uploaded rows =>
        is_success (outcome run) = false /\
        exists sp, sv_spectrum env = Some sp /\
                   file_lines (sp_wavelengths sp) (sp_fluxes sp) (sp_errors sp) = Ok rows
    | Reported rows report =>
        exists sp r z,
          sv_spectrum env = Some sp /\
          file_lines (sp_wavelengths sp) (sp_fluxes sp) (sp_errors sp) = Ok rows /\
          sv_upload env = Ok r /\ status_code r = 200 /\
          redshift (sp_obj sp) = Some z /\ truthy (PFloat z) = true
    end.
Proof.
  cbv zeta.
  destruct (spectrum_push_stages json_loads env spectrum_id data) as (stage & He & H).
  exists stage. split; [exact He|].
  destruct stage as [| |rows|rows report]; auto.
  destruct H as (sp & tns_name & r & z & H1 & H2 & H3 & H4 & H5 & H6 & H7 & _).
  exists sp, r, z. repeat split; assumption.
Qed.

(** X23.  A spectrum push answered with success has made exactly three
    calls to TNS: the name look-up, one upload and one report.  The report
    is filed under the name TNS resolved, carries the redshift of the
    spectrum's object and a spectrum type between 1 and 5, and the answer
    returns the [report_id] of the reply to the report. *)
Theorem spectrum_push_success
    (json_loads : string -> option pyval) (env : spectrum_env) (spectrum_id : pyval)
    (data : dict) :
  let run := SpectrumTNSHandler_post json_loads env spectrum_id data in
  is_success (outcome run) = true ->
  exists sp tns_name z rows report r2 body d tns_id,
    sv_spectrum env = Some sp /\
    sv_iauname env = Ok (Some tns_name) /\
    redshift (sp_obj sp) = Some z /\
    events run = [ETNS GetIAUname; ETNS (PostUpload rows); ETNS (PostReport report)] /\
    length rows = length (sp_wavelengths sp) /\
    cr_name report = tns_name /\
    cr_redshift report = Some z /\
    1 <= sd_spectypeid (cr_spectra report) <= 5 /\
    sv_report env = Ok r2 /\ status_code r2 = 200 /\
    response_json r2 = Ok body /\ py_getitem "data" body = Ok d /\
    py_getitem "report_id" d = Ok tns_id /\
    outcome run = Ok (Success (PDict [("tns_id", tns_id)])).
Proof.
  cbv zeta. intros Hs.
  destruct (spectrum_push_stages json_loads env spectrum_id data) as (stage & He & H).
  destruct stage as [| |rows|rows report]; try congruence; [destruct H; congruence|].
  destruct H as (sp & tns_name & r & z & H1 & H2 & H3 & H4 & H5 & H6 & H7 & H8 & H9
                 & H10 & _ & H11).
  destruct (H11 Hs) as (r2 & body & d & tns_id & R1 & R2 & R3 & R4 & R5 & R6).
  exists sp, tns_name, z, rows, report, r2, body, d, tns_id.
  repeat split; auto; try lia.
  pose proof (file_lines_len _ _ _ _ H3) as Hlen. exact Hlen.
Qed.

Lemma spectrum_push_success_witness :
  exists sp tns_name z rows report r2 body d tns_id,
    sv_spectrum (push_env robot_with_key (Some (1#2)%Q)) = Some sp /\
    sv_iauname (push_env robot_with_key (Some (1#2)%Q)) = Ok (Some tns_name) /\
    redshift (sp_obj sp) = Some z /\
    events (SpectrumTNSHandler_post json_loads_basic
              (push_env robot_with_key (Some (1#2)%Q)) (PInt 3) (push_request "host"))
    = [ETNS GetIAUname; ETNS (PostUpload rows); ETNS (PostReport report)] /\
    length rows = length (sp_wavelengths sp) /\
    cr_name report = tns_name /\
    cr_redshift report = Some z /\
    1 <= sd_spectypeid (cr_spectra report) <= 5 /\
    sv_report (push_env robot_with_key (Some (1#2)%Q)) = Ok r2 /\ status_code r2 = 200 /\
    response_json r2 = Ok body /\ py_getitem "data" body = Ok d /\
    py_getitem "report_id" d = Ok tns_id /\
    outcome (SpectrumTNSHandler_post json_loads_basic
               (push_env robot_with_key (Some (1#2)%Q)) (PInt 3) (push_request "host"))
    = Ok (Success (PDict [("tns_id", tns_id)])).
Proof.
  apply (spectrum_push_success json_loads_basic (push_env robot_with_key (Some (1#2)%Q))
           (PInt 3) (push_request "host")).
  vm_compute. reflexivity.
Defined.

(** ** An update of the credentials, read back *)

Lemma put_validate_keeps data data' :
  outcome (put_validate data) = Ok (inr data') ->
  forall k, k <> "bot_id" -> k <> "source_group_id" ->
            k <> "auto_report_group_ids" -> k <> "auto_reporters" ->
            dict_get k data' = dict_get k data.
Proof.
  unfold put_validate. rewrite outcome_bind.
  destruct (outcome (int_field "bot_id" BotIdMustBeInteger data)) as [[e1|d1]|] eqn:H1;
    try discriminate.
  rewrite outcome_bind.
  pose proof (bot_name_field_outcome d1) as H2.
  destruct (outcome (bot_name_field d1)) as [[e2|d2]|]; try discriminate. subst d2.
  rewrite outcome_bind.
  destruct (outcome (int_field "source_group_id" SourceGroupIdMustBeInteger d1))
    as [[e3|d3]|] eqn:H3; try discriminate.
  intros H4 k A B C D.
  apply int_field_value in H1, H3. destruct H1 as (_ & K1 & _), H3 as (_ & K3 & _).
  apply auto_report_group_ids_field_value in H4. destruct H4 as (K4 & _).
  rewrite K4, K3, K1; auto.
Qed.

Lemma updated_column_untouched items (r : Robot) :
  ~ In "altdata" (map fst items) -> ~ In "_altdata" (map fst items) ->
  robot_attr "_altdata" (updated items r) = robot_attr "_altdata" r.
Proof.
  revert r. induction items as [|[k v] items IH]; intros r Ha Hc; [reflexivity|].
  simpl in *. unfold updated in IH. rewrite IH by tauto.
  unfold robot_attr, setattr.
  destruct (String.eqb k "altdata") eqn:E.
  - apply String.eqb_eq in E. tauto.
  - rewrite lookup_insert_ne; [reflexivity|]. intros ->. tauto.
Qed.

Lemma updated_altdata v items (r : Robot) :
  dict_wf items -> dict_get "altdata" items = Some v ->
  dict_get "_altdata" items = None ->
  robot_attr "_altdata" (updated items r) = v.
Proof.
  unfold dict_wf. intros Hwf Hget Hnone. revert r.
  induction items as [|[k' v'] items IH]; intros r; [discriminate|].
  assert (Hcons : forall k, dict_get k ((k', v') :: items)
                            = if String.eqb k k' then Some v' else dict_get k items)
    by reflexivity.
  rewrite Hcons in Hget, Hnone.
  change (map fst ((k', v') :: items)) with (k' :: map fst items) in Hwf.
  inversion Hwf as [|? ? Hnotin Hwf']; subst.
  rewrite list_elem_of_In in Hnotin.
  destruct (String.eqb "_altdata" k') eqn:Ec; [discriminate|].
  change (updated ((k', v') :: items) r) with (updated items (setattr k' v' r)).
  destruct (String.eqb "altdata" k') eqn:E.
  - apply String.eqb_eq in E. subst k'. injection Hget as ->.
    rewrite updated_column_untouched; [| exact Hnotin | apply dict_get_None, Hnone].
    unfold robot_attr, setattr, set_altdata.
    rewrite String.eqb_refl, lookup_insert_eq. reflexivity.
  - apply IH; assumption.
Qed.

(** X24.  Credentials sent with an update are what the accessor returns
    afterwards.  After an update answered with success whose request holds
    JSON text under [altdata] (and nothing under the column name
    [_altdata]), reading [altdata] from the robot gives the decoded
    text. *)
Theorem put_then_altdata
    (json_loads : string -> option pyval) (db : orm)
    (robot : Robot) (tnsrobot_id : pyval) (data : dict) (text : string) (v : pyval) :
  let run := TNSRobotHandler_put db (Some robot) tnsrobot_id data in
  dict_wf data ->
  dict_get "altdata" data = Some (PStr text) ->
  dict_get "_altdata" data = None ->
  json_loads text = Some v ->
  is_success (outcome run) = true ->
  altdata json_loads (run_robot (events run) robot) = Ok v.
Proof.
  cbv zeta. intros Hwf Hget Hnone Hjson Hs.
  destruct (put_success db robot tnsrobot_id data Hs) as (data' & n & Hv & _ & _ & ->).
  destruct (put_validate_fields data data' Hv) as (W & _).
  pose proof (put_validate_keeps data data' Hv) as K.
  unfold altdata. rewrite (updated_altdata (PStr text)); auto.
  - rewrite Hjson. reflexivity.
  - rewrite K by discriminate. exact Hget.
  - rewrite K by discriminate. exact Hnone.
Qed.

Definition credentials_request : dict :=
  [("altdata", PStr (object_text "api_key" "new-secret"))].

Lemma put_then_altdata_witness :
  altdata json_loads_basic
    (run_robot (events (TNSRobotHandler_put accepting (Some robot_with_key) (PInt 1)
                          credentials_request))
       robot_with_key)
  = Ok (PDict [("api_key", PStr "new-secret")]).
Proof.
  apply (put_then_altdata json_loads_basic accepting robot_with_key (PInt 1) credentials_request
           (object_text "api_key" "new-secret")).
  - unfold dict_wf. simpl. repeat constructor. intros H; inversion H.
  - reflexivity.
  - reflexivity.
  - vm_compute. reflexivity.
  - vm_compute. reflexivity.
Defined.
